(** * build-site.py: the README parser and page generator, verified

    A shallow embedding of [parse_readme] and [generate_html] of
    [src/build-site.py], and theorems about the paper collection, the
    normalisation passes, the co-occurrence matrix and the embedded
    dataset.

    Text is modelled as [string]: a sequence of code points below 256.
    Python's [str] holds arbitrary Unicode code points; every operation
    used by the program ([str.strip], [str.split], [re.match], [==],
    [sorted]) works code point by code point, so the restriction only
    bounds the alphabet. *)

From Stdlib Require Import Ascii String DecimalString DecimalNat.
From stdpp Require Import gmap strings list fin_maps sorting.

Local Open Scope string_scope.
Local Open Scope list_scope.

(** ** Text primitives of the Python runtime *)

Module Text.

(** [str.isspace] on one code point, which is also the class [\s] of
    [re] on [str] patterns: TAB..CR, FS..US, SPACE, NEL and NBSP are the
    whitespace code points below 256. *)
Definition isspace (c : ascii) : bool :=
  let n := nat_of_ascii c in
  (((9 <=? n) && (n <=? 13)) || ((28 <=? n) && (n <=? 32))
   || (n =? 133) || (n =? 160))%nat.

(** The class [.] of [re] without DOTALL: anything but a line feed. *)
Definition dot (c : ascii) : bool := negb (nat_of_ascii c =? 10)%nat.

Definition NL : string := String (ascii_of_nat 10) "".

Fixpoint lstrip (s : string) : string :=
  match s with
  | String c s' => if isspace c then lstrip s' else s
  | "" => ""
  end.

Fixpoint rstrip (s : string) : string :=
  match s with
  | String c s' =>
      match rstrip s' with
      | "" => if isspace c then "" else String c ""
      | r => String c r
      end
  | "" => ""
  end.

(** [s.strip()] *)
Definition strip (s : string) : string := rstrip (lstrip s).

(** [strip_prefix p s] is the rest of [s] after its prefix [p]. *)
Fixpoint strip_prefix (p s : string) : option string :=
  match p, s with
  | "", _ => Some s
  | String a p', String b s' =>
      if Ascii.eqb a b then strip_prefix p' s' else None
  | String _ _, "" => None
  end.

Definition starts_with (p s : string) : bool :=
  match strip_prefix p s with Some _ => true | None => false end.

(** Splitting on a literal, non-empty separator, leftmost occurrences
    first and without overlap: [s.split(sep)], and [re.split] with a
    pattern that is a literal. [skip] counts the characters of a
    separator that are still to be passed over. The result is the piece
    in progress and the pieces after it. *)
Fixpoint split_go (sep : string) (skip : nat) (s : string)
  : string * list string :=
  match s with
  | "" => ("", [])
  | String c s' =>
      match skip with
      | S n => split_go sep n s'
      | O =>
          if starts_with sep s
          then ("", let '(p, ps) := split_go sep (String.length sep - 1) s'
                    in p :: ps)
          else let '(p, ps) := split_go sep 0 s' in (String c p, ps)
      end
  end.

Definition split (sep s : string) : list string :=
  let '(p, ps) := split_go sep 0 s in p :: ps.

End Text.

(** ** The fragment of [re] the program uses

    Every pattern of the source is a sequence of literals and of
    repetitions of a one-character class, greedy or lazy, captured or
    not. [re_match] is [re.match]: anchored at the start of the subject,
    free at its end, backtracking over the repetitions in the order
    Python tries them. It returns the captured groups in order. *)

Module Re.
Import Text.

Inductive quant := Star | Plus.
Inductive mode := Greedy | Lazy.

Inductive item :=
| Lit (s : string)
| Rep (cls : ascii → bool) (q : quant) (m : mode) (grp : bool).

Definition cont := string → option (list string).

(** Lazy repetition: first try to go on with what has been consumed,
    take one more character only when that fails. *)
Fixpoint rep_lazy (cls : ascii → bool) (k : cont) (acc s : string)
  : option (string * list string) :=
  match k s with
  | Some gs => Some (acc, gs)
  | None =>
      match s with
      | String c s' =>
          if cls c then rep_lazy cls k (acc +:+ String c "") s' else None
      | "" => None
      end
  end.

(** Greedy repetition: take characters while the class allows, and on
    the way back try to go on from each position, longest first. *)
Fixpoint rep_greedy (cls : ascii → bool) (k : cont) (acc s : string)
  : option (string * list string) :=
  let here := (λ gs, (acc, gs)) <$> k s in
  match s with
  | String c s' =>
      if cls c then
        match rep_greedy cls k (acc +:+ String c "") s' with
        | Some r => Some r
        | None => here
        end
      else here
  | "" => here
  end.

Definition rep_from (m : mode) :=
  match m with Greedy => rep_greedy | Lazy => rep_lazy end.

Definition rep (cls : ascii → bool) (q : quant) (m : mode) (k : cont)
    (s : string) : option (string * list string) :=
  match q with
  | Star => rep_from m cls k "" s
  | Plus =>
      match s with
      | String c s' =>
          if cls c then rep_from m cls k (String c "") s' else None
      | "" => None
      end
  end.

Fixpoint re_match (p : list item) (s : string) : option (list string) :=
  match p with
  | [] => Some []
  | Lit l :: p' =>
      match strip_prefix l s with
      | Some r => re_match p' r
      | None => None
      end
  | Rep cls q m grp :: p' =>
      match rep cls q m (re_match p') s with
      | Some (g, gs) => Some (if grp then g :: gs else gs)
      | None => None
      end
  end.

(** Number of capturing groups of a pattern. *)
Fixpoint groups (p : list item) : nat :=
  match p with
  | [] => 0
  | Rep _ _ _ true :: p' => S (groups p')
  | _ :: p' => groups p'
  end.

End Re.

Import Text Re.

(** ** The patterns of [parse_readme] *)

(** [r"- \*\*\[(.+?)\]\((.+?)\)\*\*"] *)
Definition title_re : list item :=
  [Lit "- **["; Rep dot Plus Lazy true; Lit "](";
   Rep dot Plus Lazy true; Lit ")**"].

(** [r"\s*- Methodology:\s*(.+)"] and its two siblings *)
Definition meta_re (key : string) : list item :=
  [Rep isspace Star Greedy false; Lit ("- " +:+ key +:+ ":");
   Rep isspace Star Greedy false; Rep dot Plus Greedy true].

Definition meth_re : list item := meta_re "Methodology".
Definition pub_re : list item := meta_re "Published".
Definition sum_re : list item := meta_re "Summary".

(** ** Data model *)

(** A paper is the dict built at [current_paper = {...}]. The key
    ["is_review"] is absent until the review pass adds it: [None] stands
    for the absent key. *)
Record paper := Paper {
  p_id : nat;
  p_title : string;
  p_url : string;
  p_methodologies : list string;
  p_applications : list string;
  p_published : string;
  p_summary : string;
  p_is_review : option bool
}.

Definition with_methodologies (ms : list string) (p : paper) : paper :=
  Paper (p_id p) (p_title p) (p_url p) ms (p_applications p)
        (p_published p) (p_summary p) (p_is_review p).

Definition with_applications (apps : list string) (p : paper) : paper :=
  Paper (p_id p) (p_title p) (p_url p) (p_methodologies p) apps
        (p_published p) (p_summary p) (p_is_review p).

Definition with_published (s : string) (p : paper) : paper :=
  Paper (p_id p) (p_title p) (p_url p) (p_methodologies p) (p_applications p)
        s (p_summary p) (p_is_review p).

Definition with_summary (s : string) (p : paper) : paper :=
  Paper (p_id p) (p_title p) (p_url p) (p_methodologies p) (p_applications p)
        (p_published p) s (p_is_review p).

Definition with_is_review (b : bool) (p : paper) : paper :=
  Paper (p_id p) (p_title p) (p_url p) (p_methodologies p) (p_applications p)
        (p_published p) (p_summary p) (Some b).

(** The three variables [parse_readme] threads through its section loop. *)
Record state := State {
  papers : list paper;
  seen_urls : gmap string nat;
  paper_id : nat
}.

Definition init : state := State [] ∅ 0.

(** An insertion-ordered [dict] with string keys: [d[k] = v] replaces the
    value of a key that is present and appends a key that is not. *)
Definition dict (V : Type) := list (string * V).

Fixpoint dict_set {V} (k : string) (v : V) (d : dict V) : dict V :=
  match d with
  | [] => [(k, v)]
  | (k', v') :: d' =>
      if String.eqb k' k then (k', v) :: d' else (k', v') :: dict_set k v d'
  end.

Fixpoint dict_get {V} (k : string) (d : dict V) : option V :=
  match d with
  | [] => None
  | (k', v') :: d' => if String.eqb k' k then Some v' else dict_get k d'
  end.

Definition dict_keys {V} (d : dict V) : list string := d.*1.

(** The dict [parse_readme] returns. *)
Record dataset := Dataset {
  d_papers : list paper;
  d_applications : list string;
  d_methodologies : list string;
  d_matrix : dict (dict nat);
  d_lastUpdated : string
}.

(** ** The section loop of [parse_readme] *)

Fixpoint foldM {A B} (f : A → B → option A) (a : A) (l : list B) : option A :=
  match l with
  | [] => Some a
  | x :: l' => a' ← f a x; foldM f a' l'
  end.

(** [re.match] with the title pattern, as its two groups. The pattern
    has two groups, so the last case is the absence of a match. *)
Definition title_match (line : string) : option (string * string) :=
  match re_match title_re line with
  | Some [t; u] => Some (t, u)
  | _ => None
  end.

(** [re.match(p, line)] for a pattern with one group, as [group(1)]. *)
Definition group1 (p : list item) (line : string) : option string :=
  match re_match p line with
  | Some [g] => Some g
  | _ => None
  end.

(** The block that commits a pending record; the source has it twice, at
    a title line and after the line loop. [None] is the [IndexError] of
    [papers[seen_urls[url]]]. *)
Definition finalize (category : string) (current_paper : paper) (st : state)
  : option state :=
  let url := p_url current_paper in
  match seen_urls st !! url with
  | Some i =>
      existing ← papers st !! i;
      if bool_decide (category ∈ p_applications existing) then Some st
      else
        Some (State
                (<[i := with_applications
                          (p_applications existing ++ [category]) existing]>
                   (papers st))
                (seen_urls st) (paper_id st))
  | None =>
      Some (State (papers st ++ [current_paper])
                  (<[url := length (papers st)]> (seen_urls st))
                  (paper_id st + 1))
  end.

Definition flush (category : string) (current_paper : option paper)
    (st : state) : option state :=
  match current_paper with
  | Some cp => finalize category cp st
  | None => Some st
  end.

Definition new_paper (i : nat) (t u category : string) : paper :=
  Paper i t u [] [category] "" "" None.

(** The metadata branch: the three matches, then the [if]/[elif] chain. *)
Definition set_metadata (line : string) (cp : paper) : paper :=
  match group1 meth_re line, group1 pub_re line, group1 sum_re line with
  | Some g, _, _ => with_methodologies (strip <$> split "," g) cp
  | None, Some g, _ => with_published (strip g) cp
  | None, None, Some g => with_summary (strip g) cp
  | None, None, None => cp
  end.

(** One iteration of [for line in lines[1:]]. *)
Definition scan_line (category : string) (acc : state * option paper)
    (line : string) : option (state * option paper) :=
  let '(st, current_paper) := acc in
  match title_match line with
  | Some (t, u) =>
      st' ← flush category current_paper st;
      Some (st', Some (new_paper (paper_id st') t u category))
  | None =>
      match current_paper with
      | Some cp => Some (st, Some (set_metadata line cp))
      | None => Some (st, None)
      end
  end.

(** One iteration of [for section in sections[1:]]. [None] in the first
    branch is the [IndexError] of [lines[0]]. *)
Definition scan_section (st : state) (section : string) : option state :=
  match split NL (strip section) with
  | [] => None
  | l0 :: rest =>
      let category := strip l0 in
      if String.eqb category "Table of Contents" then Some st
      else
        '(st', current_paper) ← foldM (scan_line category) (st, None) rest;
        flush category current_paper st'
  end.

Definition SECTION_MARK : string := NL +:+ "## ".

Definition sections (content : string) : list string :=
  split SECTION_MARK content.

(** The loop over [sections[1:]], from the empty collection. *)
Definition scan_document (content : string) : option state :=
  foldM scan_section init (tail (sections content)).

(** ** The declarations of a document, in the words of the specification

    A declaration is a title line of a section that is not the table of
    contents, together with the metadata lines that follow it up to the
    next title line. It is recorded as the category of its section and
    the candidate record, whose identifier is not yet assigned (0). *)

Definition with_id (i : nat) (p : paper) : paper :=
  Paper i (p_title p) (p_url p) (p_methodologies p) (p_applications p)
        (p_published p) (p_summary p) (p_is_review p).

Fixpoint candidates (category : string) (pending : option paper)
    (lines : list string) : list paper :=
  match lines with
  | [] => option_list pending
  | l :: ls =>
      match title_match l with
      | Some (t, u) =>
          option_list pending
          ++ candidates category (Some (new_paper 0 t u category)) ls
      | None => candidates category (set_metadata l <$> pending) ls
      end
  end.

Definition section_declared (section : string) : list (string * paper) :=
  match split NL (strip section) with
  | [] => []
  | l0 :: rest =>
      let category := strip l0 in
      if String.eqb category "Table of Contents" then []
      else (λ c, (category, c)) <$> candidates category None rest
  end.

Definition declared (content : string) : list (string * paper) :=
  s ← tail (sections content); section_declared s.

(** URL [u] is declared under category [c]. *)
Definition declared_under (content u c : string) : Prop :=
  ∃ p, (c, p) ∈ declared content ∧ p_url p = u.

(** The finalize/merge rule applied to one declaration: the candidate
    takes the next identifier and is committed under its category. *)
Definition commit (st : state) (d : string * paper) : option state :=
  finalize d.1 (with_id (paper_id st) d.2) st.

(** The elements of a list in the order of their first occurrence. *)
Definition dedup_first (l : list string) : list string :=
  foldl (λ acc x, if bool_decide (x ∈ acc) then acc else acc ++ [x]) [] l.

Definition declares (u : string) (d : string * paper) : Prop := p_url d.2 = u.

#[global] Instance declares_dec u d : Decision (declares u d) :=
  String.eq_dec (p_url d.2) u.

(** The categories a URL is declared under, in the order of their first
    appearance. *)
Definition categories_of (u : string) (ds : list (string * paper))
  : list string :=
  dedup_first ((filter (declares u) ds).*1).

(** The number of title lines among the lines of a section. *)
Definition title_lines (lines : list string) : nat :=
  length (filter (λ l, is_Some (title_match l)) lines).

(** ** What the collection is, in terms of the declarations

    A candidate as the section loop builds it. *)
Definition candidate_ok (d : string * paper) : Prop :=
  p_id d.2 = 0 ∧ p_title d.2 ≠ "" ∧ p_url d.2 ≠ ""
  ∧ p_applications d.2 = [d.1] ∧ p_is_review d.2 = None.

(** The record of URL [u] at position [i]: the first declaration of [u]
    with identifier [i] and with every category [u] is declared under. *)
Definition merged (i : nat) (u : string) (ds : list (string * paper))
  : option paper :=
  d ← head (filter (declares u) ds);
  Some (with_id i (with_applications (categories_of u ds) d.2)).

(** The invariant of the section loop after the declarations [ds]. *)
Record scanned (st : state) (ds : list (string * paper)) : Prop := Scanned {
  scanned_id : paper_id st = length (papers st);
  scanned_seen : ∀ u i,
    seen_urls st !! u = Some i ↔ ∃ p, papers st !! i = Some p ∧ p_url p = u;
  scanned_merged : ∀ i p,
    papers st !! i = Some p → merged i (p_url p) ds = Some p;
  scanned_all : ∀ d, d ∈ ds → is_Some (seen_urls st !! p_url d.2);
  scanned_urls :
    p_url <$> papers st = dedup_first ((λ d, p_url d.2) <$> ds)
}.

(** ** Lines and markers, for the statements *)

(** A line none of the four patterns matches. *)
Definition unrecognized (line : string) : Prop :=
  re_match title_re line = None ∧ re_match meth_re line = None
  ∧ re_match pub_re line = None ∧ re_match sum_re line = None.

(** [sep] occurs somewhere in [s]. *)
Fixpoint occurs (sep s : string) : bool :=
  starts_with sep s
  || match s with String _ s' => occurs sep s' | "" => false end.

(** ** Sets of strings

    [set(xs)] followed by iteration ([list(...)], [sorted(...)]) visits
    each distinct element of [xs] once, in an order fixed by the string
    hashes of the running interpreter. The order is a parameter of the
    model: within one run it is a function of the elements inserted. *)
Class SetOrder : Type := {
  set_list : list string → list string;
  set_list_NoDup : ∀ l, NoDup (set_list l);
  set_list_elem : ∀ l x, x ∈ set_list l ↔ x ∈ l
}.

(** Two iteration orders, to have inhabitants at hand. *)
Definition keep_last_order : SetOrder :=
  {| set_list := remove_dups;
     set_list_NoDup := NoDup_remove_dups;
     set_list_elem := λ l x, elem_of_remove_dups l x |}.

Definition reversed_order : SetOrder :=
  {| set_list l := reverse (remove_dups l);
     set_list_NoDup l :=
       proj2 (NoDup_Permutation_proper _ _ (reverse_Permutation (remove_dups l)))
             (NoDup_remove_dups l);
     set_list_elem l x :=
       iff_trans (elem_of_reverse x (remove_dups l)) (elem_of_remove_dups l x) |}.

(** [sorted] on strings: ascending in the code point order. Python's
    sort is a stable merge sort; on the duplicate-free lists it is given
    here every correct sort returns the same list. *)
Definition sorted (l : list string) : list string := merge_sort String.le l.

(** ** The passes after the section loop *)

Definition REVIEWS : string := "Reviews / Tutorials / Perspectives".

Definition meth_remap : dict (option string) :=
  [("Machine Learning", Some "Machine learning");
   ("Artificial Intelligence", None)].

(** What the table does to one tag: [Some m'] when the tag is kept, as
    itself or renamed, [None] when it is dropped. *)
Definition remap (m : string) : option string :=
  match dict_get m meth_remap with
  | Some r => r
  | None => Some m
  end.

(** The inner loop that fills [cleaned]. *)
Fixpoint clean (ms : list string) : list string :=
  match ms with
  | [] => []
  | m :: ms' =>
      match dict_get m meth_remap with
      | Some (Some m') => m' :: clean ms'
      | Some None => clean ms'
      | None => m :: clean ms'
      end
  end.

Definition tag_review (p : paper) : paper :=
  with_applications
    (filter (λ a, a ≠ REVIEWS) (p_applications p))
    (with_is_review (bool_decide (REVIEWS ∈ p_applications p)) p).

(** The number the matrix loop stores at [matrix[app][meth]]. *)
Definition count (ps : list paper) (app meth : string) : nat :=
  length (filter (λ p, app ∈ p_applications p ∧ meth ∈ p_methodologies p) ps).

Section Passes.
Context `{SetOrder}.

Definition normalize_paper (p : paper) : paper :=
  with_methodologies (set_list (clean (p_methodologies p))) p.

Definition all_apps (ps : list paper) : list string :=
  sorted (set_list (p ← ps; p_applications p)).

Definition all_meths (ps : list paper) : list string :=
  sorted (set_list (filter (λ m, m ≠ "") (p ← ps; p_methodologies p))).

(** [matrix[app]] is set to a fresh dict that the inner loop then
    fills; nothing else touches it, so the row is built first here. *)
Definition build_row (ps : list paper) (meths : list string) (app : string)
  : dict nat :=
  foldl (λ row meth, dict_set meth (count ps app meth) row) [] meths.

Definition build_matrix (ps : list paper) (apps meths : list string)
  : dict (dict nat) :=
  foldl (λ matrix app, dict_set app (build_row ps meths app) matrix) [] apps.

(** The metadata and the matrix, from the finalized collection. *)
Definition build_dataset (today : string) (ps : list paper) : dataset :=
  let apps := all_apps ps in
  let meths := all_meths ps in
  Dataset ps apps meths (build_matrix ps apps meths) today.

(** Everything after the section loop; a pure function of the
    collection, of the date and of the set order. *)
Definition aggregate (today : string) (raw : list paper) : dataset :=
  build_dataset today (tag_review <$> (normalize_paper <$> raw)).

(** [parse_readme], on the text of the file and with the date that
    [datetime.now().strftime] returns. *)
Definition parse_readme (today content : string) : option dataset :=
  st ← scan_document content;
  Some (aggregate today (papers st)).

End Passes.


(** ** [json.dumps(data, separators=(",", ":"))]

    The values the dataset is made of: objects, arrays, strings,
    non-negative integers and booleans. *)
#[local] Unset Elimination Schemes.
Inductive json :=
| JBool (b : bool)
| JNum (n : nat)
| JStr (s : string)
| JArr (l : list json)
| JObj (l : list (string * json)).
#[local] Set Elimination Schemes.

Definition DQ : ascii := ascii_of_nat 34.
Definition BS : ascii := ascii_of_nat 92.

Definition hex_digit (n : nat) : ascii :=
  if (n <? 10)%nat then ascii_of_nat (48 + n) else ascii_of_nat (87 + n).

(** One code point of a string, as [ensure_ascii=True] writes it: the
    short escapes of the quote, the backslash and five control
    characters, the printable ASCII characters as they are, and
    [\u00xx] for everything else. *)
Definition escape_char (c : ascii) : string :=
  let n := nat_of_ascii c in
  let esc x := String BS (String x "") in
  if (n =? 34)%nat then esc DQ
  else if (n =? 92)%nat then esc BS
  else if (n =? 8)%nat then esc "b"%char
  else if (n =? 12)%nat then esc "f"%char
  else if (n =? 10)%nat then esc "n"%char
  else if (n =? 13)%nat then esc "r"%char
  else if (n =? 9)%nat then esc "t"%char
  else if ((32 <=? n) && (n <=? 126))%nat then String c ""
  else String BS (String "u" (String "0" (String "0"
         (String (hex_digit (n / 16)) (String (hex_digit (n mod 16)) ""))))).

Fixpoint escape (s : string) : string :=
  match s with
  | "" => ""
  | String c s' => escape_char c +:+ escape s'
  end.

Definition dumps_string (s : string) : string :=
  String DQ (escape s +:+ String DQ "").

Definition dumps_nat (n : nat) : string :=
  NilEmpty.string_of_uint (Nat.to_uint n).

(** [sep.join(items)] *)
Fixpoint join (sep : string) (items : list string) : string :=
  match items with
  | [] => ""
  | [x] => x
  | x :: xs => x +:+ sep +:+ join sep xs
  end.

Fixpoint dumps (v : json) : string :=
  match v with
  | JBool true => "true"
  | JBool false => "false"
  | JNum n => dumps_nat n
  | JStr s => dumps_string s
  | JArr l => "[" +:+ join "," (map dumps l) +:+ "]"
  | JObj l =>
      "{" +:+ join "," (map (λ kv, dumps_string kv.1 +:+ ":" +:+ dumps kv.2) l)
      +:+ "}"
  end.

(** The dicts of the program as JSON values, keys in insertion order. *)
Definition strings_json (l : list string) : json := JArr (JStr <$> l).

Definition paper_json (p : paper) : json :=
  JObj ([("id", JNum (p_id p)); ("title", JStr (p_title p));
         ("url", JStr (p_url p));
         ("methodologies", strings_json (p_methodologies p));
         ("applications", strings_json (p_applications p));
         ("published", JStr (p_published p));
         ("summary", JStr (p_summary p))]
        ++ match p_is_review p with
           | Some b => [("is_review", JBool b)]
           | None => []
           end).

Definition row_json (row : dict nat) : json :=
  JObj ((λ kv, (kv.1, JNum kv.2)) <$> row).

Definition matrix_json (m : dict (dict nat)) : json :=
  JObj ((λ kv, (kv.1, row_json kv.2)) <$> m).

Definition dataset_members (d : dataset) : dict json :=
  [("papers", JArr (paper_json <$> d_papers d));
   ("applications", strings_json (d_applications d));
   ("methodologies", strings_json (d_methodologies d));
   ("matrix", matrix_json (d_matrix d));
   ("lastUpdated", JStr (d_lastUpdated d))].

Definition dataset_json (d : dataset) : json := JObj (dataset_members d).

(** ** [generate_html]

    The page is a string literal, the serialized dataset and a second
    string literal: the template up to [const DATA = ] and the template
    from the semicolon after it. The two literals are parameters here. *)
Definition generate_html (html_head html_tail : string) (data : dataset)
  : string :=
  let compact_json := dumps (dataset_json data) in
  html_head +:+ compact_json +:+ html_tail.

(** ** Reading the serialized dataset back

    The program never reads its output: the page's script receives the
    text as a literal. [json_loads] is a reader for JSON texts of the
    five kinds of values above, written without any whitespace between
    tokens; it is what the round trip is stated against. *)

Definition is_digit (c : ascii) : bool :=
  let n := nat_of_ascii c in ((48 <=? n) && (n <=? 57))%nat.

Definition hex_value (c : ascii) : option nat :=
  let n := nat_of_ascii c in
  if ((48 <=? n) && (n <=? 57))%nat then Some (n - 48)
  else if ((97 <=? n) && (n <=? 102))%nat then Some (n - 87)
  else if ((65 <=? n) && (n <=? 70))%nat then Some (n - 55)
  else None.

(** The character a two-character escape stands for. *)
Definition unescape (e : ascii) : option ascii :=
  let n := nat_of_ascii e in
  if (n =? 34)%nat then Some DQ
  else if (n =? 92)%nat then Some BS
  else if (n =? 47)%nat then Some "/"%char
  else if (n =? 98)%nat then Some (ascii_of_nat 8)
  else if (n =? 102)%nat then Some (ascii_of_nat 12)
  else if (n =? 110)%nat then Some (ascii_of_nat 10)
  else if (n =? 114)%nat then Some (ascii_of_nat 13)
  else if (n =? 116)%nat then Some (ascii_of_nat 9)
  else None.

(** The characters of a string literal, from after its opening quote to
    its closing quote, and what follows the literal. *)
Fixpoint parse_str (s : string) : option (string * string) :=
  match s with
  | "" => None
  | String c s' =>
      if Ascii.eqb c DQ then Some ("", s')
      else if Ascii.eqb c BS then
        match s' with
        | "" => None
        | String e s'' =>
            if Ascii.eqb e "u" then
              match s'' with
              | String h1 (String h2 (String h3 (String h4 r))) =>
                  a ← hex_value h1; b ← hex_value h2;
                  c ← hex_value h3; d ← hex_value h4;
                  let n := ((a * 16 + b) * 16 + c) * 16 + d in
                  if (n <? 256)%nat then
                    '(str, r') ← parse_str r;
                    Some (String (ascii_of_nat n) str, r')
                  else None
              | _ => None
              end
            else
              ch ← unescape e;
              '(str, r') ← parse_str s'';
              Some (String ch str, r')
        end
      else if (32 <=? nat_of_ascii c)%nat then
        '(str, r') ← parse_str s';
        Some (String c str, r')
      else None
  end.

Fixpoint span_digits (s : string) : string * string :=
  match s with
  | String c s' =>
      if is_digit c then let '(d, r) := span_digits s' in (String c d, r)
      else ("", s)
  | "" => ("", "")
  end.

Definition parse_nat (s : string) : option (nat * string) :=
  let '(d, r) := span_digits s in
  match d with
  | "" => None
  | _ => u ← NilEmpty.uint_of_string d; Some (Nat.of_uint u, r)
  end.

(** One value, the elements of a non-empty array up to its bracket, the
    members of a non-empty object up to its brace. [n] bounds the number
    of nested calls; the length of the text is always enough. *)
Fixpoint parse_value (n : nat) (s : string) : option (json * string) :=
  match n with
  | 0 => None
  | S n =>
      match s with
      | "" => None
      | String c r =>
          if Ascii.eqb c DQ then
            '(str, r') ← parse_str r; Some (JStr str, r')
          else if Ascii.eqb c "[" then
            match strip_prefix "]" r with
            | Some r' => Some (JArr [], r')
            | None => '(l, r') ← parse_elems n r; Some (JArr l, r')
            end
          else if Ascii.eqb c "{" then
            match strip_prefix "}" r with
            | Some r' => Some (JObj [], r')
            | None => '(l, r') ← parse_members n r; Some (JObj l, r')
            end
          else if Ascii.eqb c "t" then
            r' ← strip_prefix "rue" r; Some (JBool true, r')
          else if Ascii.eqb c "f" then
            r' ← strip_prefix "alse" r; Some (JBool false, r')
          else '(k, r') ← parse_nat s; Some (JNum k, r')
      end
  end
with parse_elems (n : nat) (s : string) : option (list json * string) :=
  match n with
  | 0 => None
  | S n =>
      '(v, r) ← parse_value n s;
      match r with
      | String c r' =>
          if Ascii.eqb c "," then
            '(l, r'') ← parse_elems n r'; Some (v :: l, r'')
          else if Ascii.eqb c "]" then Some ([v], r')
          else None
      | "" => None
      end
  end
with parse_members (n : nat) (s : string)
  : option (list (string * json) * string) :=
  match n with
  | 0 => None
  | S n =>
      match s with
      | String q r0 =>
          if Ascii.eqb q DQ then
            '(k, r1) ← parse_str r0;
            r2 ← strip_prefix ":" r1;
            '(v, r3) ← parse_value n r2;
            match r3 with
            | String c r4 =>
                if Ascii.eqb c "," then
                  '(l, r5) ← parse_members n r4; Some ((k, v) :: l, r5)
                else if Ascii.eqb c "}" then Some ([(k, v)], r4)
                else None
            | "" => None
            end
          else None
      | "" => None
      end
  end.

Definition json_loads (s : string) : option json :=
  match parse_value (S (String.length s)) s with
  | Some (v, "") => Some v
  | _ => None
  end.

(** From the JSON value back to the dicts of the program, by key. *)
Definition as_nat (v : json) : option nat :=
  match v with JNum n => Some n | _ => None end.

Definition as_str (v : json) : option string :=
  match v with JStr s => Some s | _ => None end.

Definition as_strings (v : json) : option (list string) :=
  match v with JArr l => mapM as_str l | _ => None end.

Definition as_members (v : json) : option (dict json) :=
  match v with JObj l => Some l | _ => None end.

Definition json_paper (v : json) : option paper :=
  l ← as_members v;
  i ← dict_get "id" l ≫= as_nat;
  t ← dict_get "title" l ≫= as_str;
  u ← dict_get "url" l ≫= as_str;
  ms ← dict_get "methodologies" l ≫= as_strings;
  apps ← dict_get "applications" l ≫= as_strings;
  pub ← dict_get "published" l ≫= as_str;
  sm ← dict_get "summary" l ≫= as_str;
  match dict_get "is_review" l with
  | None => Some (Paper i t u ms apps pub sm None)
  | Some (JBool b) => Some (Paper i t u ms apps pub sm (Some b))
  | Some _ => None
  end.

Definition json_row (v : json) : option (dict nat) :=
  l ← as_members v; mapM (λ kv, n ← as_nat kv.2; Some (kv.1, n)) l.

Definition json_matrix (v : json) : option (dict (dict nat)) :=
  l ← as_members v; mapM (λ kv, row ← json_row kv.2; Some (kv.1, row)) l.

Definition json_dataset (v : json) : option dataset :=
  l ← as_members v;
  ps ← dict_get "papers" l ≫= (λ v, match v with
                                    | JArr l => mapM json_paper l
                                    | _ => None
                                    end);
  apps ← dict_get "applications" l ≫= as_strings;
  ms ← dict_get "methodologies" l ≫= as_strings;
  mx ← dict_get "matrix" l ≫= json_matrix;
  lu ← dict_get "lastUpdated" l ≫= as_str;
  Some (Dataset ps apps ms mx lu).

(** What may follow a number: anything but a digit. *)
Definition ok_rest (rest : string) : Prop :=
  match rest with
  | String c _ => is_digit c = false
  | "" => True
  end.

(** Induction on JSON values, through the lists they are nested in. *)
Definition json_ind' (P : json → Prop)
    (Hb : ∀ b, P (JBool b)) (Hn : ∀ n, P (JNum n)) (Hs : ∀ s, P (JStr s))
    (Ha : ∀ l, Forall P l → P (JArr l))
    (Ho : ∀ l, Forall (λ kv, P kv.2) l → P (JObj l)) : ∀ v, P v :=
  fix go (v : json) : P v :=
    match v with
    | JBool b => Hb b
    | JNum n => Hn n
    | JStr s => Hs s
    | JArr l =>
        Ha l ((fix go_l (l : list json) : Forall P l :=
                 match l with
                 | [] => @List.Forall_nil _ P
                 | x :: l' => @List.Forall_cons _ P x l' (go x) (go_l l')
                 end) l)
    | JObj l =>
        Ho l ((fix go_l (l : list (string * json))
                 : Forall (λ kv, P kv.2) l :=
                 match l with
                 | [] => @List.Forall_nil _ (λ kv, P kv.2)
                 | kv :: l' => @List.Forall_cons _ (λ kv, P kv.2) kv l' (go kv.2) (go_l l')
                 end) l)
    end.

(** The text one member of an object is written as. *)
Definition member_text (kv : string * json) : string :=
  dumps_string kv.1 +:+ ":" +:+ dumps kv.2.

(** Value [v] is read back from its text, in front of any [rest]. *)
Definition reads_back (v : json) : Prop :=
  ∀ n rest, ok_rest rest → (String.length (dumps v) ≤ n)%nat →
            parse_value n (dumps v +:+ rest) = Some (v, rest).

(** The two passes on one record, under a given set order. *)
Definition passes (O : SetOrder) (q : paper) : paper :=
  tag_review (normalize_paper (H := O) q).

(** ** Documents for the examples *)

(** A heading with its entry, to be put on the first line. *)
Definition first_line_heading : string :=
  "Oncology" +:+ NL +:+ "- **[A](http://a)**" +:+ NL
  +:+ "  - Methodology: NLME".

(** The sample scenario of the specification, with a table of
    contents and a second paper. *)
Definition sample : string :=
  "# Title" +:+ NL +:+
  "## Table of Contents" +:+ NL +:+
  "- **[Not a paper](http://toc)**" +:+ NL +:+ NL +:+
  "## Oncology" +:+ NL +:+
  "- **[A](http://a)**" +:+ NL +:+
  "  - Methodology: Machine Learning, Deep Learning" +:+ NL +:+
  "  - Published: 2023Jan15" +:+ NL +:+
  "- **[B](http://b)**" +:+ NL +:+
  "  - Summary: about b" +:+ NL +:+ NL +:+
  "## Reviews / Tutorials / Perspectives" +:+ NL +:+
  "- **[A again](http://a)**" +:+ NL +:+
  "  - Methodology: Artificial Intelligence" +:+ NL.

(** ** Shapes of text, for the statements about lines and pages *)

(** Every character of [s] is in the class [P]. *)
Fixpoint all_chars (P : ascii → bool) (s : string) : bool :=
  match s with
  | "" => true
  | String c s' => P c && all_chars P s'
  end.

Definition is_not (c0 c : ascii) : bool := negb (Ascii.eqb c0 c).

(** The characters [ensure_ascii] leaves alone or produces: printable
    ASCII. [plain] are those a string literal needs no escape for. *)
Definition printable (c : ascii) : bool :=
  let n := nat_of_ascii c in ((32 <=? n) && (n <=? 126))%nat.

Definition plain (c : ascii) : bool :=
  printable c && is_not DQ c && is_not BS c.

(** An entry line as the README writes it, and a metadata line with its
    indentation [ind] and the blanks [sp] after the colon. *)
Definition title_line (t u rest : string) : string :=
  "- **[" +:+ t +:+ "](" +:+ u +:+ ")**" +:+ rest.

Definition meta_line (ind key sp v : string) : string :=
  ind +:+ ("- " +:+ key +:+ ":") +:+ sp +:+ v.

(** [category = lines[0].strip()] of a section. *)
Definition section_category (section : string) : string :=
  match split NL (strip section) with
  | [] => ""
  | l0 :: _ => strip l0
  end.

(** A methodology tag as the README writes it: not empty, on one line,
    without a comma and without whitespace around it. *)
Definition tag_ok (t : string) : Prop :=
  t ≠ "" ∧ all_chars dot t = true ∧ occurs "," t = false ∧ strip t = t.

(** A table of contents whose lines look like entries. *)
Definition toc_section : string :=
  "Table of Contents" +:+ NL +:+ "- **[Oncology](#oncology)**" +:+ NL.

Definition oncology_section : string :=
  "Oncology" +:+ NL +:+ "- **[A](http://a)**" +:+ NL
  +:+ "  - Methodology: NLME, Machine Learning".

(** ** Entries in the written form *)

(** A value of a Published or Summary line that is read back as it is:
    on one line, not empty, without whitespace around it. *)
Definition value_ok (v : string) : Prop :=
  match v with String c _ => isspace c = false | "" => False end
  ∧ all_chars dot v = true ∧ strip v = v.

(** The four lines of an entry, as the README writes them. *)
Definition entry_lines (p : paper) : list string :=
  [title_line (p_title p) (p_url p) "";
   meta_line "  " "Methodology" " " (join ", " (p_methodologies p));
   meta_line "  " "Published" " " (p_published p);
   meta_line "  " "Summary" " " (p_summary p)].

(** A record that its four lines give back, under [category]. *)
Definition entry_ok (category : string) (p : paper) : Prop :=
  p_id p = 0 ∧ p_applications p = [category] ∧ p_is_review p = None
  ∧ (p_title p ≠ "" ∧ all_chars dot (p_title p) = true
     ∧ occurs "](" (p_title p) = false)
  ∧ (p_url p ≠ "" ∧ all_chars dot (p_url p) = true
     ∧ occurs ")**" (p_url p) = false)
  ∧ (p_methodologies p ≠ [] ∧ Forall tag_ok (p_methodologies p))
  ∧ value_ok (p_published p) ∧ value_ok (p_summary p).

Definition entry_A : paper :=
  Paper 0 "A [new] model" "https://doi.org/10.1/a(1)b"
        ["NLME"; "Deep Learning"] ["Oncology"] "2023Jan15"
        "A model, and more." None.

Definition entry_B : paper :=
  Paper 0 "B" "http://b" ["PBPK"] ["Oncology"] "2024" "About B." None.

(** ** A heading without text

    [section.strip()] removes an empty heading line together with the
    whitespace around the section, so the first line with text below
    such a heading is [lines[0]], the category, whatever it is. *)

(** A document of one section after the preamble, given by its heading
    line and the lines below it. *)
Definition one_section (heading : string) (lines : list string) : string :=
  "intro" +:+ SECTION_MARK +:+ join NL (heading :: lines).

(** Two entries under a heading without text. *)
Definition title_under_empty_heading : string :=
  one_section "" ["- **[A](u1)**"; "- **[B](u2)**"].

Definition prose_line : string := "Some prose about the section.".

(** * Theorems *)

(** ** The runtime model on concrete inputs *)

Example title_re_ex1 :
  re_match title_re "- **[A [b](c) paper](http://x.y/(z))** tail"
  = Some ["A [b"; "c) paper](http://x.y/(z)"].
Proof. reflexivity. Qed.

Example title_re_ex2 : re_match title_re "- **[](u)**" = None.
Proof. reflexivity. Qed.

Example title_re_ex3 : re_match title_re "- **[]](u)**" = Some ["]"; "u"].
Proof. reflexivity. Qed.

Example meth_re_ex1 :
  re_match meth_re "   - Methodology:  Machine Learning, NLME "
  = Some ["Machine Learning, NLME "].
Proof. reflexivity. Qed.

Example meth_re_ex2 : re_match meth_re "- Methodology: " = Some [" "].
Proof. reflexivity. Qed.

Example split_ex1 : split NL ("a" +:+ NL +:+ NL +:+ "b" +:+ NL) = ["a"; ""; "b"; ""].
Proof. reflexivity. Qed.

Example split_ex2 : split "aa" "aaaxaa" = [""; "ax"; ""].
Proof. reflexivity. Qed.

Example strip_ex1 : strip ("  a b " +:+ NL) = "a b".
Proof. reflexivity. Qed.

Example sample_parse :
  parse_readme (H := keep_last_order) "2026-11-03" sample
  = Some (Dataset
      [Paper 0 "A" "http://a" ["Machine learning"; "Deep Learning"]
             ["Oncology"] "2023Jan15" "" (Some true);
       Paper 1 "B" "http://b" [] ["Oncology"] "" "about b" (Some false)]
      ["Oncology"] ["Deep Learning"; "Machine learning"]
      [("Oncology", [("Deep Learning", 1); ("Machine learning", 1)])]
      "2026-11-03").
Proof. vm_compute. reflexivity. Qed.

Example dumps_ex1 :
  dumps (JObj [("a", JArr [JNum 10; JBool true; JStr ("x" +:+ NL)]);
               ("b", JObj [])])
  = "{" +:+ dumps_string "a" +:+ ":[10,true,"
    +:+ String DQ ("x" +:+ String BS ("n" +:+ String DQ ""))
    +:+ "]," +:+ dumps_string "b" +:+ ":{}}".
Proof. reflexivity. Qed.

Example escape_ex1 :
  escape (String (ascii_of_nat 127) (String (ascii_of_nat 233)
            (String (ascii_of_nat 1) (String DQ "/"))))
  = String BS "u007f" +:+ String BS "u00e9" +:+ String BS "u0001"
    +:+ String BS (String DQ "/").
Proof. reflexivity. Qed.

Example json_loads_ex1 :
  json_loads ("{" +:+ dumps_string "a" +:+ ":[10,true,"
    +:+ String DQ ("x" +:+ String BS ("n" +:+ String DQ ""))
    +:+ "]," +:+ dumps_string "b" +:+ ":{}}")
  = Some (JObj [("a", JArr [JNum 10; JBool true; JStr ("x" +:+ NL)]);
                ("b", JObj [])]).
Proof. vm_compute. reflexivity. Qed.

Example json_loads_ex2 : json_loads "[1, 2]" = None.
Proof. vm_compute. reflexivity. Qed.

Example sample_roundtrip :
  (ds ← parse_readme (H := keep_last_order) "2026-11-03" sample;
   json_loads (dumps (dataset_json ds)) ≫= json_dataset)
  = parse_readme (H := keep_last_order) "2026-11-03" sample.
Proof. vm_compute. reflexivity. Qed.
(** ** The regular expressions *)

Lemma app_cons c s t : String c s +:+ t = String c (s +:+ t).
Proof. reflexivity. Qed.

Lemma app_empty_r s : s +:+ "" = s.
Proof. induction s; [done|]. rewrite app_cons. by f_equal. Qed.

Lemma app_snoc s c t : (s +:+ String c "") +:+ t = s +:+ String c t.
Proof. induction s; [done|]. rewrite !app_cons. by f_equal. Qed.

Section ReLemmas.
Variables (cls : ascii → bool) (k : cont).

Lemma rep_lazy_acc acc s g gs :
  rep_lazy cls k acc s = Some (g, gs) → ∃ x, g = acc +:+ x.
Proof.
  revert acc; induction s as [|c s IH]; intros acc; simpl.
  - destruct (k ""); [|done]. intros [= <- _]. exists "".
    by rewrite app_empty_r.
  - destruct (k (String c s)).
    + intros [= <- _]. exists "". by rewrite app_empty_r.
    + destruct (cls c); [|done]. intros [x ->]%IH.
      exists (String c x). apply app_snoc.
Qed.

Lemma rep_greedy_acc acc s g gs :
  rep_greedy cls k acc s = Some (g, gs) → ∃ x, g = acc +:+ x.
Proof.
  assert (Hhere : ∀ acc s, (λ gs, (acc, gs)) <$> k s = Some (g, gs) →
                          ∃ x, g = acc +:+ x).
  { intros a s'. destruct (k s'); [|done]. intros [= <- _]. exists "".
    by rewrite app_empty_r. }
  revert acc; induction s as [|c s IH]; intros acc; simpl; [by eauto|].
  destruct (cls c); [|by eauto].
  destruct (rep_greedy cls k (acc +:+ String c "") s) as [r|] eqn:E;
    [|by eauto].
  intros [= ->]. apply IH in E as [x ->]. exists (String c x).
  apply app_snoc.
Qed.

(** A [+] repetition never captures the empty string. *)
Lemma rep_plus_nonempty m s g gs :
  rep cls Plus m k s = Some (g, gs) → g ≠ "".
Proof.
  destruct s as [|c s]; simpl; [done|]. destruct (cls c); [|done].
  intros Hr.
  assert (∃ x, g = String c "" +:+ x) as [x ->]; [|done].
  destruct m; simpl in Hr; eauto using rep_lazy_acc, rep_greedy_acc.
Qed.

(** What follows a repetition is what the continuation returned. *)
Lemma rep_cont q m s g gs :
  rep cls q m k s = Some (g, gs) → ∃ s', k s' = Some gs.
Proof.
  assert (Hl : ∀ acc s, rep_lazy cls k acc s = Some (g, gs)
                       → ∃ s', k s' = Some gs).
  { intros acc s'; revert acc; induction s' as [|c s' IHs]; intros acc; simpl.
    - destruct (k "") eqn:E; [|done]. intros [= _ <-]; eauto.
    - destruct (k (String c s')) eqn:E.
      + intros [= _ <-]; eauto.
      + destruct (cls c); [|done]. apply IHs. }
  assert (Hg : ∀ acc s, rep_greedy cls k acc s = Some (g, gs)
                       → ∃ s', k s' = Some gs).
  { intros acc s'; revert acc; induction s' as [|c s' IHs]; intros acc; simpl.
    - destruct (k "") eqn:E; [|done]. intros [= _ <-]; eauto.
    - destruct (cls c).
      + destruct (rep_greedy _ _ _ s') eqn:E'.
        * intros [= ->]. eauto.
        * destruct (k (String c s')) eqn:E; [|done].
          intros [= _ <-]; eauto.
      + destruct (k (String c s')) eqn:E; [|done].
        intros [= _ <-]; eauto. }
  unfold rep. destruct q, m; simpl; eauto.
  all: destruct s as [|c s']; [done|]; destruct (cls c); [|done]; eauto.
Qed.
End ReLemmas.

(** The number of groups [re_match] returns is that of the pattern. *)
Lemma re_match_groups p : ∀ s gs, re_match p s = Some gs → length gs = groups p.
Proof.
  induction p as [|[l|cls q m grp] p IH]; intros s gs; simpl.
  - by intros [= <-].
  - destruct (strip_prefix l s); [|done]. apply IH.
  - destruct (rep cls q m (re_match p) s) as [[g gs']|] eqn:E; [|done].
    intros [= <-]. apply rep_cont in E as [s' Hs']. apply IH in Hs'.
    destruct grp; simpl; lia.
Qed.

Lemma title_match_nonempty line t u :
  title_match line = Some (t, u) → t ≠ "" ∧ u ≠ "".
Proof.
  unfold title_match, title_re. cbn [re_match].
  destruct (strip_prefix "- **[" line) as [r|]; [|done].
  destruct (rep dot Plus Lazy _ r) as [[g gs]|] eqn:E1; [|done].
  apply rep_plus_nonempty in E1 as Hg.
  apply rep_cont in E1 as [r' Hr'].
  destruct (strip_prefix "](" r') as [r2|]; [|done].
  destruct (rep dot Plus Lazy _ r2) as [[g2 gs2]|] eqn:E2; [|done].
  apply rep_plus_nonempty in E2 as Hg2.
  injection Hr' as <-.
  destruct gs2 as [|??]; [|done]. by intros [= <- <-].
Qed.

(** ** The section loop commits the declarations one by one *)

Lemma foldM_app {A B} (f : A → B → option A) l1 l2 a :
  foldM f a (l1 ++ l2) = a' ← foldM f a l1; foldM f a' l2.
Proof.
  revert a; induction l1 as [|x l1 IH]; intros a; simpl; [done|].
  destruct (f a x); simpl; auto.
Qed.

Lemma foldM_snoc {A B} (f : A → B → option A) l x a :
  foldM f a (l ++ [x]) = a' ← foldM f a l; f a' x.
Proof.
  rewrite foldM_app. destruct (foldM f a l) as [a'|]; simpl; [|done].
  by destruct (f a' x).
Qed.

Lemma set_metadata_id line cp : p_id (set_metadata line cp) = p_id cp.
Proof.
  unfold set_metadata.
  by destruct (group1 meth_re line), (group1 pub_re line), (group1 sum_re line).
Qed.

Lemma set_metadata_with_id line i cp :
  with_id i (set_metadata line cp) = set_metadata line (with_id i cp).
Proof.
  unfold set_metadata.
  by destruct (group1 meth_re line), (group1 pub_re line), (group1 sum_re line).
Qed.

Lemma with_id_id p : with_id (p_id p) p = p.
Proof. by destruct p. Qed.

Lemma with_id_with_id i j p : with_id i (with_id j p) = with_id i p.
Proof. done. Qed.

Lemma commit_pending category cp st :
  p_id cp = paper_id st →
  commit st (category, with_id 0 cp) = finalize category cp st.
Proof. intros Hid. unfold commit. simpl. rewrite <-Hid. by destruct cp. Qed.

Lemma scan_line_title category st cur line t u :
  title_match line = Some (t, u) →
  scan_line category (st, cur) line
  = st' ← flush category cur st;
    Some (st', Some (new_paper (paper_id st') t u category)).
Proof. unfold scan_line. by intros ->. Qed.

Lemma scan_line_other category st cur line :
  title_match line = None →
  scan_line category (st, cur) line = Some (st, set_metadata line <$> cur).
Proof. unfold scan_line. intros ->. by destruct cur. Qed.

(** The line loop of a section, followed by the flush after it, is the
    merge rule folded over the candidates of the section. *)
Lemma scan_lines_candidates category lines : ∀ st cur,
  (∀ cp, cur = Some cp → p_id cp = paper_id st) →
  ('(st', cur') ← foldM (scan_line category) (st, cur) lines;
   flush category cur' st')
  = foldM commit st
      ((λ c, (category, c)) <$> candidates category (with_id 0 <$> cur) lines).
Proof.
  induction lines as [|l ls IH]; intros st cur Hid.
  - destruct cur as [cp|]; [|done].
    cbn -[with_id commit finalize].
    rewrite commit_pending by auto. simpl.
    by destruct (finalize category cp st).
  - cbn [foldM candidates].
    destruct (title_match l) as [[t u]|] eqn:E.
    + rewrite (scan_line_title _ _ _ _ _ _ E), fmap_app, foldM_app.
      assert (flush category cur st
              = foldM commit st
                  ((λ c, (category, c)) <$> option_list (with_id 0 <$> cur)))
        as <-.
      { destruct cur as [cp|]; [|done].
        cbn -[with_id commit finalize].
        rewrite commit_pending by auto. simpl.
        by destruct (finalize category cp st). }
      destruct (flush category cur st) as [st'|]; simpl; [|done].
      apply (IH st' (Some (new_paper (paper_id st') t u category))).
      by intros cp [= <-].
    + rewrite (scan_line_other _ _ _ _ E).
      destruct cur as [cp|]; simpl.
      * rewrite <-set_metadata_with_id.
        apply (IH st (Some (set_metadata l cp))).
        intros ? [= <-]. rewrite set_metadata_id. eauto.
      * apply (IH st None). done.
Qed.

Lemma scan_section_declared st section :
  scan_section st section = foldM commit st (section_declared section).
Proof.
  unfold scan_section, section_declared.
  destruct (split NL (strip section)) as [|l0 rest] eqn:E.
  - exfalso. unfold split in E. by destruct (split_go _ _ _).
  - destruct (strip l0 =? "Table of Contents")%string; [done|].
    by rewrite <-(scan_lines_candidates _ _ st None).
Qed.

Lemma scan_sections_declared ss : ∀ st,
  foldM scan_section st ss = foldM commit st (s ← ss; section_declared s).
Proof.
  induction ss as [|s ss IH]; intros st; simpl; [done|].
  rewrite foldM_app, scan_section_declared.
  destruct (foldM commit st (section_declared s)); simpl; auto.
Qed.

Lemma scan_document_declared content :
  scan_document content = foldM commit init (declared content).
Proof. apply scan_sections_declared. Qed.

(** One candidate per title line. *)
Lemma candidates_length category lines : ∀ pending,
  length (candidates category pending lines)
  = length (option_list pending) + title_lines lines.
Proof.
  unfold title_lines.
  induction lines as [|l ls IH]; intros pending; simpl; [lia|].
  rewrite filter_cons. destruct (title_match l) as [[t u]|] eqn:E.
  - rewrite decide_True by eauto. rewrite length_app, IH. simpl. lia.
  - rewrite decide_False by (by intros [??]). rewrite IH.
    by destruct pending.
Qed.

(** ** First occurrences *)

Lemma dedup_first_snoc l x :
  dedup_first (l ++ [x])
  = if bool_decide (x ∈ dedup_first l) then dedup_first l
    else dedup_first l ++ [x].
Proof. unfold dedup_first. by rewrite foldl_snoc. Qed.

Lemma elem_of_dedup_first l x : x ∈ dedup_first l ↔ x ∈ l.
Proof.
  induction l as [|y l IH] using rev_ind; [done|].
  rewrite dedup_first_snoc, elem_of_app, list_elem_of_singleton.
  case_bool_decide as Hy; [|rewrite elem_of_app, list_elem_of_singleton; tauto].
  split; [tauto|]. intros [?| ->]; tauto.
Qed.

Lemma NoDup_dedup_first l : NoDup (dedup_first l).
Proof.
  induction l as [|y l IH] using rev_ind; [constructor|].
  rewrite dedup_first_snoc. case_bool_decide as Hy; [done|].
  apply NoDup_app. split_and!; [done| |apply NoDup_singleton].
  intros x Hx ->%list_elem_of_singleton. done.
Qed.

Lemma categories_of_snoc u ds d :
  categories_of u (ds ++ [d])
  = if decide (declares u d)
    then if bool_decide (d.1 ∈ categories_of u ds) then categories_of u ds
         else categories_of u ds ++ [d.1]
    else categories_of u ds.
Proof.
  unfold categories_of. rewrite filter_app, filter_singleton by done.
  case_decide; [|by rewrite app_nil_r].
  rewrite fmap_app. cbn [fmap list_fmap]. by rewrite dedup_first_snoc.
Qed.

Lemma elem_of_categories_of u ds c :
  c ∈ categories_of u ds ↔ ∃ p, (c, p) ∈ ds ∧ p_url p = u.
Proof.
  unfold categories_of. rewrite elem_of_dedup_first, list_elem_of_fmap.
  split.
  - intros ([c' p] & -> & [Hu Hin]%list_elem_of_filter). eauto.
  - intros (p & Hin & Hu). exists (c, p). split; [done|].
    by apply list_elem_of_filter.
Qed.

(** ** The merged record after one more declaration *)

Lemma merged_snoc_other i u ds d :
  ¬ declares u d → merged i u (ds ++ [d]) = merged i u ds.
Proof.
  intros Hd. unfold merged.
  rewrite categories_of_snoc, filter_app, filter_singleton by done.
  rewrite !decide_False by done. by rewrite app_nil_r.
Qed.

Lemma merged_snoc_first i u ds d :
  filter (declares u) ds = [] → declares u d →
  merged i u (ds ++ [d]) = Some (with_id i (with_applications [d.1] d.2)).
Proof.
  intros Hnil Hd. unfold merged.
  rewrite categories_of_snoc, filter_app, filter_singleton by done.
  rewrite !decide_True by done. unfold categories_of. by rewrite Hnil.
Qed.

Lemma merged_snoc_again i u ds d ex :
  merged i u ds = Some ex → declares u d →
  merged i u (ds ++ [d])
  = Some (with_applications
            (if bool_decide (d.1 ∈ p_applications ex) then p_applications ex
             else p_applications ex ++ [d.1]) ex).
Proof.
  unfold merged. intros Hm Hd.
  rewrite categories_of_snoc, filter_app, decide_True by done.
  destruct (filter (declares u) ds) as [|d0 f] eqn:Ef; [done|].
  simpl in *. injection Hm as <-. simpl. done.
Qed.

(** ** The merge rule keeps the invariant *)

Lemma scanned_init : scanned init [].
Proof. split; try done; intros *; simpl; [|by intros ?%elem_of_nil].
  rewrite lookup_empty. split; [done|]. by intros (? & ? & _).
Qed.

Lemma scanned_unseen st ds u :
  scanned st ds → seen_urls st !! u = None →
  filter (declares u) ds = [] ∧ u ∉ p_url <$> papers st.
Proof.
  intros Hs Hu. split.
  - destruct (filter (declares u) ds) as [|d f] eqn:Ef; [done|].
    assert (d ∈ filter (declares u) ds) as [Hd Hin]%list_elem_of_filter
      by (rewrite Ef; left).
    apply (scanned_all _ _ Hs) in Hin as [i Hi].
    unfold declares in Hd. congruence.
  - intros (p & -> & [i Hi]%list_elem_of_lookup_1)%list_elem_of_fmap.
    assert (seen_urls st !! p_url p = Some i) by (apply Hs; eauto).
    congruence.
Qed.

Lemma commit_scanned st ds d :
  scanned st ds → candidate_ok d →
  ∃ st', commit st d = Some st' ∧ scanned st' (ds ++ [d]).
Proof.
  intros Hs (Hd0 & Ht & Hu & Happs & Hrev).
  destruct d as [cat c]; simpl in *.
  unfold commit, finalize; cbn [fst snd p_url with_id].
  destruct (seen_urls st !! p_url c) as [i|] eqn:Es.
  - (* the URL has been seen: only the application list may grow *)
    apply (scanned_seen _ _ Hs) in Es as Hex. destruct Hex as (ex & Hi & Hurl).
    rewrite Hi; cbn [mbind option_bind].
    pose proof (scanned_merged _ _ Hs i ex Hi) as Hm. rewrite Hurl in Hm.
    pose proof (merged_snoc_again _ _ _ (cat, c) _ Hm eq_refl) as Hm'.
    cbn [fst] in Hm'.
    set (ex' := with_applications
                  (if bool_decide (cat ∈ p_applications ex)
                   then p_applications ex else p_applications ex ++ [cat]) ex)
      in *.
    assert (Hi' : i < length (papers st)) by (by eapply lookup_lt_Some).
    exists (State (<[i := ex']> (papers st)) (seen_urls st) (paper_id st)).
    split.
    { subst ex'. case_bool_decide; [|done].
      f_equal. destruct st as [ps seen pid]; simpl in *. f_equal.
      rewrite list_insert_id; [done|]. rewrite Hi. by destruct ex. }
    assert (Hlk : ∀ j p, <[i := ex']> (papers st) !! j = Some p →
                  ∃ q, papers st !! j = Some q ∧ p_url q = p_url p
                       ∧ (j ≠ i → p = q) ∧ (j = i → p = ex')).
    { intros j p. destruct (decide (j = i)) as [->|Hne].
      - rewrite list_lookup_insert_eq by done. intros [= <-].
        exists ex. by split_and!.
      - rewrite list_lookup_insert_ne by done. intros Hj.
        exists p. by split_and!. }
    split; cbn [papers seen_urls paper_id].
    + rewrite length_insert. apply Hs.
    + intros u j. rewrite (scanned_seen _ _ Hs). split.
      * intros (p & Hj & Hp). destruct (decide (j = i)) as [->|Hne].
        -- exists ex'. rewrite list_lookup_insert_eq by done.
           split; [done|]. simpl. congruence.
        -- exists p. by rewrite list_lookup_insert_ne.
      * intros (p & (q & Hq & Hqu & _)%Hlk & Hp). exists q. split; congruence.
    + intros j p Hj. destruct (Hlk _ _ Hj) as (q & Hq & Hqu & Hne & Heq).
      destruct (decide (j = i)) as [->|Hji].
      * rewrite (Heq eq_refl). simpl. by rewrite Hurl.
      * rewrite <-(Hne Hji) in Hq.
        rewrite merged_snoc_other; [by apply Hs|].
        unfold declares; simpl. intros Hcu.
        assert (seen_urls st !! p_url c = Some j) by (apply Hs; eauto).
        congruence.
    + intros d [Hd| ->%list_elem_of_singleton]%elem_of_app.
      * by apply Hs.
      * simpl. eauto.
    + rewrite list_fmap_insert, fmap_app. cbn [fmap list_fmap snd].
      rewrite dedup_first_snoc, <-(scanned_urls _ _ Hs).
      rewrite bool_decide_true.
      * apply list_insert_id. rewrite list_lookup_fmap, Hi. simpl.
        by subst ex'.
      * apply list_elem_of_fmap. exists ex. split; [done|].
        by eapply list_elem_of_lookup_2.
  - (* a new URL: the candidate is appended *)
    destruct (scanned_unseen _ _ _ Hs Es) as [Hnil Hnew].
    eexists; split; [done|].
    split; cbn [papers seen_urls paper_id].
    + rewrite length_app, (scanned_id _ _ Hs). simpl. lia.
    + intros u j. rewrite (scanned_id _ _ Hs).
      destruct (decide (p_url c = u)) as [<-|Hne].
      * rewrite lookup_insert_eq. split.
        -- intros [= <-]. eexists. split; [apply list_lookup_middle; done|done].
        -- intros (p & Hj & Hp). f_equal.
           apply lookup_snoc_Some in Hj as [[Hlt Hj]|[-> _]]; [|done].
           exfalso. apply Hnew. apply list_elem_of_fmap. exists p.
           split; [done|]. by eapply list_elem_of_lookup_2.
      * rewrite lookup_insert_ne by done. rewrite (scanned_seen _ _ Hs). split.
        -- intros (p & Hj & Hp). exists p. split; [|done].
           rewrite lookup_app_l; [done|]. by eapply lookup_lt_Some.
        -- intros (p & Hj & Hp).
           apply lookup_snoc_Some in Hj as [[Hlt Hj]|[-> <-]]; [eauto|done].
    + intros j p Hj.
      apply lookup_snoc_Some in Hj as [[Hlt Hj]|[-> <-]].
      * rewrite merged_snoc_other; [by apply Hs|].
        unfold declares; simpl. intros Hcu. apply Hnew.
        apply list_elem_of_fmap. exists p. split; [done|].
        by eapply list_elem_of_lookup_2.
      * cbn [p_url with_id]. rewrite merged_snoc_first by done.
        cbn [fst snd]. rewrite (scanned_id _ _ Hs). f_equal.
        destruct c; simpl in *. by subst.
    + intros d [Hd| ->%list_elem_of_singleton]%elem_of_app.
      * destruct (decide (p_url c = p_url d.2)) as [<-|Hne].
        -- rewrite lookup_insert_eq. eauto.
        -- rewrite lookup_insert_ne by done. by apply Hs.
      * simpl. rewrite lookup_insert_eq. eauto.
    + rewrite !fmap_app. cbn [fmap list_fmap snd p_url with_id].
      rewrite dedup_first_snoc, <-(scanned_urls _ _ Hs).
      by rewrite bool_decide_false.
Qed.

Lemma foldM_commit_scanned ds' : ∀ st ds,
  scanned st ds → Forall candidate_ok ds' →
  ∃ st', foldM commit st ds' = Some st' ∧ scanned st' (ds ++ ds').
Proof.
  induction ds' as [|d ds' IH]; intros st ds Hs Hok.
  - exists st. by rewrite app_nil_r.
  - inversion_clear Hok as [|?? Hd Hok'].
    destruct (commit_scanned _ _ _ Hs Hd) as (st1 & Hc & Hs1).
    destruct (IH _ _ Hs1 Hok') as (st2 & Hf & Hs2).
    exists st2. simpl. rewrite Hc. simpl. split; [done|].
    by rewrite <-app_assoc in Hs2.
Qed.

(** ** Every document is scanned without error *)

Lemma set_metadata_fields line p :
  p_title (set_metadata line p) = p_title p
  ∧ p_url (set_metadata line p) = p_url p
  ∧ p_applications (set_metadata line p) = p_applications p
  ∧ p_is_review (set_metadata line p) = p_is_review p.
Proof.
  unfold set_metadata.
  by destruct (group1 meth_re line), (group1 pub_re line), (group1 sum_re line).
Qed.

Lemma candidates_ok category lines : ∀ pending,
  (∀ p, pending = Some p → candidate_ok (category, p)) →
  Forall (λ c, candidate_ok (category, c)) (candidates category pending lines).
Proof.
  induction lines as [|l ls IH]; intros pending Hp; simpl.
  - destruct pending; simpl; auto.
  - destruct (title_match l) as [[t u]|] eqn:E.
    + apply Forall_app. split; [destruct pending; simpl; auto|].
      apply IH. intros p [= <-].
      apply title_match_nonempty in E as [??]. by repeat split.
    + apply IH. intros p Hsome. destruct pending as [q|]; [|done].
      injection Hsome as <-. destruct (Hp q eq_refl) as (?&?&?&?&?).
      destruct (set_metadata_fields l q) as (Ht & Hu & Ha & Hr).
      unfold candidate_ok; simpl.
      rewrite set_metadata_id, Ht, Hu, Ha, Hr. done.
Qed.

Lemma section_declared_ok section : Forall candidate_ok (section_declared section).
Proof.
  unfold section_declared.
  destruct (split NL (strip section)) as [|l0 rest]; [done|].
  destruct (strip l0 =? "Table of Contents")%string; [done|].
  apply Forall_fmap. eapply Forall_impl; [by apply candidates_ok|done].
Qed.

Lemma declared_ok content : Forall candidate_ok (declared content).
Proof.
  unfold declared. induction (tail (sections content)) as [|s ss IH]; [done|].
  simpl. apply Forall_app. split; [apply section_declared_ok|done].
Qed.

Lemma scan_document_scanned content :
  ∃ st, scan_document content = Some st ∧ scanned st (declared content).
Proof.
  rewrite scan_document_declared.
  apply (foldM_commit_scanned _ init [] scanned_init (declared_ok content)).
Qed.

Lemma parse_readme_scanned `{SetOrder} today content :
  ∃ st, scan_document content = Some st ∧ scanned st (declared content)
        ∧ parse_readme today content = Some (aggregate today (papers st)).
Proof.
  destruct (scan_document_scanned content) as (st & Hst & Hs).
  exists st. unfold parse_readme. by rewrite Hst.
Qed.

Lemma scanned_NoDup st ds : scanned st ds → NoDup (p_url <$> papers st).
Proof. intros Hs. rewrite (scanned_urls _ _ Hs). apply NoDup_dedup_first. Qed.

(** The passes after the loop keep identifier, title and URL. *)
Lemma passes_fields `{SetOrder} p :
  p_id (tag_review (normalize_paper p)) = p_id p
  ∧ p_title (tag_review (normalize_paper p)) = p_title p
  ∧ p_url (tag_review (normalize_paper p)) = p_url p
  ∧ p_published (tag_review (normalize_paper p)) = p_published p
  ∧ p_summary (tag_review (normalize_paper p)) = p_summary p.
Proof. done. Qed.

Lemma aggregate_lookup `{SetOrder} today raw i p :
  d_papers (aggregate today raw) !! i = Some p ↔
  ∃ q, raw !! i = Some q ∧ p = tag_review (normalize_paper q).
Proof.
  unfold aggregate, build_dataset; cbn [d_papers]. rewrite <-list_fmap_compose.
  rewrite list_lookup_fmap. destruct (raw !! i) as [q|]; simpl.
  - split; [intros [= <-]; eauto|]. by intros (? & [= <-] & ->).
  - split; [done|]. by intros (? & ? & _).
Qed.

Lemma aggregate_urls `{SetOrder} today raw :
  p_url <$> d_papers (aggregate today raw) = p_url <$> raw.
Proof.
  unfold aggregate, build_dataset; cbn [d_papers]. rewrite <-!list_fmap_compose.
  by apply list_fmap_ext.
Qed.

Lemma merged_first i u ds p :
  merged i u ds = Some p →
  ∃ ds1 d ds2, ds = ds1 ++ d :: ds2 ∧ declares u d
    ∧ Forall (λ d', ¬ declares u d') ds1
    ∧ p = with_id i (with_applications (categories_of u ds) d.2).
Proof.
  unfold merged. destruct (head (filter (declares u) ds)) as [d|] eqn:Eh; [|done].
  intros [= <-]. revert Eh. generalize (categories_of u ds). intros cs.
  induction ds as [|d' ds IH]; [done|].
  rewrite filter_cons. case_decide as Hd.
  - intros [= ->]. exists [], d, ds. by split_and!.
  - intros (ds1 & d0 & ds2 & -> & Hd0 & Hall & Heq)%IH.
    exists (d' :: ds1), d0, ds2. split_and!; [done|done| |done].
    by constructor.
Qed.

(** ** Properties of the collection *)

(** C2. Every record of the returned collection has a non-empty title
    and a non-empty URL, and there is exactly one record per distinct
    URL: the URLs of the records are pairwise distinct, and they are the
    declared URLs. *)
Theorem C2_title_url_nonempty_unique `{SetOrder} today content :
  ∃ ds, parse_readme today content = Some ds
    ∧ (∀ p, p ∈ d_papers ds → p_title p ≠ "" ∧ p_url p ≠ "")
    ∧ NoDup (p_url <$> d_papers ds)
    ∧ (∀ u, u ∈ p_url <$> d_papers ds
            ↔ ∃ d, d ∈ declared content ∧ p_url d.2 = u).
Proof.
  destruct (parse_readme_scanned today content) as (st & _ & Hs & ->).
  eexists; split; [done|]. rewrite aggregate_urls. split_and!.
  - intros p [i Hi]%list_elem_of_lookup_1.
    apply aggregate_lookup in Hi as (q & Hq & ->).
    apply (scanned_merged _ _ Hs) in Hq.
    apply merged_first in Hq as (ds1 & d & ds2 & Hds & Hd & _ & ->).
    assert (candidate_ok d) as (_ & Ht & Hu & _).
    { pose proof (declared_ok content) as Hok. rewrite Hds in Hok.
      apply Forall_app in Hok as [_ Hok]. by inversion Hok. }
    done.
  - by eapply scanned_NoDup.
  - intros u. rewrite (scanned_urls _ _ Hs), elem_of_dedup_first.
    rewrite list_elem_of_fmap. split.
    + intros (d & -> & Hd). eauto.
    + intros (d & Hd & <-). eauto.
Qed.

(** C7. Identifiers follow the order of first encounter: the record at
    position [i] of the returned collection has identifier [i], and the
    URLs of the collection are the declared URLs in the order of their
    first occurrence, whatever merges happen in between. *)
Theorem C7_sequential_identifiers `{SetOrder} today content :
  ∃ ds, parse_readme today content = Some ds
    ∧ (∀ i p, d_papers ds !! i = Some p → p_id p = i)
    ∧ p_url <$> d_papers ds
      = dedup_first ((λ d, p_url d.2) <$> declared content).
Proof.
  destruct (parse_readme_scanned today content) as (st & _ & Hs & ->).
  eexists; split; [done|]. rewrite aggregate_urls. split.
  - intros i p (q & Hq & ->)%aggregate_lookup.
    apply (scanned_merged _ _ Hs) in Hq.
    by apply merged_first in Hq as (ds1 & d & ds2 & _ & _ & _ & ->).
  - apply Hs.
Qed.

(** ** The records of the output, one by one *)

(** Each record of the output comes from the first declaration of its
    URL: identifier from its position, categories from every declaration
    of the URL, then the two passes. *)
Lemma output_record `{SetOrder} today content :
  ∃ ds, parse_readme today content = Some ds
    ∧ ∀ i p, d_papers ds !! i = Some p →
        ∃ ds1 d ds2,
          declared content = ds1 ++ d :: ds2
          ∧ Forall (λ d', ¬ declares (p_url d.2) d') ds1
          ∧ candidate_ok d
          ∧ p = tag_review (normalize_paper
                  (with_id i (with_applications
                     (categories_of (p_url d.2) (declared content)) d.2))).
Proof.
  destruct (parse_readme_scanned today content) as (st & _ & Hs & ->).
  eexists; split; [done|].
  intros i p (q & Hq & ->)%aggregate_lookup.
  apply (scanned_merged _ _ Hs) in Hq.
  apply merged_first in Hq as (ds1 & d & ds2 & Hds & Hd & Hfirst & Hq).
  exists ds1, d, ds2. unfold declares in Hd. rewrite Hd.
  split_and!; [done|done| |by rewrite <-Hq].
  pose proof (declared_ok content) as Hok. rewrite Hds in Hok.
  apply Forall_app in Hok as [_ Hok]. by inversion Hok.
Qed.

Lemma NoDup_all_equal (l : list string) c :
  NoDup l → (∀ x, x ∈ l ↔ x = c) → l = [c].
Proof.
  intros Hnd Hall. destruct l as [|x l].
  - exfalso. by apply (elem_of_nil c), Hall.
  - assert (x = c) as -> by (apply Hall; left).
    destruct l as [|y l]; [done|].
    assert (y = c) as -> by (apply Hall; right; left).
    apply NoDup_cons in Hnd as [Hnd _]. exfalso. apply Hnd. left.
Qed.

Lemma list_no_elem {A} (l : list A) : (∀ x, x ∉ l) → l = [].
Proof. destruct l as [|x l]; [done|]. intros Hl. destruct (Hl x). left. Qed.

(** C3. In the output, [is_review] is true exactly for the records whose
    URL is declared under the reviews category, and false for the
    others; the reviews label is never in the application list, which
    holds the other categories the URL is declared under; so a URL
    declared under the reviews category only has no application and
    [is_review] true, and a URL declared under it and one other category
    keeps that other category, with [is_review] true. *)
Theorem C3_review_flag `{SetOrder} today content :
  ∃ ds, parse_readme today content = Some ds
    ∧ ∀ p, p ∈ d_papers ds →
        let under := declared_under content (p_url p) in
        (p_is_review p = Some true ↔ under REVIEWS)
        ∧ ((p_is_review p = Some false) ↔ (¬ under REVIEWS))
        ∧ (REVIEWS ∉ p_applications p)
        ∧ NoDup (p_applications p)
        ∧ (∀ c, c ∈ p_applications p ↔ c ≠ REVIEWS ∧ under c)
        ∧ ((∀ c, under c → c = REVIEWS) →
           p_applications p = [] ∧ p_is_review p = Some true)
        ∧ (∀ other,
             other ≠ REVIEWS → under REVIEWS → under other →
             (∀ c, under c → c = REVIEWS ∨ c = other) →
             p_applications p = [other] ∧ p_is_review p = Some true).
Proof.
  destruct (output_record today content) as (ds & Hparse & Hrec).
  exists ds. split; [done|].
  intros p [i Hi]%list_elem_of_lookup_1.
  destruct (Hrec i p Hi) as (ds1 & d & ds2 & Hds & _ & Hok & ->).
  cbn [p_url tag_review normalize_paper with_applications with_id
       with_methodologies with_is_review p_is_review p_applications].
  set (u := p_url d.2). set (cats := categories_of u (declared content)).
  assert (Hcats : ∀ c, c ∈ cats ↔ declared_under content u c)
    by (intros c; apply elem_of_categories_of).
  assert (Hdecl : ∃ c, declared_under content u c).
  { exists d.1, d.2. split; [|done]. rewrite Hds, <-surjective_pairing.
    apply elem_of_app. right. left. }
  assert (Hnd : NoDup (filter (λ a, a ≠ REVIEWS) cats))
    by apply NoDup_filter, NoDup_dedup_first.
  assert (Hin : ∀ c, c ∈ filter (λ a, a ≠ REVIEWS) cats
                     ↔ c ≠ REVIEWS ∧ declared_under content u c).
  { intros c. by rewrite list_elem_of_filter, Hcats. }
  assert (Htrue : bool_decide (REVIEWS ∈ cats) = true
                  ↔ declared_under content u REVIEWS).
  { by rewrite bool_decide_eq_true, Hcats. }
  split_and!.
  - rewrite <-Htrue. split; congruence.
  - rewrite <-Htrue. destruct (bool_decide (REVIEWS ∈ cats)); split;
      congruence.
  - rewrite Hin. tauto.
  - done.
  - done.
  - intros Honly. split.
    + apply list_no_elem. intros c [Hne Hc]%Hin. auto.
    + f_equal. apply Htrue. destruct Hdecl as [c Hc].
      by rewrite <-(Honly c Hc).
  - intros other Hne Hrev Hother Hall. split; [|f_equal; by apply Htrue].
    apply NoDup_all_equal; [done|]. intros c. rewrite Hin. split.
    + intros [Hc [->| ->]%Hall]; done.
    + by intros ->.
Qed.

(** ** The methodology table *)

Lemma remap_table :
  remap "Machine Learning" = Some "Machine learning"
  ∧ remap "Artificial Intelligence" = None
  ∧ ∀ m, m ≠ "Machine Learning" → m ≠ "Artificial Intelligence" →
         remap m = Some m.
Proof.
  split_and!; [done|done|]. intros m H1 H2. unfold remap, meth_remap.
  cbn [dict_get].
  apply String.eqb_neq in H1, H2. rewrite String.eqb_sym in H1.
  rewrite String.eqb_sym in H2. by rewrite H1, H2.
Qed.

Lemma clean_omap ms : clean ms = omap remap ms.
Proof.
  induction ms as [|m ms IH]; [done|]. cbn [clean omap list_omap].
  unfold remap at 1. rewrite IH.
  by destruct (dict_get m meth_remap) as [[m'|]|].
Qed.

Lemma elem_of_clean ms t : t ∈ clean ms ↔ ∃ m, m ∈ ms ∧ remap m = Some t.
Proof. rewrite clean_omap. apply list_elem_of_omap. Qed.

Lemma normalize_paper_spec `{SetOrder} p :
  NoDup (p_methodologies (normalize_paper p))
  ∧ ∀ t, t ∈ p_methodologies (normalize_paper p)
         ↔ ∃ m, m ∈ p_methodologies p ∧ remap m = Some t.
Proof.
  cbn [normalize_paper with_methodologies p_methodologies].
  split; [apply set_list_NoDup|].
  intros t. by rewrite set_list_elem, elem_of_clean.
Qed.

(** C4. The table is applied to each raw tag and the result is then
    made a set: "Machine Learning" becomes "Machine learning",
    "Artificial Intelligence" is dropped, every other tag is kept as it
    is, and the methodologies of a record of the output are, without
    repetition, the images of the raw tags of the first declaration of
    its URL. A paper listing "Machine Learning" and "Machine learning"
    ends with "Machine learning" once; a paper listing only "Artificial
    Intelligence" ends with no methodology. *)
Theorem C4_methodology_remap `{SetOrder} today content :
  (remap "Machine Learning" = Some "Machine learning"
   ∧ remap "Artificial Intelligence" = None
   ∧ ∀ m, m ≠ "Machine Learning" → m ≠ "Artificial Intelligence" →
          remap m = Some m)
  ∧ (∀ p, NoDup (p_methodologies (normalize_paper p))
          ∧ ∀ t, t ∈ p_methodologies (normalize_paper p)
                 ↔ ∃ m, m ∈ p_methodologies p ∧ remap m = Some t)
  ∧ (∀ p, p_methodologies p = ["Machine Learning"; "Machine learning"] →
          p_methodologies (normalize_paper p) = ["Machine learning"])
  ∧ (∀ p, p_methodologies p = ["Artificial Intelligence"] →
          p_methodologies (normalize_paper p) = [])
  ∧ ∃ ds, parse_readme today content = Some ds
      ∧ ∀ i p, d_papers ds !! i = Some p →
          NoDup (p_methodologies p)
          ∧ ∃ ds1 d ds2,
              declared content = ds1 ++ d :: ds2
              ∧ p_url d.2 = p_url p
              ∧ Forall (λ d', p_url d'.2 ≠ p_url p) ds1
              ∧ ∀ t, t ∈ p_methodologies p
                     ↔ ∃ m, m ∈ p_methodologies d.2 ∧ remap m = Some t.
Proof.
  split; [apply remap_table|]. split; [apply normalize_paper_spec|].
  split_and!.
  - intros p Hp. destruct (normalize_paper_spec p) as [Hnd Hin].
    apply NoDup_all_equal; [done|]. intros t. rewrite Hin, Hp. split.
    + intros (m & [->|[->|[]%elem_of_nil]%elem_of_cons]%elem_of_cons & Hm);
        by injection Hm.
    + intros ->. exists "Machine learning". split; [|done]. right; left.
  - intros p Hp. destruct (normalize_paper_spec p) as [_ Hin].
    apply list_no_elem. intros t (m & Hm & Ht)%Hin. rewrite Hp in Hm.
    apply list_elem_of_singleton in Hm as ->. done.
  - destruct (output_record today content) as (ds & Hparse & Hrec).
    exists ds. split; [done|]. intros i p Hi.
    destruct (Hrec i p Hi) as (ds1 & d & ds2 & Hds & Hfirst & Hok & ->).
    split; [apply set_list_NoDup|].
    exists ds1, d, ds2. split_and!; [done|done|done|].
    intros t. cbn [tag_review with_applications with_is_review p_methodologies].
    by rewrite (proj2 (normalize_paper_spec _)).
Qed.

(** ** The aggregator *)

Lemma sorted_spec l :
  NoDup l →
  StronglySorted String.le (sorted l) ∧ NoDup (sorted l)
  ∧ ∀ x, x ∈ sorted l ↔ x ∈ l.
Proof.
  intros Hnd. unfold sorted. split_and!.
  - apply StronglySorted_merge_sort; apply _.
  - by rewrite merge_sort_Permutation.
  - intros x. by rewrite merge_sort_Permutation.
Qed.

Section Dict.
Context {V : Type}.
Implicit Types (d : dict V) (k : string) (v : V).

Lemma dict_set_fresh k v d : k ∉ dict_keys d → dict_set k v d = d ++ [(k, v)].
Proof.
  unfold dict_keys. induction d as [|[k' v'] d IH]; [done|].
  cbn [fmap list_fmap fst dict_set]. intros Hk.
  apply not_elem_of_cons in Hk as [Hne Hk].
  destruct (String.eqb_spec k' k) as [->|_]; [done|].
  by rewrite IH.
Qed.

Lemma dict_keys_app d1 d2 : dict_keys (d1 ++ d2) = dict_keys d1 ++ dict_keys d2.
Proof. apply fmap_app. Qed.

(** Filling a dict from distinct keys lists them in order. *)
Lemma foldl_dict_set (f : string → V) (ks : list string) : ∀ d,
  NoDup ks → (∀ k, k ∈ ks → k ∉ dict_keys d) →
  foldl (λ d k, dict_set k (f k) d) d ks = d ++ ((λ k, (k, f k)) <$> ks).
Proof.
  induction ks as [|k ks IH]; intros d Hnd Hfresh.
  - by rewrite app_nil_r.
  - apply NoDup_cons in Hnd as [Hk Hnd]. cbn [foldl fmap list_fmap].
    rewrite dict_set_fresh by (apply Hfresh; left).
    rewrite IH; [by rewrite <-app_assoc|done|].
    intros k' Hk'. rewrite dict_keys_app. intros [Hin|Hin]%elem_of_app.
    + by apply (Hfresh k'); [right|].
    + apply list_elem_of_singleton in Hin. simpl in Hin. by subst.
Qed.

Lemma dict_keys_tabulate (f : string → V) (ks : list string) :
  dict_keys ((λ k, (k, f k)) <$> ks) = ks.
Proof.
  unfold dict_keys. rewrite <-list_fmap_compose. apply list_fmap_id.
Qed.

Lemma dict_get_tabulate (f : string → V) (ks : list string) k :
  k ∈ ks → dict_get k ((λ k, (k, f k)) <$> ks) = Some (f k).
Proof.
  induction ks as [|k' ks IH]; [by intros ?%elem_of_nil|].
  cbn [fmap list_fmap dict_get].
  destruct (String.eqb_spec k' k) as [->|Hne]; [done|].
  intros [?|?]%elem_of_cons; [congruence|]. by apply IH.
Qed.
End Dict.

Section Aggregate.
Context `{SetOrder}.

Lemma all_apps_spec ps :
  StronglySorted String.le (all_apps ps) ∧ NoDup (all_apps ps)
  ∧ ∀ a, a ∈ all_apps ps ↔ ∃ p, p ∈ ps ∧ a ∈ p_applications p.
Proof.
  destruct (sorted_spec (set_list (p ← ps; p_applications p))
              (set_list_NoDup _)) as (Hs & Hnd & Hin).
  split_and!; [done|done|]. intros a. unfold all_apps.
  rewrite Hin, set_list_elem, list_elem_of_bind. split.
  - intros (p & ? & ?). eauto.
  - intros (p & ? & ?). eauto.
Qed.

Lemma all_meths_spec ps :
  StronglySorted String.le (all_meths ps) ∧ NoDup (all_meths ps)
  ∧ ∀ m, m ∈ all_meths ps ↔ m ≠ "" ∧ ∃ p, p ∈ ps ∧ m ∈ p_methodologies p.
Proof.
  destruct (sorted_spec
              (set_list (filter (λ m, m ≠ "") (p ← ps; p_methodologies p)))
              (set_list_NoDup _)) as (Hs & Hnd & Hin).
  split_and!; [done|done|]. intros m. unfold all_meths.
  rewrite Hin, set_list_elem, list_elem_of_filter, list_elem_of_bind. split.
  - intros (? & p & ? & ?). eauto.
  - intros (? & p & ? & ?). eauto.
Qed.

Lemma build_row_tabulate ps meths app :
  NoDup meths →
  build_row ps meths app = (λ meth, (meth, count ps app meth)) <$> meths.
Proof.
  intros Hnd. unfold build_row.
  rewrite (foldl_dict_set (count ps app)); [done|done|].
  intros k _. apply not_elem_of_nil.
Qed.

Lemma build_matrix_tabulate ps apps meths :
  NoDup apps →
  build_matrix ps apps meths = (λ app, (app, build_row ps meths app)) <$> apps.
Proof.
  intros Hnd. unfold build_matrix.
  rewrite (foldl_dict_set (build_row ps meths)); [done|done|].
  intros k _. apply not_elem_of_nil.
Qed.

Lemma set_list_nil : set_list [] = [].
Proof. apply list_no_elem. intros x. rewrite set_list_elem. apply not_elem_of_nil. Qed.

Lemma build_dataset_nil today : build_dataset today [] = Dataset [] [] [] [] today.
Proof.
  unfold build_dataset, all_apps, all_meths. cbn [mbind list_bind].
  rewrite filter_nil, set_list_nil. done.
Qed.

(** C5. For every finalized collection: the applications are the
    categories of the papers, sorted and without repetition; the
    methodologies are the non-empty tags of the papers, sorted and
    without repetition; the matrix has one row per application, in
    order, each row has one entry per methodology, in order, and the
    entry of a pair is the number of papers that have both, which is 0
    when none has; the empty collection gives three empty fields. *)
Theorem C5_aggregate today ps :
  let ds := build_dataset today ps in
  d_papers ds = ps
  ∧ (StronglySorted String.le (d_applications ds)
     ∧ NoDup (d_applications ds)
     ∧ ∀ a, a ∈ d_applications ds ↔ ∃ p, p ∈ ps ∧ a ∈ p_applications p)
  ∧ (StronglySorted String.le (d_methodologies ds)
     ∧ NoDup (d_methodologies ds)
     ∧ ∀ m, m ∈ d_methodologies ds
            ↔ m ≠ "" ∧ ∃ p, p ∈ ps ∧ m ∈ p_methodologies p)
  ∧ dict_keys (d_matrix ds) = d_applications ds
  ∧ (∀ app, app ∈ d_applications ds →
       ∃ row, dict_get app (d_matrix ds) = Some row
         ∧ dict_keys row = d_methodologies ds
         ∧ ∀ meth, meth ∈ d_methodologies ds →
             dict_get meth row
             = Some (length (filter (λ p, app ∈ p_applications p
                                          ∧ meth ∈ p_methodologies p) ps)))
  ∧ (∀ app meth,
       (¬ ∃ p, p ∈ ps ∧ app ∈ p_applications p ∧ meth ∈ p_methodologies p) →
       count ps app meth = 0)
  ∧ build_dataset today [] = Dataset [] [] [] [] today.
Proof.
  cbn [build_dataset d_papers d_applications d_methodologies d_matrix].
  destruct (all_apps_spec ps) as (Has & Hand & Hain).
  destruct (all_meths_spec ps) as (Hms & Hmnd & Hmin).
  rewrite build_matrix_tabulate by done.
  split_and!; try done.
  - apply dict_keys_tabulate.
  - intros app Happ. exists (build_row ps (all_meths ps) app). split_and!.
    + by apply (dict_get_tabulate (build_row ps (all_meths ps))).
    + rewrite build_row_tabulate by done. apply dict_keys_tabulate.
    + intros meth Hmeth. rewrite build_row_tabulate by done.
      by apply (dict_get_tabulate (count ps app)).
  - intros app meth Hnone. unfold count.
    destruct (filter _ ps) as [|p l] eqn:Ef; [done|]. exfalso. apply Hnone.
    assert (p ∈ filter (λ p, app ∈ p_applications p
                            ∧ meth ∈ p_methodologies p) ps)
      as [[??]?]%list_elem_of_filter by (rewrite Ef; left).
    eauto.
  - apply build_dataset_nil.
Qed.

End Aggregate.

(** ** Lines that are skipped *)

Lemma title_match_None line :
  title_match line = None ↔ re_match title_re line = None.
Proof.
  unfold title_match.
  destruct (re_match title_re line) as [gs|] eqn:E; [|done].
  apply re_match_groups in E. simpl in E.
  destruct gs as [|t [|u [|??]]]; done.
Qed.

Lemma group1_None key line :
  group1 (meta_re key) line = None ↔ re_match (meta_re key) line = None.
Proof.
  unfold group1.
  destruct (re_match (meta_re key) line) as [gs|] eqn:E; [|done].
  apply re_match_groups in E. simpl in E.
  destruct gs as [|g [|??]]; done.
Qed.

Lemma set_metadata_unrecognized line cp :
  unrecognized line → set_metadata line cp = cp.
Proof.
  intros (_ & Hm & Hp & Hs). unfold set_metadata.
  apply (group1_None "Methodology") in Hm.
  apply (group1_None "Published") in Hp.
  apply (group1_None "Summary") in Hs.
  unfold meth_re, pub_re, sum_re. by rewrite Hm, Hp, Hs.
Qed.

Lemma candidates_unrecognized category lines : ∀ pending,
  Forall unrecognized lines →
  candidates category pending lines = option_list pending.
Proof.
  induction lines as [|l ls IH]; intros pending Hall; [done|].
  inversion_clear Hall as [|?? Hl Hls]. cbn [candidates].
  rewrite (proj2 (title_match_None l)) by apply Hl.
  rewrite IH by done. destruct pending as [cp|]; [|done].
  simpl. by rewrite set_metadata_unrecognized.
Qed.

(** ** The section splitter *)

Lemma starts_with_app p s : starts_with p (p +:+ s) = true.
Proof.
  unfold starts_with. induction p as [|a p IH]; [done|].
  rewrite app_cons. cbn [strip_prefix]. by rewrite Ascii.eqb_refl.
Qed.

(** Once [x] is as long as the pattern, what follows [x] does not
    matter. *)
Lemma starts_with_long p : ∀ x y,
  (String.length p ≤ String.length x)%nat →
  starts_with p (x +:+ y) = starts_with p x.
Proof.
  unfold starts_with. induction p as [|a p IH]; intros x y Hlen; [done|].
  destruct x as [|b x]; [simpl in Hlen; lia|].
  rewrite app_cons. cbn [strip_prefix]. destruct (Ascii.eqb a b); [|done].
  apply IH. simpl in Hlen. lia.
Qed.

Lemma split_go_skip sep x s :
  split_go sep (String.length x) (x +:+ s) = split_go sep 0 s.
Proof.
  induction x as [|c x IH]; [by destruct s|].
  rewrite app_cons. by cbn [String.length split_go].
Qed.

Lemma split_go_no_occurrence sep s :
  occurs sep s = false → split_go sep 0 s = (s, []).
Proof.
  induction s as [|c s IH]; [done|]. cbn [occurs split_go].
  intros [Hs Ho]%orb_false_iff. rewrite Hs, (IH Ho). done.
Qed.

(** A document without the marker is one piece. *)
Lemma split_no_occurrence sep s : occurs sep s = false → split sep s = [s].
Proof. intros Ho. unfold split. by rewrite split_go_no_occurrence. Qed.

Lemma string_app_assoc x y z : (x +:+ y) +:+ z = x +:+ y +:+ z.
Proof. induction x as [|c x IH]; [done|]. rewrite !app_cons. by f_equal. Qed.

Lemma occurs_suffix sep x y :
  occurs sep (x +:+ y) = false → starts_with sep y = false.
Proof.
  induction x as [|c x IH].
  - change ("" +:+ y) with y. destruct y; simpl; by intros [??]%orb_false_iff.
  - rewrite app_cons. cbn [occurs]. intros [_ Ho]%orb_false_iff. auto.
Qed.

(** The first marker of a document ends its first piece, when no marker
    starts inside that piece. *)
Lemma split_first_marker c0 sep' a b :
  let sep := String c0 sep' in
  (∀ x y, a = x +:+ y → y ≠ "" → starts_with sep (y +:+ sep +:+ b) = false) →
  split sep (a +:+ sep +:+ b) = a :: split sep b.
Proof.
  intros sep. unfold split. induction a as [|c a IH]; intros Hno.
  - change ("" +:+ sep +:+ b) with (String c0 (sep' +:+ b)).
    cbn [split_go]. change (String c0 (sep' +:+ b)) with (sep +:+ b).
    rewrite starts_with_app.
    replace (String.length sep - 1) with (String.length sep')
      by (unfold sep; simpl; lia).
    rewrite split_go_skip. by destruct (split_go sep 0 b).
  - assert (Hs : starts_with sep (String c a +:+ sep +:+ b) = false)
      by (by apply (Hno "" (String c a))).
    rewrite app_cons in *. cbn [split_go]. rewrite Hs.
    assert (Ha : ∀ x y, a = x +:+ y → y ≠ "" →
                 starts_with sep (y +:+ sep +:+ b) = false).
    { intros x y -> Hy. by apply (Hno (String c x) y). }
    specialize (IH Ha).
    destruct (split_go sep 0 (a +:+ sep +:+ b)) as [p ps].
    by injection IH as -> ->.
Qed.

(** The section marker starts with the only line feed it has: a marker
    that starts in front of another one lies in front of it. *)
Lemma mark_no_straddle y b :
  y ≠ "" →
  starts_with SECTION_MARK (y +:+ SECTION_MARK +:+ b) = true →
  starts_with SECTION_MARK y = true.
Proof.
  intros Hy. destruct y as [|c1 [|c2 [|c3 [|c4 y]]]]; [done|..].
  1-3: unfold starts_with, SECTION_MARK, NL; rewrite !app_cons; cbn;
    repeat match goal with
      | |- context [Ascii.eqb ?a ?b] => destruct (Ascii.eqb a b)
      end; done.
  intros Hs. rewrite starts_with_long in Hs; [done|]. simpl. lia.
Qed.

Lemma sections_first_marker a b :
  occurs SECTION_MARK a = false →
  sections (a +:+ SECTION_MARK +:+ b) = a :: sections b.
Proof.
  intros Ho. unfold sections.
  apply (split_first_marker (ascii_of_nat 10) "## "). intros x y -> Hy.
  apply not_true_is_false. intros Hs%mark_no_straddle; [|done].
  apply occurs_suffix in Ho. change (String _ "## ") with SECTION_MARK in Ho.
  congruence.
Qed.

(** C10. A level-2 heading on the very first line is not preceded by a
    line feed, so it starts no section: it and its entries are the
    discarded first piece. Alone, they give the empty dataset; in front
    of the sections that follow, they change nothing to the result. *)
Theorem C10_first_line_heading `{SetOrder} today first :
  occurs SECTION_MARK ("## " +:+ first) = false →
  parse_readme today ("## " +:+ first) = Some (Dataset [] [] [] [] today)
  ∧ ∀ rest,
      sections ("## " +:+ first +:+ SECTION_MARK +:+ rest)
      = ("## " +:+ first) :: sections rest
      ∧ parse_readme today ("## " +:+ first +:+ SECTION_MARK +:+ rest)
        = parse_readme today (SECTION_MARK +:+ rest).
Proof.
  intros Ho. split.
  - unfold parse_readme, scan_document, sections.
    rewrite split_no_occurrence by done. cbn [tail foldM mbind option_bind].
    f_equal. apply build_dataset_nil.
  - intros rest.
    pose proof (sections_first_marker ("## " +:+ first) rest Ho) as Hs.
    rewrite string_app_assoc in Hs. split; [done|].
    unfold parse_readme, scan_document. rewrite Hs.
    change (SECTION_MARK +:+ rest) with ("" +:+ SECTION_MARK +:+ rest).
    by rewrite (sections_first_marker "" rest).
Qed.

(** ** Reading back what [dumps] writes *)

Ltac each_ascii c := destruct c as [[] [] [] [] [] [] [] []].

Lemma string_length_app x y :
  String.length (x +:+ y) = String.length x + String.length y.
Proof. induction x as [|c x IH]; [done|]. rewrite app_cons. simpl. lia. Qed.

Lemma parse_str_escape_char c x :
  parse_str (escape_char c +:+ x)
  = '(str, r) ← parse_str x; Some (String c str, r).
Proof. each_ascii c; reflexivity. Qed.

Lemma parse_str_escape s rest :
  parse_str (escape s +:+ String DQ rest) = Some (s, rest).
Proof.
  induction s as [|c s IH]; [done|]. cbn [escape].
  by rewrite string_app_assoc, parse_str_escape_char, IH.
Qed.

Lemma parse_str_dumps_string s rest :
  ∃ x, dumps_string s +:+ rest = String DQ x ∧ parse_str x = Some (s, rest).
Proof.
  exists (escape s +:+ String DQ rest). split; [|apply parse_str_escape].
  unfold dumps_string. by rewrite app_cons, string_app_assoc.
Qed.

Lemma digit_not_punct c :
  is_digit c = true →
  Ascii.eqb c DQ = false ∧ Ascii.eqb c "[" = false ∧ Ascii.eqb c "{" = false
  ∧ Ascii.eqb c "t" = false ∧ Ascii.eqb c "f" = false.
Proof. each_ascii c; done. Qed.

Lemma span_digits_uint d rest :
  ok_rest rest →
  span_digits (NilEmpty.string_of_uint d +:+ rest)
  = (NilEmpty.string_of_uint d, rest).
Proof.
  intros Hok. induction d; cbn [NilEmpty.string_of_uint];
    rewrite ?app_cons; cbn [span_digits];
    try (change (is_digit _) with true; cbv iota; by rewrite IHd).
  change ("" +:+ rest) with rest. destruct rest as [|c r]; [done|].
  simpl in *. by rewrite Hok.
Qed.

Lemma unorm_not_Nil d : Decimal.unorm d ≠ Decimal.Nil.
Proof. induction d; done. Qed.

Lemma dumps_nat_first n :
  ∃ c x, dumps_nat n = String c x ∧ is_digit c = true.
Proof.
  unfold dumps_nat.
  assert (Nat.to_uint n ≠ Decimal.Nil) as Hn.
  { rewrite <-(Unsigned.of_to n) at 1. rewrite Unsigned.to_of.
    apply unorm_not_Nil. }
  destruct (Nat.to_uint n); [done|..]; simpl; eauto.
Qed.

Lemma parse_nat_dumps n rest :
  ok_rest rest → parse_nat (dumps_nat n +:+ rest) = Some (n, rest).
Proof.
  intros Hok. unfold parse_nat, dumps_nat. rewrite span_digits_uint by done.
  destruct (dumps_nat_first n) as (c & x & Hd & _). unfold dumps_nat in Hd.
  rewrite Hd at 1. rewrite NilEmpty.usu. simpl.
  by rewrite Unsigned.of_to.
Qed.

Lemma strip_prefix_app p s : strip_prefix p (p +:+ s) = Some s.
Proof.
  induction p as [|a p IH]; [done|]. rewrite app_cons. cbn [strip_prefix].
  by rewrite Ascii.eqb_refl.
Qed.

(** No value starts with a closing bracket or brace. *)
Lemma dumps_first v :
  ∃ c x, dumps v = String c x
         ∧ Ascii.eqb "]" c = false ∧ Ascii.eqb "}" c = false.
Proof.
  destruct v as [[]|n|s|l|l]; cbn [dumps]; try (by eexists _, _).
  destruct (dumps_nat_first n) as (c & x & -> & Hc).
  exists c, x. split; [done|]. revert Hc. each_ascii c; done.
Qed.

Lemma strip_prefix_value v x c :
  (c = "]" ∨ c = "}")%char →
  strip_prefix (String c "") (dumps v +:+ x) = None.
Proof.
  destruct (dumps_first v) as (c0 & y & -> & H1 & H2).
  rewrite app_cons. cbn [strip_prefix]. by intros [-> | ->]; rewrite ?H1, ?H2.
Qed.

Lemma parse_elems_dumps l :
  l ≠ [] → Forall reads_back l →
  ∀ n rest,
    (String.length (join "," (map dumps l)) < n)%nat →
    parse_elems n (join "," (map dumps l) +:+ "]" +:+ rest) = Some (l, rest).
Proof.
  intros Hne Hall. induction Hall as [|e l He Hall IH]; [done|].
  intros n rest Hn. destruct n as [|m]; [lia|]. cbn [parse_elems].
  destruct l as [|e2 l].
  - cbn [map join] in *. rewrite (He m) ; [done|done|lia].
  - change (join "," (map dumps (e :: e2 :: l)))
      with (dumps e +:+ "," +:+ join "," (map dumps (e2 :: l))) in *.
    rewrite !string_length_app in Hn. cbn [String.length] in Hn.
    rewrite !string_app_assoc. rewrite (He m); [|done|lia].
    cbn -[join map parse_elems String.append].
    change ("," +:+ ?x) with (String "," x).
    cbn -[join map parse_elems String.append].
    rewrite (IH ltac:(done) m rest) by lia. done.
Qed.

Lemma dumps_string_length s : (2 ≤ String.length (dumps_string s))%nat.
Proof.
  unfold dumps_string. cbn [String.length]. rewrite string_length_app.
  simpl. lia.
Qed.

Lemma parse_members_dumps l :
  l ≠ [] → Forall (λ kv, reads_back kv.2) l →
  ∀ n rest,
    (String.length (join "," (map member_text l)) < n)%nat →
    parse_members n (join "," (map member_text l) +:+ "}" +:+ rest)
    = Some (l, rest).
Proof.
  intros Hne Hall. induction Hall as [|[k v] l Hv Hall IH]; [done|].
  intros n rest Hn. destruct n as [|m]; [lia|]. cbn [snd] in Hv.
  pose proof (dumps_string_length k) as Hk.
  assert (Hstep : ∀ x,
    ok_rest x →
    (String.length (dumps_string k) + 1 + String.length (dumps v) ≤ m)%nat →
    ∃ y, member_text (k, v) +:+ x = String DQ y
         ∧ parse_str y = Some (k, ":" +:+ dumps v +:+ x)
         ∧ parse_value m (dumps v +:+ x) = Some (v, x)).
  { intros x Hx Hm.
    destruct (parse_str_dumps_string k (":" +:+ dumps v +:+ x))
      as (y & Hy & Hp).
    exists y. split_and!; [|done|apply Hv; [done|lia]].
    unfold member_text. cbn [fst snd]. by rewrite !string_app_assoc. }
  cbn [parse_members]. destruct l as [|kv2 l].
  - cbn [map join] in *. unfold member_text in Hn at 1. cbn [fst snd] in Hn.
    rewrite !string_length_app in Hn. cbn [String.length] in Hn.
    destruct (Hstep ("}" +:+ rest)) as (y & -> & -> & Hpv); [done|lia|].
    cbn -[parse_value String.append]. rewrite Ascii.eqb_refl.
    cbn -[parse_value String.append].
    change (":" +:+ ?x) with (String ":" x).
    cbn -[parse_value String.append]. rewrite Hpv. done.
  - change (join "," (map member_text ((k, v) :: kv2 :: l)))
      with (member_text (k, v) +:+ ","
            +:+ join "," (map member_text (kv2 :: l))) in *.
    unfold member_text in Hn at 1. cbn [fst snd] in Hn.
    rewrite !string_length_app in Hn. cbn [String.length] in Hn.
    rewrite !string_app_assoc.
    destruct (Hstep ("," +:+ join "," (map member_text (kv2 :: l))
                         +:+ "}" +:+ rest))
      as (y & -> & -> & Hpv); [done|lia|].
    cbn -[parse_value parse_members String.append join map].
    rewrite Ascii.eqb_refl.
    cbn -[parse_value parse_members String.append join map].
    change (":" +:+ ?x) with (String ":" x).
    cbn -[parse_value parse_members String.append join map]. rewrite Hpv.
    cbn -[parse_value parse_members String.append join map].
    change ("," +:+ ?x) with (String "," x).
    cbn -[parse_value parse_members String.append join map].
    rewrite (IH ltac:(done) m rest) by lia. done.
Qed.

Lemma reads_back_all v : reads_back v.
Proof.
  induction v as [b|k|s|l IH|l IH] using json_ind'; intros n rest Hok Hn.
  - destruct n as [|n]; [destruct b; simpl in Hn; lia|]. by destruct b.
  - destruct n as [|n].
    { destruct (dumps_nat_first k) as (c & x & Hd & _). cbn [dumps] in Hn.
      rewrite Hd in Hn. simpl in Hn. lia. }
    cbn [dumps].
    destruct (dumps_nat_first k) as (c & x & Hd & Hc).
    pose proof (parse_nat_dumps k rest Hok) as Hp.
    rewrite Hd in *. rewrite app_cons in *. cbn [parse_value].
    destruct (digit_not_punct c Hc) as (-> & -> & -> & -> & ->).
    by rewrite Hp.
  - destruct n as [|n]; [pose proof (dumps_string_length s); simpl in *; lia|].
    cbn [dumps]. destruct (parse_str_dumps_string s rest) as (x & -> & Hp).
    cbn [parse_value]. rewrite Ascii.eqb_refl, Hp. done.
  - destruct n as [|n]; [simpl in Hn; lia|].
    cbn [dumps] in *. rewrite !app_cons in *. cbn [String.length] in Hn.
    change ("" +:+ ?x) with x in *. rewrite string_length_app in Hn.
    cbn [String.length] in Hn.
    cbn -[parse_elems String.append join map strip_prefix].
    rewrite string_app_assoc. destruct l as [|e l].
    + done.
    + destruct (dumps_first e) as (c & x & He & Hc & _).
      assert (strip_prefix "]" (join "," (map dumps (e :: l)) +:+ "]" +:+ rest)
              = None) as ->.
      { destruct l as [|e2 l]; cbn [map join]; rewrite ?string_app_assoc;
          by apply strip_prefix_value; left. }
      rewrite parse_elems_dumps; [done|done|done|lia].
  - destruct n as [|n]; [simpl in Hn; lia|].
    cbn [dumps] in *. rewrite !app_cons in *. cbn [String.length] in Hn.
    change ("" +:+ ?x) with x in *. rewrite string_length_app in Hn.
    cbn [String.length] in Hn.
    change (map _ l) with (map member_text l) in *.
    cbn -[parse_members String.append join map strip_prefix].
    rewrite string_app_assoc. destruct l as [|[k v] l].
    + done.
    + assert (strip_prefix "}"
                (join "," (map member_text ((k, v) :: l)) +:+ "}" +:+ rest)
              = None) as ->.
      { destruct l as [|e2 l]; cbn [map join]; unfold member_text at 1;
          rewrite ?string_app_assoc; unfold dumps_string; by rewrite app_cons. }
      rewrite parse_members_dumps; [done|done|done|lia].
Qed.

(** Every value is read back from its text. *)
Lemma json_loads_dumps v : json_loads (dumps v) = Some v.
Proof.
  unfold json_loads.
  pose proof (reads_back_all v (S (String.length (dumps v))) "" I) as Hr.
  rewrite app_empty_r in Hr. rewrite Hr by lia. done.
Qed.

(** ** From the JSON value back to the dataset *)

Lemma as_strings_json l : as_strings (strings_json l) = Some l.
Proof. unfold as_strings, strings_json. by apply mapM_fmap_Some. Qed.

Lemma json_paper_json p : json_paper (paper_json p) = Some p.
Proof.
  destruct p as [i t u ms apps pub sm rev]. unfold json_paper, paper_json.
  cbn -[as_strings strings_json]. rewrite !as_strings_json.
  by destruct rev.
Qed.

Lemma json_row_json row : json_row (row_json row) = Some row.
Proof.
  unfold json_row, row_json. cbn [as_members mbind option_bind].
  apply mapM_fmap_Some. by intros [k n].
Qed.

Lemma json_matrix_json m : json_matrix (matrix_json m) = Some m.
Proof.
  unfold json_matrix, matrix_json. cbn [as_members mbind option_bind].
  apply mapM_fmap_Some. intros [k row]. cbn [fst snd].
  by rewrite json_row_json.
Qed.

Lemma json_dataset_json d : json_dataset (dataset_json d) = Some d.
Proof.
  destruct d as [ps apps ms mx lu]. unfold json_dataset, dataset_json.
  cbn -[as_strings strings_json json_matrix matrix_json mapM json_paper
        paper_json].
  rewrite (mapM_fmap_Some json_paper paper_json) by apply json_paper_json.
  cbn -[as_strings strings_json json_matrix matrix_json].
  rewrite !as_strings_json. cbn -[json_matrix matrix_json].
  by rewrite json_matrix_json.
Qed.

(** With distinct keys, a dict is read by key whatever the order of its
    members. *)
Lemma dict_get_Some {V} (l : dict V) k v :
  NoDup (dict_keys l) → dict_get k l = Some v ↔ (k, v) ∈ l.
Proof.
  unfold dict_keys. induction l as [|[k' v'] l IH]; intros Hnd.
  - cbn. split; [done|by intros ?%elem_of_nil].
  - cbn [fmap list_fmap fst] in Hnd. apply NoDup_cons in Hnd as [Hk' Hnd].
    cbn [dict_get]. rewrite elem_of_cons.
    destruct (String.eqb_spec k' k) as [->|Hne].
    + split; [intros [= ->]; by left|]. intros [[= ->]|Hin]; [done|].
      destruct Hk'. apply list_elem_of_fmap. by exists (k, v).
    + rewrite IH by done. split; [by right|]. by intros [[= -> _]|?].
Qed.

Lemma dict_get_Permutation {V} (l l' : dict V) k :
  NoDup (dict_keys l) → l ≡ₚ l' → dict_get k l' = dict_get k l.
Proof.
  intros Hnd Hp. apply option_eq. intros v.
  rewrite !dict_get_Some; [by rewrite Hp|done|].
  unfold dict_keys in *. by rewrite <-Hp.
Qed.

Lemma json_dataset_members d l' :
  dataset_members d ≡ₚ l' → json_dataset (JObj l') = Some d.
Proof.
  intros Hp. rewrite <-(json_dataset_json d). unfold json_dataset, dataset_json.
  cbn [as_members mbind option_bind].
  assert (Hnd : NoDup (dict_keys (dataset_members d))).
  { apply (bool_decide_unpack _). by vm_compute. }
  by rewrite !(dict_get_Permutation _ _ _ Hnd Hp).
Qed.

(** C9. The page is the first literal of the template, the compact
    serialization of the dataset, and the second literal; read back by a
    reader that accepts no whitespace between tokens, the serialization
    gives the value it was written from, and that value gives back the
    dataset: the same papers with the same fields, the same two lists of
    labels and the same matrix. The fields are found by key: the same
    dataset is read from the members of the object in any other order. *)
Theorem C9_render_roundtrip html_head html_tail data :
  generate_html html_head html_tail data
  = html_head +:+ dumps (dataset_json data) +:+ html_tail
  ∧ json_loads (dumps (dataset_json data)) = Some (dataset_json data)
  ∧ json_loads (dumps (dataset_json data)) ≫= json_dataset = Some data
  ∧ (∀ data',
       json_loads (dumps (dataset_json data)) ≫= json_dataset = Some data' →
       d_applications data' = d_applications data
       ∧ d_methodologies data' = d_methodologies data
       ∧ d_matrix data' = d_matrix data
       ∧ d_papers data' = d_papers data)
  ∧ (∀ members,
       dataset_members data ≡ₚ members →
       json_loads (dumps (JObj members)) ≫= json_dataset = Some data).
Proof.
  split_and!; [done|apply json_loads_dumps| | |].
  - rewrite json_loads_dumps. apply json_dataset_json.
  - intros data'. rewrite json_loads_dumps. cbn [mbind option_bind].
    rewrite json_dataset_json. by intros [= <-].
  - intros members Hp. rewrite json_loads_dumps. cbn [mbind option_bind].
    by apply json_dataset_members.
Qed.

(** ** Two runs on the same document *)

Lemma sorted_same_elements l1 l2 :
  NoDup l1 → NoDup l2 → (∀ x, x ∈ l1 ↔ x ∈ l2) → sorted l1 = sorted l2.
Proof.
  intros H1 H2 Hin.
  destruct (sorted_spec l1 H1) as (Hs1 & _ & _).
  destruct (sorted_spec l2 H2) as (Hs2 & _ & _).
  apply (StronglySorted_unique String.le); [done|done|].
  unfold sorted. rewrite !merge_sort_Permutation. by apply NoDup_Permutation.
Qed.

Section TwoRuns.
Variables O1 O2 : SetOrder.


(** What the two runs make of one record: everything equal, the
    methodologies equal as sets. *)
Lemma passes_agree q :
  p_id (passes O1 q) = p_id (passes O2 q)
  ∧ p_title (passes O1 q) = p_title (passes O2 q)
  ∧ p_url (passes O1 q) = p_url (passes O2 q)
  ∧ p_applications (passes O1 q) = p_applications (passes O2 q)
  ∧ p_published (passes O1 q) = p_published (passes O2 q)
  ∧ p_summary (passes O1 q) = p_summary (passes O2 q)
  ∧ p_is_review (passes O1 q) = p_is_review (passes O2 q)
  ∧ p_methodologies (passes O1 q) ≡ₚ p_methodologies (passes O2 q).
Proof.
  split_and!; try done. cbn.
  apply NoDup_Permutation; [apply set_list_NoDup..|].
  intros x. by rewrite !set_list_elem.
Qed.

Lemma passes_methodology q m :
  m ∈ p_methodologies (passes O1 q) ↔ m ∈ p_methodologies (passes O2 q).
Proof. by rewrite (proj2 (proj2 (proj2 (proj2 (proj2 (proj2 (proj2 (passes_agree q)))))))). Qed.

Lemma count_agree raw app meth :
  count (passes O1 <$> raw) app meth = count (passes O2 <$> raw) app meth.
Proof.
  unfold count. induction raw as [|q raw IH]; [done|].
  cbn [fmap list_fmap]. rewrite !filter_cons.
  destruct (passes_agree q) as (_ & _ & _ & Ha & _).
  repeat case_decide; cbn [length]; rewrite ?IH; try done;
    exfalso; rewrite ?Ha, ?passes_methodology in *; tauto.
Qed.

Lemma all_apps_agree raw :
  all_apps (H := O1) (passes O1 <$> raw) = all_apps (H := O2) (passes O2 <$> raw).
Proof.
  unfold all_apps. apply sorted_same_elements; [apply set_list_NoDup..|].
  intros x. rewrite !set_list_elem, !list_fmap_bind. done.
Qed.

Lemma all_meths_agree raw :
  all_meths (H := O1) (passes O1 <$> raw) = all_meths (H := O2) (passes O2 <$> raw).
Proof.
  unfold all_meths. apply sorted_same_elements; [apply set_list_NoDup..|].
  intros x. rewrite !set_list_elem, !list_elem_of_filter, !list_fmap_bind.
  rewrite !list_elem_of_bind. split; intros (? & q & Hm & ?);
    (split; [done|]); exists q; (split; [|done]);
    by apply passes_methodology.
Qed.

Lemma build_matrix_agree raw apps meths :
  NoDup apps → NoDup meths →
  build_matrix (passes O1 <$> raw) apps meths
  = build_matrix (passes O2 <$> raw) apps meths.
Proof.
  intros Ha Hm. rewrite !build_matrix_tabulate by done.
  apply list_fmap_ext. intros _ app _. f_equal.
  rewrite !build_row_tabulate by done.
  apply list_fmap_ext. intros _ meth _. f_equal. apply count_agree.
Qed.

Lemma aggregate_agree today raw :
  let ds1 := aggregate (H := O1) today raw in
  let ds2 := aggregate (H := O2) today raw in
  d_applications ds1 = d_applications ds2
  ∧ d_methodologies ds1 = d_methodologies ds2
  ∧ d_matrix ds1 = d_matrix ds2
  ∧ d_lastUpdated ds1 = d_lastUpdated ds2
  ∧ Forall2 (λ p1 p2,
       p_id p1 = p_id p2 ∧ p_title p1 = p_title p2 ∧ p_url p1 = p_url p2
       ∧ p_applications p1 = p_applications p2
       ∧ p_published p1 = p_published p2 ∧ p_summary p1 = p_summary p2
       ∧ p_is_review p1 = p_is_review p2
       ∧ p_methodologies p1 ≡ₚ p_methodologies p2)
      (d_papers ds1) (d_papers ds2).
Proof.
  unfold aggregate, build_dataset.
  cbn [d_papers d_applications d_methodologies d_matrix d_lastUpdated].
  rewrite <-!list_fmap_compose.
  change (tag_review ∘ normalize_paper (H := O1)) with (passes O1).
  change (tag_review ∘ normalize_paper (H := O2)) with (passes O2).
  rewrite all_apps_agree, all_meths_agree.
  split_and!; [done|done| |done|].
  - apply build_matrix_agree.
    + apply (all_apps_spec (H := O2)).
    + apply (all_meths_spec (H := O2)).
  - apply Forall2_fmap, Forall_Forall2_diag, Forall_forall.
    intros q _. apply passes_agree.
Qed.

End TwoRuns.

(** C6, as stated, fails: two runs that differ in the iteration order of
    their sets write the methodologies of a paper in different orders. *)
Lemma C6_output_depends_on_set_order :
  ¬ (∀ (O1 O2 : SetOrder) (html_head html_tail today content : string),
       generate_html html_head html_tail
         <$> parse_readme (H := O1) today content
       = generate_html html_head html_tail
           <$> parse_readme (H := O2) today content).
Proof.
  intros Hall.
  specialize (Hall keep_last_order reversed_order "" "" "2026-11-03" sample).
  vm_compute in Hall. discriminate Hall.
Qed.

(** ** Concrete documents *)

Lemma C10_first_line_heading_witness :
  occurs SECTION_MARK ("## " +:+ first_line_heading) = false
  ∧ parse_readme (H := keep_last_order) "2026-11-03"
      ("## " +:+ first_line_heading)
    = Some (Dataset [] [] [] [] "2026-11-03")
  ∧ ∀ rest,
      sections ("## " +:+ first_line_heading +:+ SECTION_MARK +:+ rest)
      = ("## " +:+ first_line_heading) :: sections rest
      ∧ parse_readme (H := keep_last_order) "2026-11-03"
          ("## " +:+ first_line_heading +:+ SECTION_MARK +:+ rest)
        = parse_readme (H := keep_last_order) "2026-11-03"
            (SECTION_MARK +:+ rest).
Proof.
  split; [reflexivity|].
  apply (C10_first_line_heading (H := keep_last_order)). reflexivity.
Defined.

(** The same heading after a line feed does start a section. *)
Example heading_after_newline :
  d_papers <$> parse_readme (H := keep_last_order) "2026-11-03"
                 (NL +:+ "## " +:+ first_line_heading)
  = Some [Paper 0 "A" "http://a" ["NLME"] ["Oncology"] "" "" (Some false)].
Proof. vm_compute. reflexivity. Qed.

(** A URL declared again between two first encounters takes no
    identifier. *)
Example identifiers_skip_duplicates :
  (λ ds, (λ p, (p_id p, p_url p, p_applications p)) <$> d_papers ds)
    <$> parse_readme (H := keep_last_order) "2026-11-03"
          ("intro" +:+ NL +:+
           "## Oncology" +:+ NL +:+
           "- **[A](u1)**" +:+ NL +:+ "- **[B](u2)**" +:+ NL +:+
           "## PBPK" +:+ NL +:+
           "- **[A bis](u1)**" +:+ NL +:+ "- **[C](u3)**" +:+ NL +:+
           "- **[B bis](u2)**" +:+ NL +:+ "- **[A ter](u1)**")
  = Some [(0, "u1", ["Oncology"; "PBPK"]); (1, "u2", ["Oncology"; "PBPK"]);
          (2, "u3", ["PBPK"])].
Proof. vm_compute. reflexivity. Qed.

(** Both spellings of one tag, and the dropped tag alone. *)
Example remap_in_document :
  (λ ds, (λ p, (p_title p, p_methodologies p)) <$> d_papers ds)
    <$> parse_readme (H := reversed_order) "2026-11-03"
          (NL +:+ "## Oncology" +:+ NL +:+
           "- **[A](u1)**" +:+ NL +:+
           "  - Methodology: Machine Learning, Machine learning" +:+ NL +:+
           "- **[B](u2)**" +:+ NL +:+
           "  - Methodology: Artificial Intelligence")
  = Some [("A", ["Machine learning"]); ("B", [])].
Proof. vm_compute. reflexivity. Qed.

(** Lines that no pattern matches, and metadata before any title. *)
Example unrecognized_ex1 : unrecognized "Some prose about the section.".
Proof. by repeat split. Qed.

Example unrecognized_ex2 : unrecognized " - **[A](u)**".
Proof. by repeat split. Qed.

Example metadata_without_record :
  d_papers <$> parse_readme (H := keep_last_order) "2026-11-03"
                 (NL +:+ "## Oncology" +:+ NL +:+
                  "  - Methodology: NLME" +:+ NL +:+
                  "- **[A](u1)**" +:+ NL +:+ "not a pattern" +:+ NL)
  = Some [Paper 0 "A" "u1" [] ["Oncology"] "" "" (Some false)].
Proof. vm_compute. reflexivity. Qed.

(** A heading without text: [strip] removes the line feed after the
    marker, and the first line with text is taken as the category. *)
Example heading_without_text :
  section_declared (" " +:+ NL +:+ "- **[A](u1)**" +:+ NL +:+ "- **[B](u2)**")
  = [("- **[A](u1)**", Paper 0 "B" "u2" [] ["- **[A](u1)**"] "" "" None)].
Proof. vm_compute. reflexivity. Qed.

(** * Further properties of the code *)

(** ** Splitting and joining *)

Lemma strip_prefix_Some p : ∀ s r, strip_prefix p s = Some r → s = p +:+ r.
Proof.
  induction p as [|a p IH]; intros s r; [by intros [= ->]|].
  destruct s as [|b s]; [done|]. cbn [strip_prefix].
  destruct (Ascii.eqb_spec a b) as [->|]; [|done].
  intros ->%IH. by rewrite app_cons.
Qed.

Lemma starts_with_Some p s : starts_with p s = true → ∃ r, s = p +:+ r.
Proof.
  unfold starts_with. destruct (strip_prefix p s) as [r|] eqn:E; [|done].
  intros _. exists r. by apply strip_prefix_Some.
Qed.

Lemma starts_with_app_l p y x :
  starts_with p y = true → starts_with p (y +:+ x) = true.
Proof.
  intros [r ->]%starts_with_Some. rewrite string_app_assoc.
  apply starts_with_app.
Qed.

(** Matching [p], in which [c0] does not occur, against a text that
    continues with [c0] after [y] ends inside [y]. *)
Lemma starts_with_inside c0 p : ∀ y x,
  all_chars (is_not c0) p = true →
  starts_with p (y +:+ String c0 x) = true →
  (String.length p ≤ String.length y)%nat.
Proof.
  unfold starts_with. induction p as [|a p IH]; intros y x Hp; [simpl; lia|].
  cbn [all_chars] in Hp. apply andb_true_iff in Hp as [Ha Hp].
  destruct y as [|b y].
  - change ("" +:+ String c0 x) with (String c0 x). cbn [strip_prefix].
    unfold is_not in Ha. rewrite Ascii.eqb_sym in Ha.
    by destruct (Ascii.eqb a c0).
  - rewrite app_cons. cbn [strip_prefix String.length].
    destruct (Ascii.eqb a b); [|done]. intros Hs.
    specialize (IH y x Hp Hs). lia.
Qed.

(** A separator whose first character occurs nowhere else in it cannot
    start in front of an occurrence and end inside it. *)
Lemma no_straddle c0 sep' y x :
  all_chars (is_not c0) sep' = true → y ≠ "" →
  starts_with (String c0 sep') (y +:+ String c0 sep' +:+ x) = true →
  starts_with (String c0 sep') y = true.
Proof.
  intros Hsep Hy Hs. destruct y as [|b y]; [done|].
  rewrite <-Hs. symmetry. apply starts_with_long.
  revert Hs. unfold starts_with. rewrite !app_cons. cbn [strip_prefix].
  destruct (Ascii.eqb c0 b); [|done]. intros Hs.
  pose proof (starts_with_inside c0 sep' y (sep' +:+ x) Hsep) as Hl.
  unfold starts_with in Hl. specialize (Hl Hs). simpl. lia.
Qed.

Lemma starts_with_length p : ∀ s,
  starts_with p s = true → (String.length p ≤ String.length s)%nat.
Proof.
  intros s [r ->]%starts_with_Some. rewrite string_length_app. lia.
Qed.

Section SplitApp.
Variables (c0 : ascii) (sep' : string).
Hypothesis Hsep : all_chars (is_not c0) sep' = true.
Let sep := String c0 sep'.

Lemma split_go_app b : ∀ a skip,
  (skip ≤ String.length a)%nat →
  split_go sep skip (a +:+ sep +:+ b)
  = let '(p, ps) := split_go sep skip a in (p, ps ++ split sep b).
Proof.
  induction a as [|c a IH]; intros skip Hskip.
  - destruct skip; [|simpl in Hskip; lia].
    change ("" +:+ sep +:+ b) with (String c0 (sep' +:+ b)).
    cbn [split_go]. change (String c0 (sep' +:+ b)) with (sep +:+ b).
    rewrite starts_with_app.
    replace (String.length sep - 1) with (String.length sep')
      by (unfold sep; simpl; lia).
    rewrite split_go_skip. unfold split. by destruct (split_go sep 0 b).
  - rewrite app_cons. cbn [split_go]. destruct skip as [|n].
    + rewrite <-app_cons.
      assert (starts_with sep (String c a +:+ sep +:+ b)
              = starts_with sep (String c a)) as ->.
      { destruct (starts_with sep (String c a)) eqn:E.
        - by apply starts_with_app_l.
        - apply not_true_is_false. intros Hs.
          apply no_straddle in Hs; [|done|done]. unfold sep in E.
          congruence. }
      destruct (starts_with sep (String c a)) eqn:E.
      * apply starts_with_length in E. cbn [String.length] in E.
        rewrite IH by (unfold sep in *; cbn [String.length] in *; lia).
        by destruct (split_go sep (String.length sep - 1) a).
      * rewrite IH by lia. by destruct (split_go sep 0 a).
    + apply IH. simpl in Hskip. lia.
Qed.

(** The pieces of two texts put together with the separator between
    them are the pieces of the one and the pieces of the other. *)
Lemma split_app a b : split sep (a +:+ sep +:+ b) = split sep a ++ split sep b.
Proof.
  unfold split at 1 2. rewrite split_go_app by lia.
  by destruct (split_go sep 0 a).
Qed.
End SplitApp.

Lemma join_cons_char sep c p ps :
  join sep (String c p :: ps) = String c (join sep (p :: ps)).
Proof. by destruct ps. Qed.

Lemma join_prefix sep p ps : ∃ r, join sep (p :: ps) = p +:+ r.
Proof.
  destruct ps as [|q ps]; [exists ""; by rewrite app_empty_r|].
  by exists (sep +:+ join sep (q :: ps)).
Qed.

(** What [split_go] returns: pieces that give the text back when the
    separator is put between them, none of which contains it. *)
Lemma split_go_spec c0 sep' n : ∀ s,
  (String.length s ≤ n)%nat →
  let sep := String c0 sep' in
  let '(p, ps) := split_go sep 0 s in
  join sep (p :: ps) = s ∧ Forall (λ q, occurs sep q = false) (p :: ps).
Proof.
  induction n as [|n IH]; intros s Hn sep.
  { destruct s; [|simpl in Hn; lia]. cbn. by repeat constructor. }
  destruct s as [|c s]; [cbn; by repeat constructor|].
  cbn [split_go]. destruct (starts_with sep (String c s)) eqn:E.
  - apply starts_with_Some in E as [r Hr]. unfold sep in Hr.
    rewrite app_cons in Hr. injection Hr as -> ->.
    replace (String.length sep - 1) with (String.length sep')
      by (unfold sep; simpl; lia).
    rewrite split_go_skip.
    assert (String.length r ≤ n)%nat as Hr.
    { cbn [String.length] in Hn. rewrite string_length_app in Hn. lia. }
    specialize (IH r Hr). cbv zeta in IH. fold sep in IH.
    destruct (split_go sep 0 r) as [p ps]. destruct IH as [Hj Hall].
    split.
    + change (join sep ("" :: p :: ps)) with (sep +:+ join sep (p :: ps)).
      by rewrite Hj.
    + by constructor.
  - assert (String.length s ≤ n)%nat as Hs by (simpl in Hn; lia).
    specialize (IH s Hs). cbv zeta in IH. fold sep in IH.
    destruct (split_go sep 0 s) as [p ps]. destruct IH as [Hj Hall].
    split; [by rewrite join_cons_char, Hj|].
    inversion_clear Hall as [|?? Hp Hps]. constructor; [|done].
    cbn [occurs]. rewrite Hp, orb_false_r. apply not_true_is_false.
    intros Hsw. destruct (join_prefix sep p ps) as [r Hr].
    rewrite Hj in Hr. rewrite Hr, <-app_cons in E.
    by rewrite (starts_with_app_l _ _ r Hsw) in E.
Qed.

Lemma split_spec c0 sep' s :
  let sep := String c0 sep' in
  join sep (split sep s) = s ∧ Forall (λ q, occurs sep q = false) (split sep s).
Proof.
  intros sep. unfold split.
  pose proof (split_go_spec c0 sep' (String.length s) s ltac:(lia)) as H.
  cbv zeta in H. fold sep in H. by destruct (split_go sep 0 s).
Qed.

Lemma occurs_NL s : occurs NL s = false ↔ all_chars dot s = true.
Proof.
  induction s as [|c s IH]; [done|]. cbn [occurs all_chars].
  rewrite orb_false_iff, andb_true_iff, IH.
  assert (starts_with NL (String c s) = false ↔ dot c = true) as ->; [|done].
  unfold starts_with, NL, dot. cbn [strip_prefix].
  clear. each_ascii c; done.
Qed.

(** X1. Nothing is lost at the two splits of [parse_readme]: the
    sections put together with the marker between them are the document
    and no section contains the marker; the lines of a text put together
    with line feeds are the text, and no line contains a line feed, so
    the class [.] of the patterns matches every character of a line. *)
Theorem X1_split_loses_nothing content :
  (join SECTION_MARK (sections content) = content
   ∧ Forall (λ s, occurs SECTION_MARK s = false) (sections content))
  ∧ (join NL (split NL content) = content
     ∧ Forall (λ l, all_chars dot l = true) (split NL content)).
Proof.
  split.
  - apply (split_spec (ascii_of_nat 10) "## ").
  - destruct (split_spec (ascii_of_nat 10) "" content) as [Hj Hall].
    split; [done|]. eapply Forall_impl; [apply Hall|].
    intros l. apply occurs_NL.
Qed.

Lemma sections_app a b :
  sections (a +:+ SECTION_MARK +:+ b) = sections a ++ sections b.
Proof. by apply (split_app (ascii_of_nat 10) "## "). Qed.

Lemma sections_cons content : ∃ s ss, sections content = s :: ss.
Proof. unfold sections, split. destruct (split_go _ _ _). eauto. Qed.

Lemma scan_document_app a b :
  scan_document (a +:+ SECTION_MARK +:+ b)
  = st ← scan_document a; foldM scan_section st (sections b).
Proof.
  unfold scan_document. rewrite sections_app.
  destruct (sections_cons a) as (s & ss & ->). cbn [tail app].
  by rewrite foldM_app.
Qed.

(** X2. A document followed by a marker and more text is split into the
    sections of the one and the sections of the other, wherever markers
    occur in either, and it is scanned as the first document, then, from
    the state reached, the sections of the second one including its
    first piece. *)
Theorem X2_sections_compose a b :
  sections (a +:+ SECTION_MARK +:+ b) = sections a ++ sections b
  ∧ scan_document (a +:+ SECTION_MARK +:+ b)
    = st ← scan_document a; foldM scan_section st (sections b).
Proof. split; [apply sections_app|apply scan_document_app]. Qed.

(** ** Sections that are added to a document *)

Lemma scan_section_toc st section :
  section_category section = "Table of Contents" →
  scan_section st section = Some st.
Proof.
  unfold section_category, scan_section.
  destruct (split NL (strip section)) as [|l0 rest]; [done|].
  by intros ->.
Qed.

Lemma sections_one s : occurs SECTION_MARK s = false → sections s = [s].
Proof. apply split_no_occurrence. Qed.

(** X3. A table of contents is skipped wherever it stands: a section
    whose category is "Table of Contents", whatever entries it holds,
    can be removed from between two parts of a document, or from its
    end, without changing what [parse_readme] returns. *)
Theorem X3_table_of_contents_skipped `{SetOrder} today a toc b :
  occurs SECTION_MARK toc = false →
  section_category toc = "Table of Contents" →
  parse_readme today (a +:+ SECTION_MARK +:+ toc +:+ SECTION_MARK +:+ b)
  = parse_readme today (a +:+ SECTION_MARK +:+ b)
  ∧ parse_readme today (a +:+ SECTION_MARK +:+ toc) = parse_readme today a.
Proof.
  intros Hno Htoc. unfold parse_readme.
  rewrite !scan_document_app, sections_app, (sections_one toc Hno).
  split.
  - destruct (scan_document a) as [st|]; [|done]. cbn [mbind option_bind].
    cbn [app foldM]. rewrite scan_section_toc by done. done.
  - destruct (scan_document a) as [st|]; [|done]. cbn [mbind option_bind].
    cbn [foldM]. rewrite scan_section_toc by done. done.
Qed.

Lemma dedup_first_prefix l l' : dedup_first l `prefix_of` dedup_first (l ++ l').
Proof.
  induction l' as [|x l' IH] using rev_ind; [by rewrite app_nil_r|].
  rewrite app_assoc, dedup_first_snoc. case_bool_decide; [done|].
  by apply prefix_app_r.
Qed.

Lemma categories_of_prefix u ds ds' :
  categories_of u ds `prefix_of` categories_of u (ds ++ ds').
Proof.
  unfold categories_of. rewrite filter_app, fmap_app.
  apply dedup_first_prefix.
Qed.

Lemma merged_app i u ds ds' p :
  merged i u ds = Some p →
  merged i u (ds ++ ds')
  = Some (with_applications (categories_of u (ds ++ ds')) p).
Proof.
  unfold merged. rewrite filter_app.
  destruct (filter (declares u) ds) as [|d f]; [done|].
  cbn [app head mbind option_bind]. by intros [= <-].
Qed.

Lemma declared_app a b :
  declared (a +:+ SECTION_MARK +:+ b)
  = declared a ++ (s ← sections b; section_declared s).
Proof.
  unfold declared. rewrite sections_app.
  destruct (sections_cons a) as (s & ss & ->). cbn [tail app].
  apply bind_app.
Qed.

Lemma filter_prefix {A} (P : A → Prop) `{∀ x, Decision (P x)} (l1 l2 : list A) :
  l1 `prefix_of` l2 → filter P l1 `prefix_of` filter P l2.
Proof. intros [k ->]. rewrite filter_app. by apply prefix_app_r. Qed.

(** X4. Text added after a marker at the end of a document leaves the
    records of the document where they are: each one keeps its position,
    identifier, title, URL, methodologies, published and summary
    strings; its application list can only get longer at its end, and
    [is_review] can only turn true. *)
Theorem X4_appended_text_keeps_records `{SetOrder} today a b :
  ∃ ds ds',
    parse_readme today a = Some ds
    ∧ parse_readme today (a +:+ SECTION_MARK +:+ b) = Some ds'
    ∧ ∀ i p, d_papers ds !! i = Some p →
        ∃ p', d_papers ds' !! i = Some p'
          ∧ p_id p' = p_id p ∧ p_title p' = p_title p ∧ p_url p' = p_url p
          ∧ p_methodologies p' = p_methodologies p
          ∧ p_published p' = p_published p ∧ p_summary p' = p_summary p
          ∧ p_applications p `prefix_of` p_applications p'
          ∧ (p_is_review p = Some true → p_is_review p' = Some true).
Proof.
  destruct (parse_readme_scanned today a) as (st & _ & Hs & ->).
  destruct (parse_readme_scanned today (a +:+ SECTION_MARK +:+ b))
    as (st' & _ & Hs' & ->).
  rewrite declared_app in Hs'.
  set (ds' := s ← sections b; section_declared s) in *.
  eexists _, _. split; [done|]. split; [done|].
  intros i p (q & Hq & ->)%aggregate_lookup.
  assert (∃ q', papers st' !! i = Some q' ∧ p_url q' = p_url q)
    as (q' & Hq' & Hu).
  { assert ((p_url <$> papers st') !! i = Some (p_url q)) as Hi.
    { rewrite (scanned_urls _ _ Hs'), fmap_app.
      eapply prefix_lookup_Some; [|apply dedup_first_prefix].
      by rewrite <-(scanned_urls _ _ Hs), list_lookup_fmap, Hq. }
    rewrite list_lookup_fmap in Hi.
    destruct (papers st' !! i) as [q'|]; [|done].
    exists q'. split; [done|]. by injection Hi. }
  pose proof (scanned_merged _ _ Hs i q Hq) as Hm.
  pose proof (scanned_merged _ _ Hs' i q' Hq') as Hm'.
  rewrite Hu, (merged_app _ _ _ ds' _ Hm) in Hm'. injection Hm' as <-.
  assert (p_applications q = categories_of (p_url q) (declared a)) as Hcats.
  { apply merged_first in Hm as (? & ? & ? & _ & _ & _ & Heq).
    by rewrite Heq at 1. }
  exists (tag_review (normalize_paper
            (with_applications
               (categories_of (p_url q) (declared a ++ ds')) q))).
  split; [apply aggregate_lookup; eauto|].
  split_and!; try done.
  - cbn [tag_review normalize_paper with_applications with_methodologies
         with_is_review p_applications].
    apply filter_prefix. rewrite Hcats. apply categories_of_prefix.
  - cbn [tag_review normalize_paper with_applications with_methodologies
         with_is_review p_applications p_is_review].
    intros [= Hr%bool_decide_eq_true]. f_equal. apply bool_decide_eq_true.
    rewrite Hcats in Hr.
    destruct (categories_of_prefix (p_url q) (declared a) ds') as [k ->].
    apply elem_of_app. by left.
Qed.

(** ** What the patterns capture *)

Lemma all_chars_app P x y :
  all_chars P (x +:+ y) = all_chars P x && all_chars P y.
Proof.
  induction x as [|c x IH]; [done|]. rewrite app_cons. cbn [all_chars].
  by rewrite IH, andb_assoc.
Qed.

Section RepSound.
Variables (cls : ascii → bool) (k : cont).

Lemma rep_lazy_sound s : ∀ acc g gs,
  rep_lazy cls k acc s = Some (g, gs) →
  ∃ w r, s = w +:+ r ∧ g = acc +:+ w ∧ all_chars cls w = true ∧ k r = Some gs.
Proof.
  induction s as [|c s IH]; intros acc g gs; cbn [rep_lazy].
  - destruct (k "") eqn:E; [|done]. intros [= <- <-].
    exists "", "". by rewrite !app_empty_r.
  - destruct (k (String c s)) eqn:E.
    + intros [= <- <-]. exists "", (String c s). by rewrite !app_empty_r.
    + destruct (cls c) eqn:Ec; [|done].
      intros (w & r & -> & -> & Hw & Hk)%IH.
      exists (String c w), r. rewrite app_snoc. cbn [all_chars].
      by rewrite Ec, Hw.
Qed.

Lemma rep_greedy_sound s : ∀ acc g gs,
  rep_greedy cls k acc s = Some (g, gs) →
  ∃ w r, s = w +:+ r ∧ g = acc +:+ w ∧ all_chars cls w = true ∧ k r = Some gs.
Proof.
  assert (Hhere : ∀ acc s g gs,
    (λ gs, (acc, gs)) <$> k s = Some (g, gs) →
    ∃ w r, s = w +:+ r ∧ g = acc +:+ w ∧ all_chars cls w = true
           ∧ k r = Some gs).
  { intros acc s' g gs. destruct (k s') eqn:E; [|done]. intros [= <- <-].
    exists "", s'. by rewrite !app_empty_r. }
  induction s as [|c s IH]; intros acc g gs; cbn [rep_greedy]; [by eauto|].
  destruct (cls c) eqn:Ec; [|by eauto].
  destruct (rep_greedy cls k (acc +:+ String c "") s) as [[g' gs']|] eqn:E;
    [|by eauto].
  intros [= -> ->]. apply IH in E as (w & r & -> & -> & Hw & Hk).
  exists (String c w), r. rewrite app_snoc. cbn [all_chars].
  by rewrite Ec, Hw.
Qed.

(** A repetition captures a run of its class at the start of the text,
    not empty for [+], and the rest of the pattern matches after it. *)
Lemma rep_sound q m s g gs :
  rep cls q m k s = Some (g, gs) →
  ∃ r, s = g +:+ r ∧ all_chars cls g = true ∧ k r = Some gs
       ∧ (q = Plus → g ≠ "").
Proof.
  assert (Hfrom : ∀ acc s,
    rep_from m cls k acc s = Some (g, gs) →
    ∃ w r, s = w +:+ r ∧ g = acc +:+ w ∧ all_chars cls w = true
           ∧ k r = Some gs).
  { intros acc s'. destruct m; [apply rep_greedy_sound|apply rep_lazy_sound]. }
  unfold rep. destruct q.
  - intros (w & r & -> & -> & Hw & Hk)%Hfrom. exists r. by split_and!.
  - destruct s as [|c s]; [done|]. destruct (cls c) eqn:Ec; [|done].
    intros (w & r & -> & -> & Hw & Hk)%Hfrom. exists r.
    split_and!; [done| |done|done]. rewrite app_cons. cbn [all_chars].
    change ("" +:+ w) with w. by rewrite Ec, Hw.
Qed.

(** The lazy repetition stops at the first place where the rest of the
    pattern matches. *)
Lemma rep_lazy_found w : ∀ acc r gs,
  all_chars cls w = true →
  (∀ w1 w2, w = w1 +:+ w2 → w2 ≠ "" → k (w2 +:+ r) = None) →
  k r = Some gs →
  rep_lazy cls k acc (w +:+ r) = Some (acc +:+ w, gs).
Proof.
  induction w as [|c w IH]; intros acc r gs Hw Hnone Hk.
  - change ("" +:+ r) with r. rewrite app_empty_r.
    destruct r; cbn [rep_lazy]; by rewrite Hk.
  - rewrite app_cons. cbn [rep_lazy all_chars] in *.
    apply andb_true_iff in Hw as [Hc Hw].
    rewrite <-app_cons, (Hnone "" (String c w)) by done.
    rewrite Hc, (IH _ r gs), ?app_snoc; try done.
    intros w1 w2 -> Hw2. by apply (Hnone (String c w1) w2).
Qed.

(** The greedy repetition takes the whole run when the rest of the
    pattern matches after it. *)
Lemma rep_greedy_max w : ∀ acc r gs,
  all_chars cls w = true →
  match r with String c _ => cls c = false | "" => True end →
  k r = Some gs →
  rep_greedy cls k acc (w +:+ r) = Some (acc +:+ w, gs).
Proof.
  induction w as [|c w IH]; intros acc r gs Hw Hr Hk.
  - change ("" +:+ r) with r. rewrite app_empty_r.
    destruct r; cbn [rep_greedy]; rewrite ?Hr, Hk; done.
  - rewrite app_cons. cbn [rep_greedy all_chars] in *.
    apply andb_true_iff in Hw as [Hc Hw].
    by rewrite Hc, (IH _ r gs), ?app_snoc.
Qed.
End RepSound.

Lemma occurs_suffix_starts sep w1 w2 :
  occurs sep (w1 +:+ w2) = false → starts_with sep w2 = false.
Proof. apply occurs_suffix. Qed.

(** In front of an occurrence of [sep], no other one starts inside a
    text that contains none. *)
Lemma not_before c0 sep' w w1 w2 x :
  all_chars (is_not c0) sep' = true →
  occurs (String c0 sep') w = false →
  w = w1 +:+ w2 → w2 ≠ "" →
  strip_prefix (String c0 sep') (w2 +:+ String c0 sep' +:+ x) = None.
Proof.
  intros Hsep Hno -> Hw2.
  destruct (strip_prefix _ _) eqn:E; [|done]. exfalso.
  assert (starts_with (String c0 sep') (w2 +:+ String c0 sep' +:+ x) = true)
    as Hs by (unfold starts_with; by rewrite E).
  apply no_straddle in Hs; [|done|done].
  apply occurs_suffix in Hno. congruence.
Qed.

Lemma occurs_tail sep c s : occurs sep (String c s) = false → occurs sep s = false.
Proof. cbn [occurs]. by intros [_ ?]%orb_false_iff. Qed.

(** The title pattern on a line in the written form. *)
Lemma title_match_written t u rest :
  t ≠ "" → u ≠ "" →
  all_chars dot t = true → all_chars dot u = true →
  occurs "](" t = false → occurs ")**" u = false →
  title_match (title_line t u rest) = Some (t, u).
Proof.
  intros Ht Hu Hdt Hdu Hnt Hnu.
  destruct t as [|ct t]; [done|]. destruct u as [|cu u]; [done|].
  cbn [all_chars] in Hdt, Hdu.
  apply andb_true_iff in Hdt as [Hct Hdt], Hdu as [Hcu Hdu].
  assert (Hurl : re_match [Rep dot Plus Lazy true; Lit ")**"]
                   (String cu u +:+ ")**" +:+ rest) = Some [String cu u]).
  { cbn [re_match]. rewrite app_cons. cbn [rep]. rewrite Hcu. cbn [rep_from].
    rewrite (rep_lazy_found dot _ u _ _ []); [done|done| |].
    - intros w1 w2 Hw Hw2.
      by rewrite (not_before ")" "**" u w1 w2 rest)
        by (done || by eapply occurs_tail).
    - by rewrite strip_prefix_app. }
  unfold title_match, title_line, title_re. cbn [re_match].
  rewrite strip_prefix_app, app_cons. cbn [rep]. rewrite Hct. cbn [rep_from].
  rewrite (rep_lazy_found dot _ t _ _ [String cu u]); [done|done| |].
  - intros w1 w2 Hw Hw2.
    by rewrite (not_before "]" "(" t w1 w2 (String cu u +:+ ")**" +:+ rest))
      by (done || by eapply occurs_tail).
  - by rewrite strip_prefix_app.
Qed.

(** X5. An entry line in the written form is read as written: when the
    title holds no line feed and no "](", and the URL no line feed and
    no ")**", and neither is empty, the title pattern captures exactly
    the title and the URL, whatever follows the closing asterisks. *)
Theorem X5_title_line_read_back t u rest :
  t ≠ "" → u ≠ "" →
  all_chars dot t = true → all_chars dot u = true →
  occurs "](" t = false → occurs ")**" u = false →
  title_match (title_line t u rest) = Some (t, u).
Proof. apply title_match_written. Qed.

(** X6. What the title pattern captures is on the line, in the written
    form: the line is the opening, the title, "](", the URL, the closing
    asterisks and a rest; title and URL are not empty and hold no line
    feed. *)
Theorem X6_title_match_shape line t u :
  title_match line = Some (t, u) →
  ∃ rest, line = title_line t u rest
    ∧ t ≠ "" ∧ u ≠ "" ∧ all_chars dot t = true ∧ all_chars dot u = true.
Proof.
  unfold title_match, title_re. cbn [re_match].
  destruct (strip_prefix "- **[" line) as [r0|] eqn:E0; [|done].
  apply strip_prefix_Some in E0 as ->.
  destruct (rep dot Plus Lazy _ r0) as [[g gs]|] eqn:E1; [|done].
  apply rep_sound in E1 as (r1 & -> & Hg & Hk1 & Hgne).
  destruct (strip_prefix "](" r1) as [r2|] eqn:E2; [|done].
  apply strip_prefix_Some in E2 as ->.
  destruct (rep dot Plus Lazy _ r2) as [[g2 gs2]|] eqn:E3; [|done].
  apply rep_sound in E3 as (r3 & -> & Hg2 & Hk3 & Hg2ne).
  destruct (strip_prefix ")**" r3) as [r4|] eqn:E4; [|done].
  apply strip_prefix_Some in E4 as ->.
  injection Hk3 as <-. injection Hk1 as <-. intros [= <- <-].
  exists r4. split_and!; auto.
Qed.

(** ** Metadata lines *)

Lemma lstrip_spaces w x : all_chars isspace w = true → lstrip (w +:+ x) = lstrip x.
Proof.
  induction w as [|c w IH]; [done|]. cbn [all_chars].
  intros [Hc Hw]%andb_true_iff. rewrite app_cons. cbn [lstrip].
  rewrite Hc. auto.
Qed.

(** A line that a metadata pattern matches is, after its leading
    whitespace, the key with its dash and colon. *)
Lemma meta_match_lead key line gs :
  re_match (meta_re key) line = Some gs →
  starts_with ("- " +:+ key +:+ ":") (lstrip line) = true.
Proof.
  unfold meta_re. cbn [re_match].
  destruct (rep isspace Star Greedy _ line) as [[g gs']|] eqn:E; [|done].
  intros _. apply rep_sound in E as (r & -> & Hg & Hk & _).
  destruct (strip_prefix ("- " +:+ key +:+ ":") r) as [r'|] eqn:E'; [|done].
  apply strip_prefix_Some in E' as ->.
  rewrite lstrip_spaces by done.
  change (("- " +:+ key +:+ ":") +:+ r')
    with (String "-" ((" " +:+ key +:+ ":") +:+ r')).
  cbn [lstrip]. change (isspace "-") with false. cbv iota.
  change (String "-" ((" " +:+ key +:+ ":") +:+ r'))
    with (("- " +:+ key +:+ ":") +:+ r').
  apply starts_with_app.
Qed.

Lemma title_match_lead line gs :
  re_match title_re line = Some gs → starts_with "- **[" (lstrip line) = true.
Proof.
  unfold title_re. cbn [re_match].
  destruct (strip_prefix "- **[" line) as [r|] eqn:E; [|done].
  intros _. apply strip_prefix_Some in E as ->. reflexivity.
Qed.

Lemma starts_with_differ p q x :
  starts_with p x = true →
  (∀ r, starts_with q (p +:+ r) = false) → starts_with q x = false.
Proof. intros [r ->]%starts_with_Some Hq. apply Hq. Qed.

Lemma patterns_differ line :
  let lead p := starts_with p (lstrip line) = true in
  (lead "- **[" → ¬ lead "- Methodology:" ∧ ¬ lead "- Published:"
                  ∧ ¬ lead "- Summary:")
  ∧ (lead "- Methodology:" → ¬ lead "- Published:" ∧ ¬ lead "- Summary:")
  ∧ (lead "- Published:" → ¬ lead "- Summary:").
Proof.
  intros lead. unfold lead.
  assert (Hd : ∀ p q, starts_with p (lstrip line) = true →
                      (∀ r, starts_with q (p +:+ r) = false) →
                      ¬ starts_with q (lstrip line) = true).
  { intros p q Hp Hq Hq'. by rewrite (starts_with_differ p q _ Hp Hq) in Hq'. }
  split; [|split].
  - intros Hl. split; [|split]; apply (Hd _ _ Hl); by intros r.
  - intros Hl. split; apply (Hd _ _ Hl); by intros r.
  - intros Hl. apply (Hd _ _ Hl); by intros r.
Qed.

(** X7. No line is matched by two of the four patterns, so the order of
    the branches that test them does not matter. *)
Theorem X7_patterns_exclusive line :
  let m p := is_Some (re_match p line) in
  (m title_re → ¬ m meth_re ∧ ¬ m pub_re ∧ ¬ m sum_re)
  ∧ (m meth_re → ¬ m pub_re ∧ ¬ m sum_re)
  ∧ (m pub_re → ¬ m sum_re).
Proof.
  intros m.
  assert (Ht : m title_re → starts_with "- **[" (lstrip line) = true)
    by (intros [gs Hgs]; by eapply title_match_lead).
  assert (Hm : m meth_re → starts_with "- Methodology:" (lstrip line) = true)
    by (intros [gs Hgs]; by apply (meta_match_lead "Methodology" line gs)).
  assert (Hp : m pub_re → starts_with "- Published:" (lstrip line) = true)
    by (intros [gs Hgs]; by apply (meta_match_lead "Published" line gs)).
  assert (Hs : m sum_re → starts_with "- Summary:" (lstrip line) = true)
    by (intros [gs Hgs]; by apply (meta_match_lead "Summary" line gs)).
  destruct (patterns_differ line) as (H1 & H2 & H3).
  split; [|split].
  - intros Hx%Ht. destruct (H1 Hx) as (Ha & Hb & Hc).
    split; [|split]; intros Hy; [apply Ha|apply Hb|apply Hc]; auto.
  - intros Hx%Hm. destruct (H2 Hx) as (Ha & Hb).
    split; intros Hy; [apply Ha|apply Hb]; auto.
  - intros Hx%Hp Hy. apply (H3 Hx). auto.
Qed.

Lemma group1_meta_other key key' line g :
  group1 (meta_re key) line = Some g →
  (∀ r, starts_with ("- " +:+ key' +:+ ":")
          (("- " +:+ key +:+ ":") +:+ r) = false) →
  group1 (meta_re key') line = None.
Proof.
  intros Hg Hdiff. apply group1_None.
  destruct (re_match (meta_re key') line) as [gs'|] eqn:E'; [|done].
  apply meta_match_lead in E'.
  assert (re_match (meta_re key) line ≠ None) as Hne.
  { intros HN. apply group1_None in HN. congruence. }
  destruct (re_match (meta_re key) line) as [gs|] eqn:E; [|done].
  apply meta_match_lead in E.
  eapply starts_with_differ in E; [|apply Hdiff]. congruence.
Qed.

Lemma re_match_lit l p s : re_match (Lit l :: p) (l +:+ s) = re_match p s.
Proof. cbn [re_match]. by rewrite strip_prefix_app. Qed.

Lemma re_match_spaces p w r gs :
  all_chars isspace w = true →
  match r with String c _ => isspace c = false | "" => True end →
  re_match p r = Some gs →
  re_match (Rep isspace Star Greedy false :: p) (w +:+ r) = Some gs.
Proof.
  intros Hw Hr Hp. cbn [re_match rep rep_from].
  by rewrite (rep_greedy_max isspace (re_match p) w "" r gs).
Qed.

Lemma re_match_rest_of_line c v :
  all_chars dot (String c v) = true →
  re_match [Rep dot Plus Greedy true] (String c v) = Some [String c v].
Proof.
  cbn [all_chars]. intros [Hc Hv]%andb_true_iff.
  cbn [re_match rep]. rewrite Hc. cbn [rep_from].
  rewrite <-(app_empty_r v) at 1.
  by rewrite (rep_greedy_max dot (re_match []) v _ "" []).
Qed.

(** The group of a metadata line in the written form. *)
Lemma group1_meta_line ind key sp c v :
  all_chars isspace ind = true → all_chars isspace sp = true →
  isspace c = false → all_chars dot (String c v) = true →
  group1 (meta_re key) (meta_line ind key sp (String c v)) = Some (String c v).
Proof.
  intros Hind Hsp Hc Hv. unfold group1, meta_line, meta_re.
  rewrite (re_match_spaces _ ind _ [String c v]); [done|done|reflexivity|].
  rewrite re_match_lit.
  rewrite (re_match_spaces _ sp _ [String c v]); [done|done|done|].
  by apply re_match_rest_of_line.
Qed.

(** X8. A metadata line in the written form sets the field it names:
    with whitespace before the dash and after the colon, and a value on
    the rest of the line that does not start with whitespace, the pending
    record gets the value split at the commas, or the value, with the
    whitespace around them removed. *)
Theorem X8_metadata_line_sets_field ind sp c v cp :
  all_chars isspace ind = true → all_chars isspace sp = true →
  isspace c = false → all_chars dot (String c v) = true →
  set_metadata (meta_line ind "Methodology" sp (String c v)) cp
  = with_methodologies (strip <$> split "," (String c v)) cp
  ∧ set_metadata (meta_line ind "Published" sp (String c v)) cp
    = with_published (strip (String c v)) cp
  ∧ set_metadata (meta_line ind "Summary" sp (String c v)) cp
    = with_summary (strip (String c v)) cp.
Proof.
  intros Hind Hsp Hc Hv.
  pose proof (λ key, group1_meta_line ind key sp c v Hind Hsp Hc Hv) as Hg.
  unfold set_metadata, meth_re, pub_re, sum_re. split_and!.
  - by rewrite (Hg "Methodology").
  - rewrite (group1_meta_other "Published" "Methodology" _ _
               (Hg "Published")) by done.
    by rewrite (Hg "Published").
  - rewrite (group1_meta_other "Summary" "Methodology" _ _
               (Hg "Summary")) by done.
    rewrite (group1_meta_other "Summary" "Published" _ _
               (Hg "Summary")) by done.
    by rewrite (Hg "Summary").
Qed.

(** ** Lists of tags *)

Lemma lstrip_length s : (String.length (lstrip s) ≤ String.length s)%nat.
Proof.
  induction s as [|c s IH]; [done|]. cbn [lstrip].
  destruct (isspace c); simpl; lia.
Qed.

Lemma rstrip_length s : (String.length (rstrip s) ≤ String.length s)%nat.
Proof.
  induction s as [|c s IH]; [done|]. cbn [rstrip].
  destruct (rstrip s); [destruct (isspace c)|]; simpl in *; lia.
Qed.

Lemma strip_space c s : isspace c = true → strip (String c s) = strip s.
Proof. intros Hc. unfold strip. cbn [lstrip]. by rewrite Hc. Qed.

Lemma strip_fixed_first c t : strip (String c t) = String c t → isspace c = false.
Proof.
  intros Hs. destruct (isspace c) eqn:Hc; [|done].
  rewrite strip_space in Hs by done.
  assert (String.length (strip t) ≤ String.length t)%nat as Hl.
  { unfold strip. etrans; [apply rstrip_length|apply lstrip_length]. }
  rewrite Hs in Hl. simpl in Hl. lia.
Qed.

Lemma split_comma_space s :
  strip <$> split "," (String " " s) = strip <$> split "," s.
Proof.
  unfold split. cbn [split_go].
  change (starts_with "," (String " " s)) with false. cbv iota.
  by destruct (split_go "," 0 s) as [p ps].
Qed.

Lemma split_commas ts :
  ts ≠ [] → Forall tag_ok ts → strip <$> split "," (join ", " ts) = ts.
Proof.
  intros Hne Hall. induction Hall as [|t ts (Ht & _ & Hc & Hs) Hall IH]; [done|].
  destruct ts as [|t2 ts].
  - cbn [join]. rewrite split_no_occurrence by done. cbn. by rewrite Hs.
  - change (join ", " (t :: t2 :: ts))
      with (t +:+ ", " +:+ join ", " (t2 :: ts)).
    change (t +:+ ", " +:+ join ", " (t2 :: ts))
      with (t +:+ "," +:+ String " " (join ", " (t2 :: ts))).
    rewrite (split_app "," "" eq_refl), fmap_app.
    rewrite split_no_occurrence by done. cbn [fmap list_fmap app].
    rewrite Hs, split_comma_space, IH by done. done.
Qed.

Lemma join_tags_line ts :
  ts ≠ [] → Forall tag_ok ts →
  ∃ c v, join ", " ts = String c v ∧ isspace c = false
         ∧ all_chars dot (String c v) = true.
Proof.
  intros Hne Hall.
  assert (all_chars dot (join ", " ts) = true) as Hdot.
  { clear Hne. induction Hall as [|t ts (_ & Hd & _) Hall IH]; [done|].
    destruct ts as [|t2 ts]; [done|].
    change (join ", " (t :: t2 :: ts))
      with (t +:+ ", " +:+ join ", " (t2 :: ts)).
    rewrite !all_chars_app, Hd, IH. done. }
  destruct Hall as [|t ts (Ht & _ & _ & Hs) Hall]; [done|].
  destruct t as [|c t]; [done|]. apply strip_fixed_first in Hs.
  destruct (join_prefix ", " (String c t) ts) as [r Hr].
  rewrite app_cons in Hr. rewrite Hr in *. eauto.
Qed.

(** X9. A list of tags written with ", " between them is read back as
    the list: when each tag is not empty, holds no comma and no line
    feed and has no whitespace around it, splitting at the commas and
    stripping gives the tags in order, and a Methodology line with them
    sets the methodologies of the pending record to them. *)
Theorem X9_tags_read_back ts :
  ts ≠ [] → Forall tag_ok ts →
  strip <$> split "," (join ", " ts) = ts
  ∧ ∀ ind sp cp,
      all_chars isspace ind = true → all_chars isspace sp = true →
      set_metadata (meta_line ind "Methodology" sp (join ", " ts)) cp
      = with_methodologies ts cp.
Proof.
  intros Hne Hall. split; [by apply split_commas|].
  intros ind sp cp Hind Hsp.
  destruct (join_tags_line ts Hne Hall) as (c & v & Hj & Hc & Hv).
  unfold set_metadata, meth_re.
  rewrite Hj, (group1_meta_line ind "Methodology" sp c v) by done.
  by rewrite <-Hj, split_commas.
Qed.

(** ** The text of the serialized dataset *)

Lemma escape_char_printable c : all_chars printable (escape_char c) = true.
Proof. each_ascii c; reflexivity. Qed.

Lemma escape_printable s : all_chars printable (escape s) = true.
Proof.
  induction s as [|c s IH]; [done|]. cbn [escape].
  by rewrite all_chars_app, escape_char_printable, IH.
Qed.

Lemma dumps_string_printable s : all_chars printable (dumps_string s) = true.
Proof.
  unfold dumps_string. cbn [all_chars].
  by rewrite all_chars_app, escape_printable.
Qed.

Lemma dumps_nat_printable n : all_chars printable (dumps_nat n) = true.
Proof. unfold dumps_nat. by induction (Nat.to_uint n). Qed.

Lemma join_all_chars P sep l :
  all_chars P sep = true → Forall (λ x, all_chars P x = true) l →
  all_chars P (join sep l) = true.
Proof.
  intros Hsep Hall. induction Hall as [|x l Hx Hall IH]; [done|].
  destruct l as [|y l]; [done|].
  change (join sep (x :: y :: l)) with (x +:+ sep +:+ join sep (y :: l)).
  by rewrite !all_chars_app, Hx, Hsep, IH.
Qed.

(** X10. The serialized dataset is printable ASCII throughout: whatever
    the strings of the dataset hold, the text written between the two
    literals of the page has no line feed, no other control character
    and no character above the tilde. *)
Theorem X10_dumps_printable v : all_chars printable (dumps v) = true.
Proof.
  induction v as [[]|n|s|l IH|l IH] using json_ind'; cbn [dumps];
    try done.
  - apply dumps_nat_printable.
  - apply dumps_string_printable.
  - rewrite !all_chars_app, join_all_chars; [done|done|].
    by apply Forall_map.
  - rewrite !all_chars_app, join_all_chars; [done|done|].
    apply Forall_map. eapply Forall_impl; [apply IH|].
    intros [k v] Hv. cbn [fst snd] in *.
    by rewrite !all_chars_app, dumps_string_printable, Hv.
Qed.

Lemma escape_char_length c :
  if plain c then escape_char c = String c ""
  else (2 ≤ String.length (escape_char c))%nat.
Proof. each_ascii c; vm_compute; (reflexivity || lia). Qed.

Lemma escape_length s : (String.length s ≤ String.length (escape s))%nat.
Proof.
  induction s as [|c s IH]; [done|]. cbn [escape String.length].
  rewrite string_length_app. pose proof (escape_char_length c) as Hc.
  destruct (plain c); [rewrite Hc; simpl|]; lia.
Qed.

Lemma escape_plain s : escape s = s ↔ all_chars plain s = true.
Proof.
  induction s as [|c s IH]; [done|]. cbn [escape all_chars].
  pose proof (escape_char_length c) as Hc. destruct (plain c) eqn:Ep.
  - rewrite Hc, app_cons. change ("" +:+ escape s) with (escape s).
    rewrite andb_true_l, <-IH. split; [by intros [= ->]|by intros ->].
  - split; [|done]. intros He. exfalso.
    apply (f_equal String.length) in He.
    rewrite string_length_app in He. cbn [String.length] in He.
    pose proof (escape_length s). lia.
Qed.

Lemma string_app_inj_r t : ∀ x y, x +:+ t = y +:+ t → x = y.
Proof.
  induction x as [|c x IH]; intros [|d y] He; [done|..].
  - apply (f_equal String.length) in He.
    rewrite !string_length_app in He. simpl in He. lia.
  - apply (f_equal String.length) in He.
    rewrite !string_length_app in He. simpl in He. lia.
  - rewrite !app_cons in He. injection He as -> He. f_equal. auto.
Qed.

(** X11. A string is written between its quotes exactly as it is if and
    only if all its characters are printable ASCII other than the quote
    and the backslash: the characters of markup, such as the angle
    brackets, the ampersand and the slash, are never escaped. *)
Theorem X11_plain_strings_verbatim s :
  (dumps (JStr s) = String DQ (s +:+ String DQ "")
   ↔ all_chars plain s = true)
  ∧ plain "<" = true ∧ plain ">" = true ∧ plain "&" = true
  ∧ plain "/" = true.
Proof.
  split; [|done]. cbn [dumps]. unfold dumps_string.
  rewrite <-escape_plain. split.
  - intros [= He]. by apply string_app_inj_r in He.
  - by intros ->.
Qed.

(** ** The page determines the dataset *)

Lemma dumps_inj v1 v2 : dumps v1 = dumps v2 → v1 = v2.
Proof.
  intros He. pose proof (json_loads_dumps v1) as H1.
  rewrite He, json_loads_dumps in H1. by injection H1.
Qed.

Lemma dataset_json_inj d1 d2 : dataset_json d1 = dataset_json d2 → d1 = d2.
Proof.
  intros He. pose proof (json_dataset_json d1) as H1.
  rewrite He, json_dataset_json in H1. by injection H1.
Qed.

(** X12. Two datasets that give the same page are the same dataset:
    with the two literals of the template fixed, nothing of the dataset
    is lost or confused in the text of the page. *)
Theorem X12_page_determines_dataset html_head html_tail d1 d2 :
  generate_html html_head html_tail d1 = generate_html html_head html_tail d2
  ↔ d1 = d2.
Proof.
  split; [|by intros ->]. unfold generate_html. intros He.
  apply (inj (String.app html_head)) in He.
  apply string_app_inj_r in He. by apply dataset_json_inj, dumps_inj.
Qed.

(** ** The dataset in terms of the document *)

Lemma section_declared_category section c p :
  (c, p) ∈ section_declared section → c ≠ "Table of Contents".
Proof.
  unfold section_declared.
  destruct (split NL (strip section)) as [|l0 rest]; [by intros ?%elem_of_nil|].
  destruct (String.eqb_spec (strip l0) "Table of Contents") as [|Hne];
    [by intros ?%elem_of_nil|].
  by intros (c' & [= -> _] & _)%list_elem_of_fmap.
Qed.

Lemma declared_category content c p :
  (c, p) ∈ declared content → c ≠ "Table of Contents".
Proof.
  unfold declared. intros (s & Hin & _)%list_elem_of_bind.
  by eapply section_declared_category.
Qed.

(** The record of the output for a declared URL. *)
Lemma output_of_declared `{SetOrder} today content :
  ∃ ds, parse_readme today content = Some ds
    ∧ ∀ d, d ∈ declared content →
        ∃ p, p ∈ d_papers ds ∧ p_url p = p_url d.2
          ∧ p_applications p
            = filter (λ a, a ≠ REVIEWS)
                (categories_of (p_url d.2) (declared content)).
Proof.
  destruct (parse_readme_scanned today content) as (st & _ & Hs & ->).
  eexists; split; [done|]. intros d Hd.
  destruct (scanned_all _ _ Hs d Hd) as [i Hi].
  apply (scanned_seen _ _ Hs) in Hi as (q & Hq & Hu).
  exists (tag_review (normalize_paper q)). split_and!; [|done|].
  - apply list_elem_of_lookup. exists i. apply aggregate_lookup. eauto.
  - pose proof (scanned_merged _ _ Hs i q Hq) as Hm.
    apply merged_first in Hm as (? & ? & ? & _ & _ & _ & Heq).
    cbn [tag_review normalize_paper with_applications with_methodologies
         with_is_review p_applications].
    rewrite Heq at 1. by rewrite <-Hu.
Qed.

Lemma remap_never m t :
  remap m = Some t → t ≠ "Machine Learning" ∧ t ≠ "Artificial Intelligence".
Proof.
  unfold remap, meth_remap. cbn [dict_get].
  destruct (String.eqb_spec "Machine Learning" m) as [<-|H1];
    [by intros [= <-]|].
  destruct (String.eqb_spec "Artificial Intelligence" m) as [<-|H2]; [done|].
  by intros [= <-].
Qed.

(** X13. The labels of the dataset come from the document and from
    nowhere else: an application is a category some URL is declared
    under, other than the reviews label, and every such category is an
    application; so neither "Reviews / Tutorials / Perspectives" nor
    "Table of Contents" is ever an application, and the empty tag,
    "Machine Learning" and "Artificial Intelligence" are never
    methodologies. *)
Theorem X13_labels_of_the_dataset `{SetOrder} today content :
  ∃ ds, parse_readme today content = Some ds
    ∧ (∀ a, a ∈ d_applications ds
            ↔ a ≠ REVIEWS ∧ ∃ u, declared_under content u a)
    ∧ (REVIEWS ∉ d_applications ds)
    ∧ ("Table of Contents" ∉ d_applications ds)
    ∧ (∀ m, m ∈ d_methodologies ds →
            m ≠ "" ∧ m ≠ "Machine Learning" ∧ m ≠ "Artificial Intelligence").
Proof.
  destruct (output_record today content) as (ds & Hparse & Hrec).
  destruct (output_of_declared today content) as (ds' & Hparse' & Hdecl).
  rewrite Hparse in Hparse'. injection Hparse' as <-.
  exists ds. split; [done|].
  assert (Hds : ∃ st, ds = aggregate today (papers st)).
  { destruct (parse_readme_scanned today content) as (st & _ & _ & Hp).
    rewrite Hparse in Hp. injection Hp as ->. eauto. }
  destruct Hds as [st ->].
  assert (Happs : ∀ a, a ∈ d_applications (aggregate today (papers st))
                       ↔ a ≠ REVIEWS ∧ ∃ u, declared_under content u a).
  { intros a.
    change (d_applications (aggregate today (papers st)))
      with (all_apps (d_papers (aggregate today (papers st)))).
    rewrite (proj2 (proj2 (all_apps_spec _))). split.
    - intros (p & [i Hi]%list_elem_of_lookup_1 & Ha).
      destruct (Hrec i p Hi) as (ds1 & d & ds2 & _ & _ & _ & ->).
      cbn [tag_review normalize_paper with_applications with_methodologies
           with_is_review p_applications] in Ha.
      apply list_elem_of_filter in Ha as [Hne Ha].
      split; [done|]. exists (p_url d.2). by apply elem_of_categories_of.
    - intros (Hne & u & p0 & Hin & Hu).
      destruct (Hdecl (a, p0) Hin) as (p & Hp & _ & Happs).
      exists p. split; [done|]. rewrite Happs.
      apply list_elem_of_filter. split; [done|].
      apply elem_of_categories_of. by exists p0. }
  split; [done|]. split; [|split].
  - rewrite Happs. tauto.
  - rewrite Happs. intros (_ & u & p0 & Hin & _).
    by apply declared_category in Hin.
  - intros m.
    change (d_methodologies (aggregate today (papers st)))
      with (all_meths (d_papers (aggregate today (papers st)))).
    rewrite (proj2 (proj2 (all_meths_spec _))).
    intros (Hne & p & [i Hi]%list_elem_of_lookup_1 & Hm).
    split; [done|].
    apply aggregate_lookup in Hi as (q & _ & ->).
    apply normalize_paper_spec in Hm as (m0 & _ & Hr).
    by eapply remap_never.
Qed.

Lemma dict_get_tabulate_None {V} (f : string → V) (ks : list string) k :
  k ∉ ks → dict_get k ((λ k, (k, f k)) <$> ks) = None.
Proof.
  induction ks as [|k' ks IH]; [done|]. cbn [fmap list_fmap dict_get].
  intros [Hne Hk]%not_elem_of_cons.
  destruct (String.eqb_spec k' k) as [->|_]; [done|]. auto.
Qed.

(** X14. Reading the matrix: an application that is not listed has no
    row and a methodology that is not listed has no entry in any row;
    an entry that is there is at most the number of papers, and it is
    positive exactly when some paper has both labels. *)
Theorem X14_matrix_lookup `{SetOrder} today ps :
  let ds := build_dataset today ps in
  (∀ app, app ∉ d_applications ds → dict_get app (d_matrix ds) = None)
  ∧ (∀ app row meth,
       dict_get app (d_matrix ds) = Some row →
       meth ∉ d_methodologies ds → dict_get meth row = None)
  ∧ (∀ app row meth n,
       dict_get app (d_matrix ds) = Some row → dict_get meth row = Some n →
       app ∈ d_applications ds ∧ meth ∈ d_methodologies ds
       ∧ (n ≤ length ps)%nat
       ∧ ((0 < n)%nat ↔ ∃ p, p ∈ ps ∧ app ∈ p_applications p
                              ∧ meth ∈ p_methodologies p)).
Proof.
  cbn [build_dataset d_applications d_methodologies d_matrix].
  destruct (all_apps_spec ps) as (_ & Hand & _).
  destruct (all_meths_spec ps) as (_ & Hmnd & _).
  rewrite build_matrix_tabulate by done.
  assert (Hrow : ∀ app row,
    dict_get app ((λ app, (app, build_row ps (all_meths ps) app))
                    <$> all_apps ps) = Some row →
    app ∈ all_apps ps
    ∧ row = (λ meth, (meth, count ps app meth)) <$> all_meths ps).
  { intros app row Hg. destruct (decide (app ∈ all_apps ps)) as [Hin|Hout].
    - rewrite (dict_get_tabulate (build_row ps (all_meths ps))) in Hg by done.
      injection Hg as <-. by rewrite build_row_tabulate.
    - by rewrite dict_get_tabulate_None in Hg. }
  split_and!.
  - intros app Hout. by apply dict_get_tabulate_None.
  - intros app row meth (_ & ->)%Hrow Hout. by apply dict_get_tabulate_None.
  - intros app row meth n (Happ & ->)%Hrow Hg.
    destruct (decide (meth ∈ all_meths ps)) as [Hin|Hout];
      [|by rewrite dict_get_tabulate_None in Hg].
    rewrite (dict_get_tabulate (count ps app)) in Hg by done.
    injection Hg as <-. split_and!; [done|done|apply length_filter|].
    unfold count. split.
    + destruct (filter _ ps) as [|p l] eqn:Ef; [simpl; lia|]. intros _.
      assert (p ∈ filter (λ p, app ∈ p_applications p
                              ∧ meth ∈ p_methodologies p) ps)
        as [[??]?]%list_elem_of_filter by (rewrite Ef; left).
      eauto.
    + intros (p & Hp & Ha & Hm).
      assert (p ∈ filter (λ p, app ∈ p_applications p
                              ∧ meth ∈ p_methodologies p) ps) as Hin'
        by (by apply list_elem_of_filter).
      destruct (filter _ ps); [by apply elem_of_nil in Hin'|simpl; lia].
Qed.

(** X15. The first declaration of a URL decides its record: the record
    at position [i] has the title of the first declaration of its URL,
    its published and summary strings, and the methodologies its tags
    are mapped to; its applications are the categories the URL is
    declared under anywhere in the document, in the order of their first
    appearance, the reviews label left out. *)
Theorem X15_first_declaration_wins `{SetOrder} today content :
  ∃ ds, parse_readme today content = Some ds
    ∧ ∀ i p, d_papers ds !! i = Some p →
        ∃ ds1 d ds2,
          declared content = ds1 ++ d :: ds2
          ∧ p_url d.2 = p_url p
          ∧ Forall (λ d', p_url d'.2 ≠ p_url p) ds1
          ∧ p_title p = p_title d.2
          ∧ p_published p = p_published d.2
          ∧ p_summary p = p_summary d.2
          ∧ p_methodologies p = set_list (clean (p_methodologies d.2))
          ∧ p_applications p
            = filter (λ a, a ≠ REVIEWS)
                (dedup_first
                   ((filter (λ d', p_url d'.2 = p_url p)
                       (declared content)).*1)).
Proof.
  destruct (output_record today content) as (ds & Hparse & Hrec).
  exists ds. split; [done|]. intros i p Hi.
  destruct (Hrec i p Hi) as (ds1 & d & ds2 & Hds & Hfirst & _ & ->).
  exists ds1, d, ds2. by split_and!.
Qed.

(** ** Entries in the written form are read back *)

Lemma title_match_meta_line key line g :
  group1 (meta_re key) line = Some g →
  (∀ r, starts_with "- **[" (("- " +:+ key +:+ ":") +:+ r) = false) →
  title_match line = None.
Proof.
  intros Hg Hdiff. apply title_match_None.
  destruct (re_match title_re line) as [gs|] eqn:E; [|done].
  apply title_match_lead in E.
  assert (re_match (meta_re key) line ≠ None) as Hne.
  { intros HN. apply group1_None in HN. congruence. }
  destruct (re_match (meta_re key) line) as [gs'|] eqn:E'; [|done].
  apply meta_match_lead in E'.
  eapply starts_with_differ in E'; [|apply Hdiff]. congruence.
Qed.

Lemma value_ok_line ind key sp v :
  all_chars isspace ind = true → all_chars isspace sp = true →
  value_ok v → group1 (meta_re key) (meta_line ind key sp v) = Some v.
Proof.
  intros Hind Hsp (Hc & Hd & _). destruct v as [|c v]; [done|].
  by apply group1_meta_line.
Qed.

(** The three metadata lines of an entry, one after the other. *)
Lemma set_metadata_entry p q :
  p_methodologies p ≠ [] → Forall tag_ok (p_methodologies p) →
  value_ok (p_published p) → value_ok (p_summary p) →
  let l1 := meta_line "  " "Methodology" " " (join ", " (p_methodologies p)) in
  let l2 := meta_line "  " "Published" " " (p_published p) in
  let l3 := meta_line "  " "Summary" " " (p_summary p) in
  title_match l1 = None ∧ title_match l2 = None ∧ title_match l3 = None
  ∧ set_metadata l3 (set_metadata l2 (set_metadata l1 q))
    = with_summary (p_summary p)
        (with_published (p_published p)
           (with_methodologies (p_methodologies p) q)).
Proof.
  intros Hne Htags Hpub Hsum l1 l2 l3.
  destruct (join_tags_line _ Hne Htags) as (c & v & Hj & Hc & Hv).
  assert (H1 : group1 (meta_re "Methodology") l1 = Some (String c v)).
  { unfold l1. rewrite Hj. by apply group1_meta_line. }
  assert (H2 : group1 (meta_re "Published") l2 = Some (p_published p))
    by (by apply value_ok_line).
  assert (H3 : group1 (meta_re "Summary") l3 = Some (p_summary p))
    by (by apply value_ok_line).
  split_and!; [by eapply title_match_meta_line..|].
  unfold set_metadata, meth_re, pub_re, sum_re.
  rewrite H1, <-Hj, split_commas by done.
  rewrite (group1_meta_other "Published" "Methodology" _ _ H2) by done.
  rewrite H2.
  rewrite (group1_meta_other "Summary" "Methodology" _ _ H3) by done.
  rewrite (group1_meta_other "Summary" "Published" _ _ H3) by done.
  rewrite H3. destruct Hpub as (_ & _ & ->), Hsum as (_ & _ & ->). done.
Qed.

Lemma title_match_entry p :
  p_title p ≠ "" → all_chars dot (p_title p) = true →
  occurs "](" (p_title p) = false →
  p_url p ≠ "" → all_chars dot (p_url p) = true →
  occurs ")**" (p_url p) = false →
  title_match (title_line (p_title p) (p_url p) "")
  = Some (p_title p, p_url p).
Proof.
  intros Ht Hdt Hnt Hu Hdu Hnu. by apply title_match_written.
Qed.

Lemma candidates_entry category p lines pending :
  entry_ok category p →
  candidates category pending (entry_lines p ++ lines)
  = option_list pending ++ candidates category (Some p) lines.
Proof.
  intros (Hid & Happs & Hrev & (Ht & Hdt & Hnt) & (Hu & Hdu & Hnu)
          & (Hne & Htags) & Hpub & Hsum).
  destruct (set_metadata_entry p (new_paper 0 (p_title p) (p_url p) category)
              Hne Htags Hpub Hsum) as (H1 & H2 & H3 & Hset).
  unfold entry_lines. cbn [app candidates].
  rewrite title_match_entry, H1, H2, H3 by done.
  cbn [fmap option_fmap option_map]. rewrite Hset. do 3 f_equal.
  destruct p; cbn in *. by subst.
Qed.

Lemma candidates_entries category ps : ∀ pending,
  Forall (entry_ok category) ps →
  candidates category pending (ps ≫= entry_lines) = option_list pending ++ ps.
Proof.
  induction ps as [|p ps IH]; intros pending Hall; [by rewrite app_nil_r|].
  inversion_clear Hall as [|?? Hp Hps]. rewrite bind_cons.
  by rewrite candidates_entry, IH.
Qed.

(** X16. Entries in the written form are read back: when the entries
    of a section are written as a title line and the three metadata
    lines, with titles, URLs, tags and values that hold none of the
    delimiters of their place, the line loop and the flush after it
    commit exactly the written records, in order, under the category of
    the section. *)
Theorem X16_written_entries_read_back category st ps :
  Forall (entry_ok category) ps →
  ('(st', cur) ← foldM (scan_line category) (st, None) (ps ≫= entry_lines);
   flush category cur st')
  = foldM commit st ((λ p, (category, p)) <$> ps).
Proof.
  intros Hall. rewrite (scan_lines_candidates category _ st None) by done.
  cbn [fmap option_fmap option_map].
  by rewrite candidates_entries.
Qed.

(** ** Whitespace around categories, tags and values *)

Lemma rstrip_idem s : rstrip (rstrip s) = rstrip s.
Proof.
  induction s as [|c s IH]; [done|]. cbn [rstrip].
  destruct (rstrip s) as [|d r] eqn:E.
  - destruct (isspace c) eqn:Ec; [done|]. cbn [rstrip]. by rewrite Ec.
  - cbn [rstrip] in *. by rewrite IH.
Qed.

Lemma lstrip_head s :
  lstrip s = "" ∨ ∃ c r, lstrip s = String c r ∧ isspace c = false.
Proof.
  induction s as [|c s IH]; [by left|]. cbn [lstrip].
  destruct (isspace c) eqn:Ec; [done|]. right. eauto.
Qed.

Lemma rstrip_head c s :
  isspace c = false → ∃ r, rstrip (String c s) = String c r.
Proof.
  intros Hc. cbn [rstrip]. destruct (rstrip s); [rewrite Hc|]; eauto.
Qed.

Lemma strip_head s :
  strip s = "" ∨ ∃ c r, strip s = String c r ∧ isspace c = false.
Proof.
  unfold strip. destruct (lstrip_head s) as [->|(c & r & -> & Hc)]; [by left|].
  right. destruct (rstrip_head c r Hc) as [r' ->]. eauto.
Qed.

Lemma strip_idem s : strip (strip s) = strip s.
Proof.
  destruct (strip_head s) as [->|(c & r & Hs & Hc)]; [done|].
  rewrite Hs. unfold strip at 1. cbn [lstrip]. rewrite Hc, <-Hs.
  apply rstrip_idem.
Qed.

Lemma rstrip_all_space w : all_chars isspace w = true → rstrip w = "".
Proof.
  induction w as [|c w IH]; [done|]. cbn [all_chars rstrip].
  intros [Hc Hw]%andb_true_iff. by rewrite IH, Hc.
Qed.

Lemma rstrip_spaces x w :
  all_chars isspace w = true → rstrip (x +:+ w) = rstrip x.
Proof.
  intros Hw. induction x as [|c x IH]; [by apply rstrip_all_space|].
  rewrite app_cons. cbn [rstrip]. by rewrite IH.
Qed.

Lemma lstrip_all_space w : all_chars isspace w = true → lstrip w = "".
Proof.
  induction w as [|c w IH]; [done|]. cbn [all_chars lstrip].
  intros [Hc Hw]%andb_true_iff. rewrite Hc. auto.
Qed.

Lemma strip_spaces_r s w :
  all_chars isspace w = true → strip (s +:+ w) = strip s.
Proof.
  intros Hw. unfold strip. induction s as [|c s IH].
  - change ("" +:+ w) with w. by rewrite lstrip_all_space.
  - rewrite app_cons. cbn [lstrip]. destruct (isspace c); [done|].
    rewrite <-app_cons. by apply rstrip_spaces.
Qed.

(** X17. What [strip] leaves has no whitespace in front, stripping
    again changes nothing, and whitespace added around a text is not
    seen: a heading, a tag or a value written with blanks around it
    gives the same category, tag or value. *)
Theorem X17_strip_ignores_surrounding_whitespace s :
  strip (strip s) = strip s
  ∧ (strip s = "" ∨ ∃ c r, strip s = String c r ∧ isspace c = false)
  ∧ ∀ w1 w2,
      all_chars isspace w1 = true → all_chars isspace w2 = true →
      strip (w1 +:+ s +:+ w2) = strip s.
Proof.
  split; [apply strip_idem|]. split; [apply strip_head|].
  intros w1 w2 H1 H2. unfold strip at 1. rewrite lstrip_spaces by done.
  by apply strip_spaces_r.
Qed.

(** X18. The index the loop keeps is right after every document:
    [paper_id] is the number of records, [seen_urls] sends a URL to a
    position exactly when the record at that position has this URL, and
    each record carries its position as identifier. *)
Theorem X18_index_invariant content :
  ∃ st, scan_document content = Some st
    ∧ paper_id st = length (papers st)
    ∧ (∀ u i, seen_urls st !! u = Some i
              ↔ ∃ p, papers st !! i = Some p ∧ p_url p = u)
    ∧ (∀ i p, papers st !! i = Some p → p_id p = i)
    ∧ NoDup (p_url <$> papers st).
Proof.
  destruct (scan_document_scanned content) as (st & Hst & Hs).
  exists st. split_and!; [done|apply Hs|apply Hs| |by eapply scanned_NoDup].
  intros i p Hp. apply (scanned_merged _ _ Hs) in Hp.
  by apply merged_first in Hp as (? & ? & ? & _ & _ & _ & ->).
Qed.

(** ** The further properties on concrete texts *)

Lemma X3_table_of_contents_skipped_witness :
  occurs SECTION_MARK toc_section = false
  ∧ section_category toc_section = "Table of Contents"
  ∧ (parse_readme (H := keep_last_order) "2026-11-04"
       ("# Papers" +:+ SECTION_MARK +:+ toc_section
        +:+ SECTION_MARK +:+ oncology_section)
     = parse_readme (H := keep_last_order) "2026-11-04"
         ("# Papers" +:+ SECTION_MARK +:+ oncology_section)
     ∧ parse_readme (H := keep_last_order) "2026-11-04"
         ("# Papers" +:+ SECTION_MARK +:+ toc_section)
       = parse_readme (H := keep_last_order) "2026-11-04" "# Papers").
Proof.
  split; [reflexivity|]. split; [reflexivity|].
  apply (X3_table_of_contents_skipped (H := keep_last_order)); reflexivity.
Defined.

Lemma X5_title_line_read_back_witness :
  "A [new] paper" ≠ "" ∧ "http://x.y/a(b)c" ≠ ""
  ∧ all_chars dot "A [new] paper" = true
  ∧ all_chars dot "http://x.y/a(b)c" = true
  ∧ occurs "](" "A [new] paper" = false
  ∧ occurs ")**" "http://x.y/a(b)c" = false
  ∧ title_match (title_line "A [new] paper" "http://x.y/a(b)c" " (2023)")
    = Some ("A [new] paper", "http://x.y/a(b)c").
Proof.
  split; [discriminate|]. split; [discriminate|].
  do 4 (split; [reflexivity|]).
  apply X5_title_line_read_back; (discriminate || reflexivity).
Defined.

Lemma X6_title_match_shape_witness :
  title_match "- **[A](u)** and more" = Some ("A", "u")
  ∧ ∃ rest, "- **[A](u)** and more" = title_line "A" "u" rest
      ∧ "A" ≠ "" ∧ "u" ≠ "" ∧ all_chars dot "A" = true
      ∧ all_chars dot "u" = true.
Proof.
  split; [reflexivity|]. apply X6_title_match_shape. reflexivity.
Defined.

Lemma X8_metadata_line_sets_field_witness :
  all_chars isspace "  " = true ∧ all_chars isspace " " = true
  ∧ isspace "2" = false ∧ all_chars dot "2023Jan15 " = true
  ∧ ∀ cp,
      set_metadata (meta_line "  " "Methodology" " " "2023Jan15 ") cp
      = with_methodologies (strip <$> split "," "2023Jan15 ") cp
      ∧ set_metadata (meta_line "  " "Published" " " "2023Jan15 ") cp
        = with_published (strip "2023Jan15 ") cp
      ∧ set_metadata (meta_line "  " "Summary" " " "2023Jan15 ") cp
        = with_summary (strip "2023Jan15 ") cp.
Proof.
  do 4 (split; [reflexivity|]). intros cp.
  apply (X8_metadata_line_sets_field "  " " " "2" "023Jan15 "); reflexivity.
Defined.

Lemma X9_tags_read_back_witness :
  ["Machine Learning"; "NLME"] ≠ []
  ∧ Forall tag_ok ["Machine Learning"; "NLME"]
  ∧ strip <$> split "," (join ", " ["Machine Learning"; "NLME"])
    = ["Machine Learning"; "NLME"]
  ∧ ∀ ind sp cp,
      all_chars isspace ind = true → all_chars isspace sp = true →
      set_metadata
        (meta_line ind "Methodology" sp
           (join ", " ["Machine Learning"; "NLME"])) cp
      = with_methodologies ["Machine Learning"; "NLME"] cp.
Proof.
  assert (Hok : Forall tag_ok ["Machine Learning"; "NLME"]).
  { repeat constructor; (discriminate || reflexivity). }
  split; [discriminate|]. split; [exact Hok|].
  apply X9_tags_read_back; [discriminate|exact Hok].
Defined.

Lemma X16_written_entries_read_back_witness :
  Forall (entry_ok "Oncology") [entry_A; entry_B]
  ∧ ('(st', cur) ← foldM (scan_line "Oncology") (init, None)
                     ([entry_A; entry_B] ≫= entry_lines);
     flush "Oncology" cur st')
    = foldM commit init ((λ p, ("Oncology", p)) <$> [entry_A; entry_B]).
Proof.
  assert (Hok : Forall (entry_ok "Oncology") [entry_A; entry_B]).
  { repeat constructor; (discriminate || reflexivity). }
  split; [exact Hok|]. apply X16_written_entries_read_back. exact Hok.
Defined.

(** ** The heading line of a section *)

Lemma lstrip_app h x : lstrip h ≠ "" → lstrip (h +:+ x) = lstrip h +:+ x.
Proof.
  induction h as [|c h IH]; [done|]. rewrite app_cons. cbn [lstrip].
  destruct (isspace c); [done|]. intros _. by rewrite app_cons.
Qed.

Lemma lstrip_spaces_l w s : all_chars isspace w = true → lstrip (w +:+ s) = lstrip s.
Proof.
  induction w as [|c w IH]; [done|]. cbn [all_chars].
  intros [Hc Hw]%andb_true_iff. rewrite app_cons. cbn [lstrip].
  rewrite Hc. auto.
Qed.

Lemma strip_spaces_l w s : all_chars isspace w = true → strip (w +:+ s) = strip s.
Proof. intros Hw. unfold strip. by rewrite lstrip_spaces_l. Qed.

Lemma lstrip_idem s : lstrip (lstrip s) = lstrip s.
Proof.
  induction s as [|c s IH]; [done|]. cbn [lstrip].
  destruct (isspace c) eqn:Ec; [done|]. cbn [lstrip]. by rewrite Ec.
Qed.

Lemma strip_lstrip s : strip (lstrip s) = strip s.
Proof. unfold strip. by rewrite lstrip_idem. Qed.

Lemma rstrip_app x y :
  rstrip (x +:+ y)
  = match rstrip y with "" => rstrip x | String _ _ => x +:+ rstrip y end.
Proof.
  induction x as [|c x IH].
  - change ("" +:+ y) with y. change ("" +:+ rstrip y) with (rstrip y).
    by destruct (rstrip y).
  - rewrite app_cons. cbn [rstrip]. rewrite IH.
    destruct (rstrip y) as [|d r]; [done|].
    rewrite app_cons. by destruct x.
Qed.

Lemma all_chars_lstrip P s :
  all_chars P s = true → all_chars P (lstrip s) = true.
Proof.
  induction s as [|c s IH]; [done|]. cbn [lstrip].
  destruct (isspace c); [|done]. cbn [all_chars].
  intros [_ Hs]%andb_true_iff. auto.
Qed.

Lemma all_chars_rstrip P s :
  all_chars P s = true → all_chars P (rstrip s) = true.
Proof.
  induction s as [|c s IH]; [done|]. cbn [all_chars rstrip].
  intros [Hc Hs]%andb_true_iff. specialize (IH Hs).
  destruct (rstrip s) as [|d r].
  - destruct (isspace c); [done|]. cbn [all_chars]. by rewrite Hc.
  - cbn [all_chars] in *. by rewrite Hc.
Qed.

(** The lines of a section whose heading has text: the heading, and
    the lines of the text below it without the whitespace at its end. *)
Lemma split_strip_heading h body :
  occurs NL h = false → strip h ≠ "" →
  split NL (strip (h +:+ NL +:+ body))
  = match rstrip body with
    | "" => [strip h]
    | String _ _ => lstrip h :: split NL (rstrip body)
    end.
Proof.
  intros Hnl Hh. apply occurs_NL in Hnl.
  assert (lstrip h ≠ "") as Hl by (intros E; apply Hh; unfold strip; by rewrite E).
  unfold strip. rewrite lstrip_app by done. rewrite rstrip_app.
  change (NL +:+ body) with (String (ascii_of_nat 10) body). cbn [rstrip].
  destruct (rstrip body) as [|d r].
  - change (isspace (ascii_of_nat 10)) with true. cbv iota.
    apply split_no_occurrence, occurs_NL.
    by apply all_chars_rstrip, all_chars_lstrip.
  - change (lstrip h +:+ String (ascii_of_nat 10) (String d r))
      with (lstrip h +:+ NL +:+ String d r).
    rewrite (split_app (ascii_of_nat 10) "") by done.
    rewrite split_no_occurrence; [done|].
    by apply occurs_NL, all_chars_lstrip.
Qed.

Lemma title_match_empty : title_match "" = None.
Proof. reflexivity. Qed.

Lemma section_declared_heading h body :
  occurs NL h = false → strip h ≠ "" → strip h ≠ "Table of Contents" →
  section_declared (h +:+ NL +:+ body)
  = (λ c, (strip h, c)) <$> candidates (strip h) None (split NL (rstrip body)).
Proof.
  intros Hnl Hh Htoc. unfold section_declared.
  rewrite split_strip_heading by done. apply String.eqb_neq in Htoc.
  destruct (rstrip body) as [|d r] eqn:E.
  - rewrite strip_idem, Htoc. cbn [candidates option_list fmap list_fmap].
    change (split NL "") with [""]. cbn [candidates].
    by rewrite title_match_empty.
  - by rewrite strip_lstrip, Htoc.
Qed.

Lemma section_declared_spaces w section :
  all_chars isspace w = true →
  section_declared (w +:+ section) = section_declared section.
Proof. intros Hw. unfold section_declared. by rewrite strip_spaces_l. Qed.

Lemma scan_lines_unrecognized category before line after : ∀ acc,
  unrecognized line →
  foldM (scan_line category) acc (before ++ line :: after)
  = foldM (scan_line category) acc (before ++ after).
Proof.
  intros acc Hl. rewrite !foldM_app.
  destruct (foldM (scan_line category) acc before) as [[st cur]|]; [|done].
  cbn [mbind option_bind foldM].
  rewrite scan_line_other by (apply title_match_None, Hl).
  destruct cur as [cp|]; cbn [fmap option_fmap option_map mbind option_bind];
    [|done].
  by rewrite set_metadata_unrecognized.
Qed.

(** ** The merge rule, and the lines it is applied to *)

(** C1, as stated, fails: under a heading without text the first entry
    line is taken as the category of the section. It is a line of a
    section that is not the table of contents and it matches the title
    pattern, but no record is made of it: its URL is in no record of the
    collection. *)
Lemma C1_title_line_under_empty_heading :
  ¬ (∀ content section line t u st,
       section ∈ tail (sections content) →
       section_category section ≠ "Table of Contents" →
       line ∈ tail (split NL section) →
       title_match line = Some (t, u) →
       scan_document content = Some st →
       u ∈ p_url <$> papers st).
Proof.
  intros Hall.
  destruct (scan_document_scanned title_under_empty_heading) as (st & Hst & _).
  specialize (Hall title_under_empty_heading
                (NL +:+ "- **[A](u1)**" +:+ NL +:+ "- **[B](u2)**")
                "- **[A](u1)**" "A" "u1" st).
  assert (papers <$> scan_document title_under_empty_heading
          = Some [Paper 0 "B" "u2" [] ["- **[A](u1)**"] "" "" None]) as Hp
    by (vm_compute; reflexivity).
  rewrite Hst in Hp. injection Hp as Hp. rewrite Hp in Hall.
  assert ("u1" ∈ ["u2"]) as Hin.
  { apply Hall; [| | |reflexivity|done].
    - change (tail (sections title_under_empty_heading))
        with [NL +:+ "- **[A](u1)**" +:+ NL +:+ "- **[B](u2)**"].
      apply list_elem_of_here.
    - vm_compute. discriminate.
    - change (tail (split NL (NL +:+ "- **[A](u1)**" +:+ NL +:+ "- **[B](u2)**")))
        with ["- **[A](u1)**"; "- **[B](u2)**"].
      apply list_elem_of_here. }
  apply list_elem_of_singleton in Hin. discriminate Hin.
Qed.

(** C1, amended. The lines of a section are those after [lines[0]] of
    the stripped section text. Every title line among them, the last one
    of the section included, is committed exactly once, in document
    order, under the merge rule: the section loop is the fold of
    [commit] over the declarations, of which each section that is not
    the table of contents has one per title line. Under a heading with
    text these lines are all the lines below the heading, up to the
    whitespace at the end of the section; whitespace in front of a
    section, an empty heading line included, is not seen, so the first
    line with text is the category. When a declaration is committed, a
    URL that no record has appends the candidate, while a URL some
    record has only extends the application list of that record by the
    category, if it is not in it, leaving every other field as the
    earlier occurrence set it. *)
Theorem C1_finalize_merge_rule content :
  scan_document content = foldM commit init (declared content)
  ∧ (∀ section l0 rest,
       split NL (strip section) = l0 :: rest →
       strip l0 ≠ "Table of Contents" →
       length (section_declared section) = title_lines rest)
  ∧ (∀ h body,
       occurs NL h = false → strip h ≠ "" →
       strip h ≠ "Table of Contents" →
       section_declared (h +:+ NL +:+ body)
       = (λ c, (strip h, c))
           <$> candidates (strip h) None (split NL (rstrip body)))
  ∧ (∀ w section,
       all_chars isspace w = true →
       section_declared (w +:+ section) = section_declared section)
  ∧ (∀ ds1 d ds2,
       declared content = ds1 ++ d :: ds2 →
       ∃ st st',
         foldM commit init ds1 = Some st ∧ commit st d = Some st'
         ∧ (p_url d.2 ∉ p_url <$> papers st →
            papers st' = papers st ++ [with_id (length (papers st)) d.2])
         ∧ (∀ i ex,
              papers st !! i = Some ex → p_url ex = p_url d.2 →
              papers st'
              = <[i := with_applications
                         (if bool_decide (d.1 ∈ p_applications ex)
                          then p_applications ex
                          else p_applications ex ++ [d.1]) ex]> (papers st))).
Proof.
  split; [apply scan_document_declared|].
  split.
  { intros section l0 rest Hsplit Hcat. unfold section_declared.
    rewrite Hsplit. apply String.eqb_neq in Hcat. rewrite Hcat.
    by rewrite length_fmap, candidates_length. }
  split; [apply section_declared_heading|].
  split; [apply section_declared_spaces|].
  intros ds1 d ds2 Hdecl.
  pose proof (declared_ok content) as Hok. rewrite Hdecl in Hok.
  apply Forall_app in Hok as [Hok1 Hok2].
  inversion_clear Hok2 as [|?? Hd _].
  destruct (foldM_commit_scanned ds1 init [] scanned_init Hok1)
    as (st & Hst & Hs). simpl in Hs.
  destruct (commit_scanned _ _ _ Hs Hd) as (st' & Hc & Hs').
  exists st, st'. split; [done|]. split; [done|]. split.
  - intros Hnew. revert Hc. unfold commit, finalize.
    cbn [fst snd p_url with_id].
    destruct (seen_urls st !! p_url d.2) as [i|] eqn:Es.
    + apply (scanned_seen _ _ Hs) in Es as (ex & Hi & Hu).
      exfalso. apply Hnew. apply list_elem_of_fmap. exists ex.
      split; [done|]. by eapply list_elem_of_lookup_2.
    + intros [= <-]. simpl. by rewrite (scanned_id _ _ Hs).
  - intros i ex Hi Hu. revert Hc. unfold commit, finalize.
    cbn [fst snd p_url with_id].
    assert (seen_urls st !! p_url d.2 = Some i) as ->
      by (apply Hs; eauto).
    rewrite Hi. cbn [mbind option_bind].
    case_bool_decide; intros [= <-]; [|done].
    symmetry. apply list_insert_id. rewrite Hi. by destruct ex.
Qed.

(** ** Lines that match no pattern *)

Lemma scan_section_heading st h body :
  occurs NL h = false → strip h ≠ "" → strip h ≠ "Table of Contents" →
  scan_section st (h +:+ NL +:+ body)
  = '(st', cur) ← foldM (scan_line (strip h)) (st, None)
                     (split NL (rstrip body));
    flush (strip h) cur st'.
Proof.
  intros Hnl Hh Htoc.
  rewrite scan_section_declared, section_declared_heading by done.
  by rewrite (scan_lines_candidates (strip h) _ st None).
Qed.

Lemma scan_section_spaces st w section :
  all_chars isspace w = true →
  scan_section st (w +:+ section) = scan_section st section.
Proof. intros Hw. unfold scan_section. by rewrite strip_spaces_l. Qed.

Lemma scan_entry_defaults category st t u l lines :
  title_match l = Some (t, u) → Forall unrecognized lines →
  ('(st', cur) ← foldM (scan_line category) (st, None) (l :: lines);
   flush category cur st')
  = finalize category (Paper (paper_id st) t u [] [category] "" "" None) st.
Proof.
  intros Hl Hall. rewrite (scan_lines_candidates category _ st None) by done.
  cbn [candidates fmap option_fmap option_map]. rewrite Hl.
  rewrite candidates_unrecognized by done.
  change (foldM commit st [(category, new_paper 0 t u category)]
          = finalize category (with_id (paper_id st) (new_paper 0 t u category))
              st).
  cbn [foldM]. unfold commit. cbn [fst snd].
  by destruct (finalize _ _ _).
Qed.

(** C8, as stated, fails: under a heading without text, a line that
    matches no pattern is not ignored. It is taken as the category of
    the section, so the document with the line and the document without
    it give different datasets. *)
Lemma C8_line_under_empty_heading :
  ¬ (∀ (O : SetOrder) today heading before line after,
       unrecognized line →
       parse_readme (H := O) today
         (one_section heading (before ++ line :: after))
       = parse_readme (H := O) today
           (one_section heading (before ++ after))).
Proof.
  intros Hall.
  specialize (Hall keep_last_order "2026-11-03" "" [] prose_line
                ["- **[A](u1)**"]).
  assert (unrecognized prose_line) as Hu by (by vm_compute).
  specialize (Hall Hu). vm_compute in Hall. discriminate Hall.
Qed.

(** C8, amended. The lines of a section are those after [lines[0]] of
    the stripped section text: all the lines below a heading that has
    text, up to the whitespace at the end of the section, while
    whitespace in front of a section, an empty heading line included,
    is not seen, so that the first line with text is the category
    whatever it is. A line of a section that none of the patterns
    matches changes nothing, and the loop over the lines gives the same
    with and without it; a line that is not a title line changes nothing
    while no record is pending, metadata lines included; while a record
    is pending, a Methodology line sets its methodologies to the trimmed
    items, else a Published line sets its published string, else a
    Summary line sets its summary string, each trimmed; a title line
    followed by lines that are not recognized is committed as the record
    with the defaults, no methodology, empty published and summary
    strings, which the later passes keep; and [parse_readme] returns a
    dataset for every document. *)
Theorem C8_unmatched_lines_ignored `{SetOrder} today content :
  (∀ category st cur line,
     unrecognized line →
     scan_line category (st, cur) line = Some (st, cur))
  ∧ (∀ category acc before line after,
       unrecognized line →
       foldM (scan_line category) acc (before ++ line :: after)
       = foldM (scan_line category) acc (before ++ after))
  ∧ (∀ st h body,
       occurs NL h = false → strip h ≠ "" →
       strip h ≠ "Table of Contents" →
       scan_section st (h +:+ NL +:+ body)
       = '(st', cur) ← foldM (scan_line (strip h)) (st, None)
                          (split NL (rstrip body));
         flush (strip h) cur st')
  ∧ (∀ st w section,
       all_chars isspace w = true →
       scan_section st (w +:+ section) = scan_section st section)
  ∧ (∀ category st line,
       re_match title_re line = None →
       scan_line category (st, None) line = Some (st, None))
  ∧ (∀ category st cp line,
       re_match title_re line = None →
       scan_line category (st, Some cp) line
       = Some (st, Some (set_metadata line cp))
       ∧ (∀ g, group1 meth_re line = Some g →
               set_metadata line cp
               = with_methodologies (strip <$> split "," g) cp)
       ∧ (∀ g, group1 meth_re line = None →
               group1 pub_re line = Some g →
               set_metadata line cp = with_published (strip g) cp)
       ∧ (∀ g, group1 meth_re line = None →
               group1 pub_re line = None →
               group1 sum_re line = Some g →
               set_metadata line cp = with_summary (strip g) cp))
  ∧ (∀ category st t u l lines,
       title_match l = Some (t, u) → Forall unrecognized lines →
       ('(st', cur) ← foldM (scan_line category) (st, None) (l :: lines);
        flush category cur st')
       = finalize category
           (Paper (paper_id st) t u [] [category] "" "" None) st)
  ∧ (∀ p, p_methodologies p = [] →
          p_methodologies (tag_review (normalize_paper p)) = []
          ∧ p_published (tag_review (normalize_paper p)) = p_published p
          ∧ p_summary (tag_review (normalize_paper p)) = p_summary p)
  ∧ is_Some (parse_readme today content).
Proof.
  split.
  { intros category st cur line Hl.
    rewrite scan_line_other by (apply title_match_None, Hl).
    destruct cur as [cp|]; [|done]. simpl.
    by rewrite set_metadata_unrecognized. }
  split.
  { intros category acc before line after Hl.
    by apply scan_lines_unrecognized. }
  split; [apply scan_section_heading|].
  split; [apply scan_section_spaces|].
  split.
  { intros category st line Hl.
    by rewrite scan_line_other by (by apply title_match_None). }
  split.
  { intros category st cp line Hl. split.
    { by rewrite scan_line_other by (by apply title_match_None). }
    split; [|split].
    - intros g Hg. unfold set_metadata. by rewrite Hg.
    - intros g Hm Hg. unfold set_metadata. by rewrite Hm, Hg.
    - intros g Hm Hp Hg. unfold set_metadata. by rewrite Hm, Hp, Hg. }
  split; [apply scan_entry_defaults|].
  split.
  { intros p Hp. split; [|done].
    cbn [tag_review normalize_paper with_applications with_is_review
         with_methodologies p_methodologies].
    rewrite Hp. apply set_list_nil. }
  destruct (parse_readme_scanned today content) as (st & _ & _ & ->). eauto.
Qed.

(** ** The pages of two runs *)

Lemma paper_fields_eq p1 p2 :
  p_id p1 = p_id p2 → p_title p1 = p_title p2 → p_url p1 = p_url p2 →
  p_methodologies p1 = p_methodologies p2 →
  p_applications p1 = p_applications p2 →
  p_published p1 = p_published p2 → p_summary p1 = p_summary p2 →
  p_is_review p1 = p_is_review p2 → p1 = p2.
Proof. destruct p1, p2. simpl. by intros -> -> -> -> -> -> -> ->. Qed.

Lemma generate_html_inj html_head html_tail d1 d2 :
  generate_html html_head html_tail d1 = generate_html html_head html_tail d2 →
  d1 = d2.
Proof.
  unfold generate_html. intros He.
  apply (inj (String.app html_head)) in He.
  apply string_app_inj_r in He. by apply dataset_json_inj, dumps_inj.
Qed.

(** C6, amended. For a fixed date, two runs on the same document return
    datasets that agree on the applications, the methodologies, the
    matrix and the date, and paper by paper on every field, the
    methodologies of a paper up to their order; the two pages are the
    same text exactly when every paper has its methodologies in the same
    order in both runs, which is so when the two runs iterate over sets
    in the same order. *)
Theorem C6_output_up_to_set_order (O1 O2 : SetOrder) today content :
  ∃ ds1 ds2,
    parse_readme (H := O1) today content = Some ds1
    ∧ parse_readme (H := O2) today content = Some ds2
    ∧ d_applications ds1 = d_applications ds2
    ∧ d_methodologies ds1 = d_methodologies ds2
    ∧ d_matrix ds1 = d_matrix ds2
    ∧ d_lastUpdated ds1 = d_lastUpdated ds2
    ∧ Forall2 (λ p1 p2,
         p_id p1 = p_id p2 ∧ p_title p1 = p_title p2 ∧ p_url p1 = p_url p2
         ∧ p_applications p1 = p_applications p2
         ∧ p_published p1 = p_published p2 ∧ p_summary p1 = p_summary p2
         ∧ p_is_review p1 = p_is_review p2
         ∧ p_methodologies p1 ≡ₚ p_methodologies p2)
        (d_papers ds1) (d_papers ds2)
    ∧ (∀ html_head html_tail,
         generate_html html_head html_tail ds1
         = generate_html html_head html_tail ds2
         ↔ Forall2 (λ p1 p2, p_methodologies p1 = p_methodologies p2)
             (d_papers ds1) (d_papers ds2))
    ∧ ((∀ l, set_list (SetOrder := O1) l = set_list (SetOrder := O2) l) →
       Forall2 (λ p1 p2, p_methodologies p1 = p_methodologies p2)
         (d_papers ds1) (d_papers ds2)).
Proof.
  destruct (parse_readme_scanned (H := O1) today content) as (st & Hst & _ & H1).
  exists (aggregate (H := O1) today (papers st)),
         (aggregate (H := O2) today (papers st)).
  split; [done|]. split; [unfold parse_readme; by rewrite Hst|].
  pose proof (aggregate_agree O1 O2 today (papers st))
    as (Ha & Hm & Hx & Hd & Hp).
  do 4 (split; [done|]). split; [done|]. split.
  - intros html_head html_tail. split.
    + intros He%generate_html_inj. rewrite <-He.
      apply Forall_Forall2_diag, Forall_forall. done.
    + intros Hsame. f_equal.
      destruct (aggregate (H := O1) today (papers st)) as [ps1 a1 m1 x1 t1].
      destruct (aggregate (H := O2) today (papers st)) as [ps2 a2 m2 x2 t2].
      cbn [d_papers d_applications d_methodologies d_matrix d_lastUpdated] in *.
      subst a2 m2 x2 t2. f_equal.
      clear -Hp Hsame. revert Hsame.
      induction Hp as [|p1 p2 l1 l2 Hf _ IH]; intros Hsame; [done|].
      inversion_clear Hsame as [|???? Hmeth Hrest].
      destruct Hf as (? & ? & ? & ? & ? & ? & ? & _).
      f_equal; [by apply paper_fields_eq|by apply IH].
  - intros Hsame. unfold aggregate, build_dataset. cbn [d_papers].
    rewrite <-!list_fmap_compose.
    apply Forall2_fmap, Forall_Forall2_diag, Forall_forall.
    intros q _. cbn. by rewrite Hsame.
Qed.
